(** * The scraper orchestrator of [base_scraper.py], embedded and verified

    The development follows the source file top to bottom:
    - the records the orchestrator stores (listing and content records,
      the per-collector entry, the master store);
    - a small state-and-exception monad for the effects the source has
      (the master file, the clock, [uuid4], the console, calls into a
      collector plugin, exceptions);
    - [ScraperResult] and its methods, then [ScraperOrchestrator] and its
      methods, each definition next to the lines it embeds;
    - the properties of the specification, proved or refuted on them.

    Conventions of the embedding.
    - A raw listing dict is a string-valued dict ([gmap string string]):
      the orchestrator only reads the six textual keys of it.  A raw
      content dict carries its textual keys the same way and its
      non-textual keys ([word_count], [images], ...) as optional fields.
    - The JSON document of the master file is kept as the typed [Store]
      it decodes to; a file whose text does not decode is [Garbled].
    - [datetime.now().isoformat()] and [str(uuid.uuid4())] read two
      streams of the environment; every theorem holds for all streams. *)

From Stdlib Require Import Ascii QArith.
From stdpp Require Import gmap strings list fin_maps pretty.

Local Open Scope string_scope.
Local Open Scope nat_scope.

(** ** Records *)

(** The dict built by [_standardize_announcement] (lines 80-90). *)
Record Announcement := {
  ann_id : string;
  ann_title : string;
  ann_url : string;
  ann_date : string;
  ann_category : string;
  ann_excerpt : string;
  ann_source_website : string;
  ann_scraped_at : string;
  ann_raw_data : gmap string string
}.

(** A raw content dict as a collector returns it. *)
Record RawContent := {
  rc_text : gmap string string;
  rc_word_count : option Z;
  rc_images : option (list string);
  rc_links : option (list string);
  rc_tags : option (list string);
  rc_comments : option (list string);
  rc_metadata : option (gmap string string)
}.

(** The dict built by [_standardize_content] (lines 94-110). *)
Record Content := {
  cnt_id : string;
  cnt_url : string;
  cnt_title : string;
  cnt_date_published : string;
  cnt_full_content : string;
  cnt_word_count : Z;
  cnt_images : list string;
  cnt_links : list string;
  cnt_contact_info : string;
  cnt_tags : list string;
  cnt_comments : list string;
  cnt_metadata : gmap string string;
  cnt_source_website : string;
  cnt_scraped_at : string;
  cnt_raw_data : RawContent
}.

(** Values of a [statistics] dict: counters, texts, and the quotient of
    two lengths (a Python float, kept as the exact fraction). *)
Inductive stat :=
| SNum (n : nat)
| SStr (s : string)
| SRatio (q : Q).

(** [ScraperResult] (lines 43-55). *)
Record ScraperResult := {
  sr_scraper_name : string;
  sr_website : string;
  sr_scraped_at : string;
  sr_session_id : string;
  sr_announcements : list Announcement;
  sr_full_content : list Content;
  sr_metadata : gmap string string;
  sr_errors : list string;
  sr_statistics : gmap string stat;
  sr_existing_urls : gset string;
  sr_new_urls : gset string;
  sr_skipped_duplicates : nat
}.

(** One value of [results_by_scraper]: the dict made by [to_dict]. *)
Record CorpusEntry := {
  e_scraper_info : gmap string string;
  e_statistics : gmap string stat;
  e_announcements : list Announcement;
  e_full_content : list Content;
  e_metadata : gmap string string;
  e_errors : list string
}.

Record History := {
  first_scrape : string;
  last_updated : string;
  total_scrapes : option nat
}.

Record Summary := {
  total_announcements : nat;
  total_full_content : nat;
  total_errors : nat;
  scrapers_count : option nat;
  summary_last_updated : option string
}.

(** The document of the master file. *)
Record Store := {
  scraping_history : History;
  summary : Summary;
  results_by_scraper : gmap string CorpusEntry
}.

(** What a path of the file system holds: text that [json.load] decodes
    to a store, or text on which reading raises with message [why]. *)
Inductive file :=
| Json (d : Store)
| Garbled (why : string).

(** ** Collectors *)

(** Result of [scrape_announcements]: the list, or an exception. *)
Inductive listing_call :=
| ListingYields (l : list (gmap string string))
| ListingFails (msg : string).

(** Result of [scrape_full_content]: the list, or an exception.  When the
    call raises, [processed] are the records the collector had built for
    earlier URLs; they sit in the frame of the aborted call and are not
    handed to the caller. *)
Inductive content_call :=
| ContentYields (l : list RawContent)
| ContentFails (processed : list RawContent) (msg : string).

(** [BaseScraperInterface] (lines 17-38), for a deterministic plugin. *)
Record Collector := {
  get_scraper_info : gmap string string;
  scrape_announcements : string → string → listing_call;
  scrape_full_content : list string → content_call;
  validate_date_format : string → bool
}.

(** Calls made to the plugin registered under a name, as they happen. *)
Inductive call :=
| CallInfo (name : string)
| CallListing (name start_date end_date : string)
| CallContent (name : string) (urls : list string).

(** ** Exceptions *)

(** [ReadFailure] is what [open] or [json.load] raises on a file that
    cannot be decoded, [PluginError] any [Exception] a collector raises. *)
Inductive exn :=
| ValueError (msg : string)
| KeyError (key : string)
| RecursionError
| ZeroDivisionError
| ReadFailure (msg : string)
| PluginError (msg : string).

(** ** Python's [repr] of a [str] and of a list of [str]. *)

Definition hex_digit (n : N) : ascii :=
  ascii_of_N (if (n <? 10)%N then 48 + n else 87 + n)%N.

Definition backslash : ascii := ascii_of_N 92.
Definition single_quote : ascii := ascii_of_N 39.
Definition double_quote : ascii := ascii_of_N 34.

Definition escaped (c : ascii) : string := String backslash (String c "").

Definition repr_char (quote : ascii) (c : ascii) : string :=
  let n := N_of_ascii c in
  if bool_decide (c = quote) || bool_decide (c = backslash)
  then escaped c
  else if (n =? 9)%N then escaped "t"
  else if (n =? 10)%N then escaped "n"
  else if (n =? 13)%N then escaped "r"
  else if (n <? 32)%N || (n =? 127)%N
       then String backslash
              (String "x" (String (hex_digit (n / 16)) (String (hex_digit (n mod 16)) "")))
  else String c "".

Fixpoint has_char (c : ascii) (s : string) : bool :=
  match s with
  | EmptyString => false
  | String c' s' => bool_decide (c = c') || has_char c s'
  end.

Fixpoint repr_body (quote : ascii) (s : string) : string :=
  match s with
  | EmptyString => ""
  | String c s' => repr_char quote c +:+ repr_body quote s'
  end.

(** [repr(s)]: single quotes, unless [s] has a single quote and no double
    quote.  Bytes above 127 are copied as they are. *)
Definition py_repr (s : string) : string :=
  let quote :=
    if has_char single_quote s && negb (has_char double_quote s)
    then double_quote else single_quote in
  String quote (repr_body quote s) +:+ String quote "".

Fixpoint str_join (sep : string) (l : list string) : string :=
  match l with
  | [] => ""
  | [x] => x
  | x :: rest => x +:+ sep +:+ str_join sep rest
  end.

Definition py_repr_list (l : list string) : string :=
  "[" +:+ str_join ", " (py_repr <$> l) +:+ "]".

(** [str(e)] *)
Definition exn_str (e : exn) : string :=
  match e with
  | ValueError msg => msg
  | KeyError key => py_repr key
  | RecursionError => "maximum recursion depth exceeded"
  | ZeroDivisionError => "division by zero"
  | ReadFailure msg => msg
  | PluginError msg => msg
  end.

(** ** Effects

    A computation over a mutable state [S] returns a value or raises; the
    state it leaves behind is kept in both cases, as a Python object keeps
    what was assigned before an exception. *)

Inductive outcome (A : Type) :=
| Returned (a : A)
| Raised (e : exn).
Arguments Returned {A} a.
Arguments Raised {A} e.

Definition M (S A : Type) : Type := S → outcome A * S.

Definition ret {S A} (a : A) : M S A := λ s, (Returned a, s).

Definition raise {S A} (e : exn) : M S A := λ s, (Raised e, s).

Definition bind {S A B} (m : M S A) (k : A → M S B) : M S B :=
  λ s, match m s with
       | (Returned a, s') => k a s'
       | (Raised e, s') => (Raised e, s')
       end.

(** [try: m  except Exception as e: h e] *)
Definition try_except {S A} (m : M S A) (h : exn → M S A) : M S A :=
  λ s, match m s with
       | (Returned a, s') => (Returned a, s')
       | (Raised e, s') => h e s'
       end.

Definition gets {S A} (f : S → A) : M S A := λ s, (Returned (f s), s).

Definition modify {S} (f : S → S) : M S unit := λ s, (Returned tt, f s).

Declare Scope py_scope.
Delimit Scope py_scope with py.
Notation "x <- m ;; k" := (bind m (λ x, k))
  (at level 100, m at next level, right associativity) : py_scope.
Notation "m ;; k" := (bind m (λ _, k))
  (at level 100, right associativity) : py_scope.
Local Open Scope py_scope.

(** [if c: m] *)
Definition when {S} (c : bool) (m : M S unit) : M S unit :=
  if c then m else ret tt.

(** [for x in l: body x] *)
Fixpoint for_each {S A} (l : list A) (body : A → M S unit) : M S unit :=
  match l with
  | [] => ret tt
  | x :: rest => body x ;; for_each rest body
  end.

(** The orchestrator object (lines 138-145; the directories only matter to
    discovery and to the report file). *)
Record Orchestrator := {
  master_file_path : string;
  loaded_scrapers : list (string * Collector);
  results : gmap string ScraperResult
}.

(** The orchestrator together with what it acts on. *)
Record state := {
  self : Orchestrator;
  fs : gmap string file;
  clock : nat → string;
  clock_reads : nat;
  uuids : nat → string;
  uuid_draws : nat;
  stdout : list string;
  calls : list call
}.

Definition set_self (o : Orchestrator) (s : state) : state :=
  {| self := o; fs := fs s; clock := clock s; clock_reads := clock_reads s;
     uuids := uuids s; uuid_draws := uuid_draws s; stdout := stdout s;
     calls := calls s |}.

Definition set_fs (f : gmap string file) (s : state) : state :=
  {| self := self s; fs := f; clock := clock s; clock_reads := clock_reads s;
     uuids := uuids s; uuid_draws := uuid_draws s; stdout := stdout s;
     calls := calls s |}.

Definition print_line (line : string) (s : state) : state :=
  {| self := self s; fs := fs s; clock := clock s; clock_reads := clock_reads s;
     uuids := uuids s; uuid_draws := uuid_draws s; stdout := stdout s ++ [line];
     calls := calls s |}.

Definition log_call (c : call) (s : state) : state :=
  {| self := self s; fs := fs s; clock := clock s; clock_reads := clock_reads s;
     uuids := uuids s; uuid_draws := uuid_draws s; stdout := stdout s;
     calls := calls s ++ [c] |}.

Definition tick (s : state) : state :=
  {| self := self s; fs := fs s; clock := clock s; clock_reads := S (clock_reads s);
     uuids := uuids s; uuid_draws := uuid_draws s; stdout := stdout s;
     calls := calls s |}.

Definition draw (s : state) : state :=
  {| self := self s; fs := fs s; clock := clock s; clock_reads := clock_reads s;
     uuids := uuids s; uuid_draws := S (uuid_draws s); stdout := stdout s;
     calls := calls s |}.

Definition print (line : string) : M state unit := modify (print_line line).

(** [datetime.now().isoformat()] *)
Definition now_isoformat : M state string :=
  λ s, (Returned (clock s (clock_reads s)), tick s).

(** [str(uuid.uuid4())] *)
Definition uuid4 : M state string :=
  λ s, (Returned (uuids s (uuid_draws s)), draw s).

(** A method of a [ScraperResult] runs on the object and on the rest. *)
Definition lift {R A} (m : M state A) : M (R * state) A :=
  λ rs, match m rs.2 with (a, s') => (a, (rs.1, s')) end.

Definition this {R A} (f : R → A) : M (R * state) A := gets (λ rs, f rs.1).

Definition update_this {R} (f : R → R) : M (R * state) unit :=
  modify (λ rs, (f rs.1, rs.2)).

(** Run a computation on the object [r]; hand back the object as it is
    left. *)
Definition on_object {R A} (r : R) (m : M (R * state) A) : M state (A * R) :=
  λ s, match m (r, s) with
       | (Returned a, (r', s')) => (Returned (a, r'), s')
       | (Raised e, (_, s')) => (Raised e, s')
       end.

(** ** ScraperResult *)

(** [__init__] (lines 43-55); [existing_urls or set()] is the set itself. *)
Definition ScraperResult_init (scraper_name website : string)
    (existing_urls : gset string) : M state ScraperResult :=
  scraped_at <- now_isoformat ;;
  session_id <- uuid4 ;;
  ret {| sr_scraper_name := scraper_name;
         sr_website := website;
         sr_scraped_at := scraped_at;
         sr_session_id := session_id;
         sr_announcements := [];
         sr_full_content := [];
         sr_metadata := ∅;
         sr_errors := [];
         sr_statistics := ∅;
         sr_existing_urls := existing_urls;
         sr_new_urls := ∅;
         sr_skipped_duplicates := 0 |}.

Definition skip_duplicate (r : ScraperResult) : ScraperResult :=
  {| sr_scraper_name := sr_scraper_name r; sr_website := sr_website r;
     sr_scraped_at := sr_scraped_at r; sr_session_id := sr_session_id r;
     sr_announcements := sr_announcements r;
     sr_full_content := sr_full_content r;
     sr_metadata := sr_metadata r; sr_errors := sr_errors r;
     sr_statistics := sr_statistics r;
     sr_existing_urls := sr_existing_urls r;
     sr_new_urls := sr_new_urls r;
     sr_skipped_duplicates := sr_skipped_duplicates r + 1 |}.

Definition append_announcement (a : Announcement) (r : ScraperResult) : ScraperResult :=
  {| sr_scraper_name := sr_scraper_name r; sr_website := sr_website r;
     sr_scraped_at := sr_scraped_at r; sr_session_id := sr_session_id r;
     sr_announcements := sr_announcements r ++ [a];
     sr_full_content := sr_full_content r;
     sr_metadata := sr_metadata r; sr_errors := sr_errors r;
     sr_statistics := sr_statistics r;
     sr_existing_urls := sr_existing_urls r;
     sr_new_urls := sr_new_urls r;
     sr_skipped_duplicates := sr_skipped_duplicates r |}.

Definition add_new_url (url : string) (r : ScraperResult) : ScraperResult :=
  {| sr_scraper_name := sr_scraper_name r; sr_website := sr_website r;
     sr_scraped_at := sr_scraped_at r; sr_session_id := sr_session_id r;
     sr_announcements := sr_announcements r;
     sr_full_content := sr_full_content r;
     sr_metadata := sr_metadata r; sr_errors := sr_errors r;
     sr_statistics := sr_statistics r;
     sr_existing_urls := sr_existing_urls r;
     sr_new_urls := {[url]} ∪ sr_new_urls r;
     sr_skipped_duplicates := sr_skipped_duplicates r |}.

Definition append_content (c : Content) (r : ScraperResult) : ScraperResult :=
  {| sr_scraper_name := sr_scraper_name r; sr_website := sr_website r;
     sr_scraped_at := sr_scraped_at r; sr_session_id := sr_session_id r;
     sr_announcements := sr_announcements r;
     sr_full_content := sr_full_content r ++ [c];
     sr_metadata := sr_metadata r; sr_errors := sr_errors r;
     sr_statistics := sr_statistics r;
     sr_existing_urls := sr_existing_urls r;
     sr_new_urls := sr_new_urls r;
     sr_skipped_duplicates := sr_skipped_duplicates r |}.

Definition append_error (msg : string) (r : ScraperResult) : ScraperResult :=
  {| sr_scraper_name := sr_scraper_name r; sr_website := sr_website r;
     sr_scraped_at := sr_scraped_at r; sr_session_id := sr_session_id r;
     sr_announcements := sr_announcements r;
     sr_full_content := sr_full_content r;
     sr_metadata := sr_metadata r; sr_errors := sr_errors r ++ [msg];
     sr_statistics := sr_statistics r;
     sr_existing_urls := sr_existing_urls r;
     sr_new_urls := sr_new_urls r;
     sr_skipped_duplicates := sr_skipped_duplicates r |}.

(** [self.statistics.update(more)]: keys of [more] win. *)
Definition update_statistics (more : gmap string stat) (r : ScraperResult) : ScraperResult :=
  {| sr_scraper_name := sr_scraper_name r; sr_website := sr_website r;
     sr_scraped_at := sr_scraped_at r; sr_session_id := sr_session_id r;
     sr_announcements := sr_announcements r;
     sr_full_content := sr_full_content r;
     sr_metadata := sr_metadata r; sr_errors := sr_errors r;
     sr_statistics := more ∪ sr_statistics r;
     sr_existing_urls := sr_existing_urls r;
     sr_new_urls := sr_new_urls r;
     sr_skipped_duplicates := sr_skipped_duplicates r |}.

(** [d.get(key, '')] and the truth value of a [str]. *)
Definition get_str (d : gmap string string) (key : string) : string :=
  default "" (d !! key).

Definition truthy (s : string) : bool := negb (bool_decide (s = "")).

(** [_standardize_announcement] (lines 78-90).  The default of [id] is an
    argument of [get], so a uuid is drawn whether or not it is used. *)
Definition standardize_announcement (announcement : gmap string string)
    : M (ScraperResult * state) Announcement :=
  fresh <- lift uuid4 ;;
  website <- this sr_website ;;
  scraped_at <- this sr_scraped_at ;;
  ret {| ann_id := default fresh (announcement !! "id");
         ann_title := get_str announcement "title";
         ann_url := get_str announcement "url";
         ann_date := get_str announcement "date";
         ann_category := default "General" (announcement !! "category");
         ann_excerpt := get_str announcement "excerpt";
         ann_source_website := website;
         ann_scraped_at := scraped_at;
         ann_raw_data := announcement |}.

(** [_standardize_content] (lines 92-110). *)
Definition standardize_content (content : RawContent)
    : M (ScraperResult * state) Content :=
  fresh <- lift uuid4 ;;
  website <- this sr_website ;;
  scraped_at <- this sr_scraped_at ;;
  ret {| cnt_id := default fresh (rc_text content !! "id");
         cnt_url := get_str (rc_text content) "url";
         cnt_title := get_str (rc_text content) "title";
         cnt_date_published := get_str (rc_text content) "date_published";
         cnt_full_content := get_str (rc_text content) "full_content";
         cnt_word_count := default 0%Z (rc_word_count content);
         cnt_images := default [] (rc_images content);
         cnt_links := default [] (rc_links content);
         cnt_contact_info := get_str (rc_text content) "contact_info";
         cnt_tags := default [] (rc_tags content);
         cnt_comments := default [] (rc_comments content);
         cnt_metadata := default ∅ (rc_metadata content);
         cnt_source_website := website;
         cnt_scraped_at := scraped_at;
         cnt_raw_data := content |}.

(** [add_announcement] (lines 57-71). *)
Definition add_announcement (announcement : gmap string string)
    : M (ScraperResult * state) bool :=
  let url := get_str announcement "url" in
  existing_urls <- this sr_existing_urls ;;
  if truthy url && bool_decide (url ∈ existing_urls)
  then update_this skip_duplicate ;; ret false
  else
    standardized <- standardize_announcement announcement ;;
    update_this (append_announcement standardized) ;;
    when (truthy url) (update_this (add_new_url url)) ;;
    ret true.

(** [add_full_content] (lines 73-76). *)
Definition add_full_content (content : RawContent) : M (ScraperResult * state) unit :=
  standardized <- standardize_content content ;;
  update_this (append_content standardized).

(** [to_dict] (lines 112-133); [**self.statistics] comes last and wins. *)
Definition to_dict (r : ScraperResult) : CorpusEntry :=
  {| e_scraper_info :=
       {[ "scraper_name" := sr_scraper_name r;
          "website" := sr_website r;
          "scraped_at" := sr_scraped_at r;
          "session_id" := sr_session_id r ]};
     e_statistics :=
       sr_statistics r ∪
       {[ "total_announcements" := SNum (length (sr_announcements r));
          "total_full_content" := SNum (length (sr_full_content r));
          "total_errors" := SNum (length (sr_errors r));
          "skipped_duplicates" := SNum (sr_skipped_duplicates r);
          "new_urls_found" := SNum (size (sr_new_urls r)) ]};
     e_announcements := sr_announcements r;
     e_full_content := sr_full_content r;
     e_metadata := sr_metadata r;
     e_errors := sr_errors r |}.

(** ** ScraperOrchestrator *)

(** The truth value of a list. *)
Definition nonempty {A} (l : list A) : bool :=
  match l with [] => false | _ :: _ => true end.

(** [d[key]] *)
Definition index {S} (d : gmap string string) (key : string) : M S string :=
  match d !! key with
  | Some v => ret v
  | None => raise (KeyError key)
  end.

(** [a / b] on two lengths. *)
Definition true_div {S} (a b : nat) : M S stat :=
  match b with
  | 0 => raise ZeroDivisionError
  | S _ => ret (SRatio (Z.of_nat a # Pos.of_nat b))
  end.

(** [name in d] and [d[name]] on a dict kept in insertion order. *)
Fixpoint dict_get {A} (name : string) (d : list (string * A)) : option A :=
  match d with
  | [] => None
  | (k, v) :: rest => if bool_decide (k = name) then Some v else dict_get name rest
  end.

(** The store returned when the master file does not exist
    (lines 150-162). *)
Definition empty_store (first last : string) : Store :=
  {| scraping_history :=
       {| first_scrape := first; last_updated := last; total_scrapes := Some 0 |};
     summary :=
       {| total_announcements := 0; total_full_content := 0; total_errors := 0;
          scrapers_count := None; summary_last_updated := None |};
     results_by_scraper := ∅ |}.

(** [load_existing_data] (lines 147-169).  The handler calls the method
    again on the same file; [depth] is the number of nested calls the
    interpreter still allows before it raises [RecursionError]. *)
Fixpoint load_existing_data (depth : nat) : M state Store :=
  path <- gets (λ s, master_file_path (self s)) ;;
  files <- gets fs ;;
  match files !! path with
  | None =>
      first <- now_isoformat ;;
      last <- now_isoformat ;;
      ret (empty_store first last)
  | Some f =>
      try_except
        (match f with
         | Json d => ret d
         | Garbled why => raise (ReadFailure why)
         end)
        (λ e,
           print ("Warning: Could not load existing data: " +:+ exn_str e) ;;
           match depth with
           | 0 => raise RecursionError
           | S depth' => load_existing_data depth'
           end)
  end.

(** [sys.getrecursionlimit()] *)
Definition recursion_limit : nat := 1000.

(** The URLs one entry contributes to the index (lines 181-191). *)
Definition entry_urls (e : CorpusEntry) : gset string :=
  list_to_set (filter (λ u, truthy u) (ann_url <$> e_announcements e)) ∪
  list_to_set (filter (λ u, truthy u) (cnt_url <$> e_full_content e)).

(** Lines 174-193 of [get_existing_urls]: the URLs of the entries to
    check.  A name that is [None] or empty selects every entry. *)
Definition known_urls (entries : gmap string CorpusEntry)
    (scraper_name : option string) : gset string :=
  let scrapers_to_check :=
    match scraper_name with
    | Some name => if truthy name then [name] else (map_to_list entries).*1
    | None => (map_to_list entries).*1
    end in
  ⋃ ((λ scraper,
        match entries !! scraper with
        | Some scraper_data => entry_urls scraper_data
        | None => ∅
        end) <$> scrapers_to_check).

(** [get_existing_urls] (lines 171-193). *)
Definition get_existing_urls (scraper_name : option string) : M state (gset string) :=
  existing_data <- load_existing_data recursion_limit ;;
  ret (known_urls (results_by_scraper existing_data) scraper_name).

(** Calls into a plugin; a call is logged, then returns or raises. *)
Definition call_get_scraper_info (name : string) (c : Collector)
    : M state (gmap string string) :=
  modify (log_call (CallInfo name)) ;;
  ret (get_scraper_info c).

Definition call_scrape_announcements (name : string) (c : Collector)
    (start_date end_date : string) : M state (list (gmap string string)) :=
  modify (log_call (CallListing name start_date end_date)) ;;
  match scrape_announcements c start_date end_date with
  | ListingYields l => ret l
  | ListingFails msg => raise (PluginError msg)
  end.

Definition call_scrape_full_content (name : string) (c : Collector)
    (urls : list string) : M state (list RawContent) :=
  modify (log_call (CallContent name urls)) ;;
  match scrape_full_content c urls with
  | ContentYields l => ret l
  | ContentFails _ msg => raise (PluginError msg)
  end.

(** The loop of lines 287-290. *)
Fixpoint admit_all (announcements new_announcements : list (gmap string string))
    : M (ScraperResult * state) (list (gmap string string)) :=
  match announcements with
  | [] => ret new_announcements
  | announcement :: rest =>
      added <- add_announcement announcement ;;
      admit_all rest
        (if added then new_announcements ++ [announcement] else new_announcements)
  end.

(** Step 1 of the [try] block (lines 283-294): the listing, filtered
    through the index. *)
Definition scrape_new_announcements (scraper_name : string) (scraper : Collector)
    (start_date end_date : string)
    : M (ScraperResult * state) (list (gmap string string)) :=
  lift (print "Step 1: Scraping announcements list...") ;;
  announcements <-
    lift (call_scrape_announcements scraper_name scraper start_date end_date) ;;
  new_announcements <- admit_all announcements [] ;;
  lift (print ("Found " +:+ pretty (length announcements) +:+ " total announcements")) ;;
  lift (print ("Added " +:+ pretty (length new_announcements) +:+ " new announcements")) ;;
  skipped <- this sr_skipped_duplicates ;;
  lift (print ("Skipped " +:+ pretty skipped +:+ " duplicates")) ;;
  ret new_announcements.

(** Step 2 of the [try] block (lines 296-307): full content for the new
    URLs only. *)
Definition scrape_new_content (scraper_name : string) (scraper : Collector)
    (scrape_full_content_flag : bool) (new_announcements : list (gmap string string))
    : M (ScraperResult * state) unit :=
  when (scrape_full_content_flag && nonempty new_announcements)
    (lift (print "Step 2: Scraping full content for new items only...") ;;
     let new_urls :=
       (λ ann, get_str ann "url")
         <$> filter (λ ann, truthy (get_str ann "url")) new_announcements in
     when (nonempty new_urls)
       (full_content_data <-
          lift (call_scrape_full_content scraper_name scraper new_urls) ;;
        for_each full_content_data add_full_content ;;
        lift (print ("Scraped full content for "
                     +:+ pretty (length full_content_data) +:+ " new items")))).

(** The end of the [try] block (lines 309-313). *)
Definition update_run_statistics (start_date end_date : string)
    : M (ScraperResult * state) unit :=
  stored_announcements <- this sr_announcements ;;
  stored_content <- this sr_full_content ;;
  success_rate <-
    (if nonempty stored_announcements
     then true_div (length stored_content) (length stored_announcements)
     else ret (SNum 0)) ;;
  update_this
    (update_statistics
       {[ "date_range" := SStr (start_date +:+ " to " +:+ end_date);
          "success_rate" := success_rate ]}).

(** The [try] block of [run_scraper] (lines 283-313). *)
Definition run_scraper_try (scraper_name : string) (scraper : Collector)
    (start_date end_date : string) (scrape_full_content_flag : bool)
    : M (ScraperResult * state) unit :=
  new_announcements <-
    scrape_new_announcements scraper_name scraper start_date end_date ;;
  scrape_new_content scraper_name scraper scrape_full_content_flag new_announcements ;;
  update_run_statistics start_date end_date.

(** The [except] block of [run_scraper] (lines 315-318). *)
Definition run_scraper_except (scraper_name : string) (e : exn)
    : M (ScraperResult * state) unit :=
  let error_msg := "Error running scraper " +:+ scraper_name +:+ ": " +:+ exn_str e in
  update_this (append_error error_msg) ;;
  lift (print error_msg).

Definition store_result (scraper_name : string) (result : ScraperResult) (s : state) : state :=
  set_self {| master_file_path := master_file_path (self s);
              loaded_scrapers := loaded_scrapers (self s);
              results := <[scraper_name := result]> (results (self s)) |} s.

(** [run_scraper] (lines 258-322). *)
Definition run_scraper (scraper_name start_date end_date : string)
    (scrape_full_content_flag : bool) : M state ScraperResult :=
  registry <- gets (λ s, loaded_scrapers (self s)) ;;
  match dict_get scraper_name registry with
  | None =>
      let available := registry.*1 in
      raise (ValueError ("Scraper '" +:+ scraper_name +:+ "' not found. Available: "
                         +:+ py_repr_list available))
  | Some scraper =>
      scraper_info <- call_get_scraper_info scraper_name scraper ;;
      name <- index scraper_info "name" ;;
      let website := default "Unknown" (scraper_info !! "website") in
      print ("Running scraper: " +:+ name +:+ " for " +:+ website) ;;
      existing_urls <- get_existing_urls (Some scraper_name) ;;
      print ("Found " +:+ pretty (size existing_urls)
             +:+ " existing URLs, checking for duplicates...") ;;
      result <- ScraperResult_init name website existing_urls ;;
      done <- on_object result
                (try_except
                   (run_scraper_try scraper_name scraper start_date end_date
                      scrape_full_content_flag)
                   (run_scraper_except scraper_name)) ;;
      modify (store_result scraper_name done.2) ;;
      ret done.2
  end.

(** [sum(len(data[...]) for data in results_by_scraper.values())] *)
Definition sum_over (size_of : CorpusEntry → nat) (entries : gmap string CorpusEntry) : nat :=
  sum_list (size_of <$> (map_to_list entries).*2).

(** The branch of lines 355-382: fold a run into the entry of a collector
    that is already in the store. *)
Definition extend_entry (existing_scraper_data new_scraper_data : CorpusEntry) : CorpusEntry :=
  let announcements :=
    (e_announcements existing_scraper_data ++ e_announcements new_scraper_data)%list in
  let full_content :=
    (e_full_content existing_scraper_data ++ e_full_content new_scraper_data)%list in
  let errors := (e_errors existing_scraper_data ++ e_errors new_scraper_data)%list in
  let new_stats := e_statistics new_scraper_data in
  {| e_scraper_info := e_scraper_info new_scraper_data ∪ e_scraper_info existing_scraper_data;
     e_statistics :=
       {[ "total_announcements" := SNum (length announcements);
          "total_full_content" := SNum (length full_content);
          "total_errors" := SNum (length errors);
          "last_scrape_new_items" := default (SNum 0) (new_stats !! "total_announcements");
          "last_scrape_skipped" := default (SNum 0) (new_stats !! "skipped_duplicates");
          "last_scrape_date" := SStr (e_scraper_info new_scraper_data !!! "scraped_at") ]};
     e_announcements := announcements;
     e_full_content := full_content;
     e_metadata := e_metadata existing_scraper_data;
     e_errors := errors |}.

(** One round of the loop of lines 350-382. *)
Definition merge_result (entries : gmap string CorpusEntry)
    (item : string * ScraperResult) : gmap string CorpusEntry :=
  let '(scraper_name, result) := item in
  match entries !! scraper_name with
  | None => <[scraper_name := to_dict result]> entries
  | Some existing_scraper_data =>
      <[scraper_name := extend_entry existing_scraper_data (to_dict result)]> entries
  end.

(** Lines 342-404 of [update_master_file]: the store that is then saved.
    [new_results] is the dict in insertion order. *)
Definition merged_store (new_results : list (string * ScraperResult)) : M state Store :=
  existing_data <- load_existing_data recursion_limit ;;
  updated_at <- now_isoformat ;;
  let history :=
    {| first_scrape := first_scrape (scraping_history existing_data);
       last_updated := updated_at;
       total_scrapes :=
         Some (default 0 (total_scrapes (scraping_history existing_data)) + 1) |} in
  let entries := foldl merge_result (results_by_scraper existing_data) new_results in
  summarised_at <- now_isoformat ;;
  ret {| scraping_history := history;
         summary :=
           {| total_announcements := sum_over (λ data, length (e_announcements data)) entries;
              total_full_content := sum_over (λ data, length (e_full_content data)) entries;
              total_errors := sum_over (λ data, length (e_errors data)) entries;
              scrapers_count := Some (size entries);
              summary_last_updated := Some summarised_at |};
         results_by_scraper := entries |}.

(** The text [json.load] gives for a file of length zero. *)
Definition empty_file_error : string := "Expecting value: line 1 column 1 (char 0)".

(** What [open(path, 'w')] followed by [json.dump] does to the file
    system: the file is cut to length zero, then the text is written.  A
    file of length zero does not decode. *)
Inductive fs_op :=
| OpenForWriting (path : string)
| DumpJson (path : string) (d : Store).

Definition apply_op (op : fs_op) (files : gmap string file) : gmap string file :=
  match op with
  | OpenForWriting path =>
      <[path := Garbled empty_file_error]> files
  | DumpJson path d => <[path := Json d]> files
  end.

Definition perform (op : fs_op) : M state unit :=
  modify (λ s, set_fs (apply_op op (fs s)) s).

(** Lines 407-408. *)
Definition save_ops (path : string) (d : Store) : list fs_op :=
  [OpenForWriting path; DumpJson path d].

(** [update_master_file] (lines 339-411). *)
Definition update_master_file (new_results : list (string * ScraperResult))
    : M state string :=
  existing_data <- merged_store new_results ;;
  path <- gets (λ s, master_file_path (self s)) ;;
  for_each (save_ops path existing_data) perform ;;
  print ("Master file updated: " +:+ path) ;;
  ret path.

(** [update_master_file] when the process dies after [k] operations of
    its save: what is left is the file system the next reader finds. *)
Definition update_master_file_killed (k : nat)
    (new_results : list (string * ScraperResult)) : M state unit :=
  existing_data <- merged_store new_results ;;
  path <- gets (λ s, master_file_path (self s)) ;;
  for_each (take k (save_ops path existing_data)) perform.

(** Lines 500 and 507 of [main]: run one collector, merge its result. *)
Definition run_and_merge (scraper_name start_date end_date : string)
    (scrape_full_content_flag : bool) : M state ScraperResult :=
  result <- run_scraper scraper_name start_date end_date scrape_full_content_flag ;;
  update_master_file [(scraper_name, result)] ;;
  ret result.

(** [results[name] = result] on a dict kept in insertion order. *)
Fixpoint dict_set {A} (name : string) (v : A) (d : list (string * A)) : list (string * A) :=
  match d with
  | [] => [(name, v)]
  | (k, v') :: rest =>
      if bool_decide (k = name) then (k, v) :: rest else (k, v') :: dict_set name v rest
  end.

(** The loop of [run_all_scrapers] (lines 329-335) over the names still
    to run. *)
Fixpoint run_each (names : list string) (start_date end_date : string)
    (scrape_full_content_flag : bool) (results : list (string * ScraperResult))
    : M state (list (string * ScraperResult)) :=
  match names with
  | [] => ret results
  | scraper_name :: rest =>
      results' <-
        try_except
          (result <- run_scraper scraper_name start_date end_date
                       scrape_full_content_flag ;;
           ret (dict_set scraper_name result results))
          (λ e,
             print ("Failed to run scraper " +:+ scraper_name +:+ ": " +:+ exn_str e) ;;
             ret results) ;;
      run_each rest start_date end_date scrape_full_content_flag results'
  end.

(** [run_all_scrapers] (lines 324-337). *)
Definition run_all_scrapers (start_date end_date : string)
    (scrape_full_content_flag : bool) : M state (list (string * ScraperResult)) :=
  registry <- gets (λ s, loaded_scrapers (self s)) ;;
  run_each registry.*1 start_date end_date scrape_full_content_flag [].

(** ** The FDA collector ([scrapers/fda_scraper.py])

    What the collector gets from the network and from [datetime] is kept
    in a [FdaSite]; the code that pages through the listing, filters it
    by date and walks the urls is embedded on top of it. *)

(** The dict built by [_scrape_page] (lines 192-201). *)
Record FdaAnnouncement := {
  fa_id : string;
  fa_title : string;
  fa_url : string;
  fa_date : string;
  fa_category : string;
  fa_excerpt : string;
  fa_raw_title : string;
  fa_source : string
}.

Definition fa_dict (a : FdaAnnouncement) : gmap string string :=
  {[ "id" := fa_id a; "title" := fa_title a; "url" := fa_url a; "date" := fa_date a;
     "category" := fa_category a; "excerpt" := fa_excerpt a;
     "raw_title" := fa_raw_title a; "source" := fa_source a ]}.

(** - [strptime text] is [datetime.strptime(text, '%Y-%m-%d')]: the day, as
      a number that grows with time, or the message of the [ValueError];
    - [scrape_page n] is what [_scrape_page(n)] returns;
    - [visit url] is the [try] block of [scrape_full_content] up to the
      content dict of [_extract_full_content], without its [url]: the
      message of the exception raised on the way, or the dict. *)
Record FdaSite := {
  strptime : string → Z + string;
  scrape_page : nat → list FdaAnnouncement;
  visit : string → string + RawContent
}.

(** [get_scraper_info] (lines 45-54). *)
Definition fda_scraper_info : gmap string string :=
  {[ "name" := "FDA Press Announcements Scraper";
     "version" := "2.0";
     "website" := "fda.gov";
     "description" := "Scrapes FDA press announcements and full content";
     "supported_date_format" := "YYYY-MM-DD";
     "categories" := "Drug Safety, Food Safety, Medical Device, Tobacco Products, General" ]}.

(** [validate_date_format] (lines 56-62). *)
Definition fda_validate_date_format (site : FdaSite) (date_str : string) : bool :=
  match strptime site date_str with
  | inl _ => true
  | inr _ => false
  end.

(** [str.lower] on ASCII letters; other bytes are kept. *)
Definition lower_char (c : ascii) : ascii :=
  let n := N_of_ascii c in
  if (65 <=? n)%N && (n <=? 90)%N then ascii_of_N (n + 32) else c.

Fixpoint lower (s : string) : string :=
  match s with
  | EmptyString => EmptyString
  | String c rest => String (lower_char c) (lower rest)
  end.

(** [needle in haystack] *)
Fixpoint contains (needle haystack : string) : bool :=
  String.prefix needle haystack
  || match haystack with
     | EmptyString => false
     | String _ rest => contains needle rest
     end.

(** [any(word in text for word in words)] *)
Definition any_in (words : list string) (text : string) : bool :=
  existsb (λ word, contains word text) words.

(** [_categorize_announcement] (lines 124-139). *)
Definition categorize_announcement (title : string) : string :=
  let title_lower := lower title in
  if any_in ["drug"; "medication"; "pharmaceutical"] title_lower then "Drug Safety"
  else if any_in ["food"; "recall"; "contamination"] title_lower then "Food Safety"
  else if any_in ["medical device"; "device"] title_lower then "Medical Device"
  else if any_in ["tobacco"; "cigarette"; "vaping"] title_lower then "Tobacco Products"
  else if contains "roundup" title_lower then "Roundup"
  else "General".

(** The inner loop of [scrape_announcements] (lines 234-247): the
    announcements of a page that are in the range, and whether one is
    older than the start; or the message of the [ValueError] of a date
    that does not parse. *)
Fixpoint filter_by_date (site : FdaSite) (start_dt end_dt : Z)
    (page_announcements filtered : list FdaAnnouncement) (has_older_than_start : bool)
    : list FdaAnnouncement * bool + string :=
  match page_announcements with
  | [] => inl (filtered, has_older_than_start)
  | ann :: rest =>
      if truthy (fa_date ann)
      then match strptime site (fa_date ann) with
           | inr msg => inr msg
           | inl ann_date =>
               if (start_dt <=? ann_date)%Z && (ann_date <=? end_dt)%Z
               then filter_by_date site start_dt end_dt rest (filtered ++ [ann])
                      has_older_than_start
               else if (ann_date <? start_dt)%Z
               then filter_by_date site start_dt end_dt rest filtered true
               else filter_by_date site start_dt end_dt rest filtered has_older_than_start
           end
      else filter_by_date site start_dt end_dt rest filtered has_older_than_start
  end.

(** The outer loop of [scrape_announcements] (lines 224-255) over the
    pages still to fetch: the result, and the pages fetched, in order. *)
Fixpoint scan_pages (site : FdaSite) (start_dt end_dt : Z) (pages : list nat)
    (all_announcements : list FdaAnnouncement) (fetched : list nat)
    : (list FdaAnnouncement + string) * list nat :=
  match pages with
  | [] => (inl all_announcements, fetched)
  | page :: rest =>
      let page_announcements := scrape_page site page in
      let fetched := (fetched ++ [page])%list in
      if nonempty page_announcements
      then match filter_by_date site start_dt end_dt page_announcements [] false with
           | inr msg => (inr msg, fetched)
           | inl (filtered, has_older_than_start) =>
               let all_announcements := (all_announcements ++ filtered)%list in
               if has_older_than_start && (0 <? page)
               then (inl all_announcements, fetched)
               else scan_pages site start_dt end_dt rest all_announcements fetched
           end
      else (inl all_announcements, fetched)
  end.

(** [scrape_announcements] (lines 209-257), with the pages it fetched. *)
Definition fda_scrape_announcements (site : FdaSite) (max_pages : nat)
    (start_date end_date : string) : (list FdaAnnouncement + string) * list nat :=
  if negb (fda_validate_date_format site start_date)
     || negb (fda_validate_date_format site end_date)
  then (inr "Invalid date format. Use YYYY-MM-DD", [])
  else match strptime site start_date, strptime site end_date with
       | inl start_dt, inl end_dt =>
           scan_pages site start_dt end_dt (seq 0 max_pages) [] []
       | inr msg, _ => (inr msg, [])
       | _, inr msg => (inr msg, [])
       end.

(** The content dict of a page: [url] is the requested url (line 263),
    the other keys are what was extracted. *)
Definition with_url (url : string) (content : RawContent) : RawContent :=
  {| rc_text := <["url" := url]> (rc_text content);
     rc_word_count := rc_word_count content; rc_images := rc_images content;
     rc_links := rc_links content; rc_tags := rc_tags content;
     rc_comments := rc_comments content; rc_metadata := rc_metadata content |}.

(** The loop of [scrape_full_content] (lines 447-470). *)
Fixpoint fda_visit_all (site : FdaSite) (announcement_urls : list string)
    (full_content : list RawContent) : list RawContent :=
  match announcement_urls with
  | [] => full_content
  | url :: rest =>
      if truthy url
      then match visit site url with
           | inr extracted =>
               let content := with_url url extracted in
               if truthy (get_str (rc_text content) "full_content")
               then fda_visit_all site rest (full_content ++ [content])
               else fda_visit_all site rest full_content
           | inl _ => fda_visit_all site rest full_content
           end
      else fda_visit_all site rest full_content
  end.

(** [scrape_full_content] (lines 437-476). *)
Definition fda_scrape_full_content (site : FdaSite) (announcement_urls : list string)
    : list RawContent :=
  fda_visit_all site announcement_urls [].

(** [FDAScraper] as a collector; [max_pages] is the keyword argument of
    [scrape_announcements], 10 when it is not given. *)
Definition FDAScraper (site : FdaSite) (max_pages : nat) : Collector :=
  {| get_scraper_info := fda_scraper_info;
     scrape_announcements := λ start_date end_date,
       match (fda_scrape_announcements site max_pages start_date end_date).1 with
       | inl announcements => ListingYields (fa_dict <$> announcements)
       | inr msg => ListingFails msg
       end;
     scrape_full_content := λ urls, ContentYields (fda_scrape_full_content site urls);
     validate_date_format := fda_validate_date_format site |}.

(** ** Sample data for the worked examples *)

Definition listing (url title : string) : gmap string string :=
  {[ "url" := url; "title" := title ]}.

Definition untitled_listing : gmap string string := {[ "title" := "no link" ]}.

Definition page (url : string) : RawContent :=
  {| rc_text := {[ "url" := url; "full_content" := "text" ]};
     rc_word_count := Some 1%Z; rc_images := None; rc_links := None;
     rc_tags := None; rc_comments := None; rc_metadata := None |}.

Definition plugin (l : listing_call) (fetch : list string → content_call) : Collector :=
  {| get_scraper_info := {[ "name" := "X"; "website" := "x.example" ]};
     scrape_announcements := λ _ _, l;
     scrape_full_content := fetch;
     validate_date_format := λ _, true |}.

Definition machine (registry : list (string * Collector)) (files : gmap string file) : state :=
  {| self := {| master_file_path := "scraped_data/master_scraped_data.json";
                loaded_scrapers := registry; results := ∅ |};
     fs := files;
     clock := λ n, "t" +:+ pretty n;
     clock_reads := 0;
     uuids := λ n, "id" +:+ pretty n;
     uuid_draws := 0;
     stdout := [];
     calls := [] |}.

Definition stored_urls (name : string) (s : state) : option (list string) :=
  match fs s !! master_file_path (self s) with
  | Some (Json d) =>
      match results_by_scraper d !! name with
      | Some e => Some (ann_url <$> e_announcements e)
      | None => None
      end
  | _ => None
  end.

(** A result that holds nothing. *)
Definition blank_result : ScraperResult :=
  {| sr_scraper_name := "X"; sr_website := "x.example"; sr_scraped_at := "t0";
     sr_session_id := "id0"; sr_announcements := []; sr_full_content := [];
     sr_metadata := ∅; sr_errors := []; sr_statistics := ∅;
     sr_existing_urls := ∅; sr_new_urls := ∅; sr_skipped_duplicates := 0 |}.

(** A plugin whose info has no name. *)
Definition nameless_plugin : Collector :=
  {| get_scraper_info := {[ "website" := "x.example" ]};
     scrape_announcements := λ _ _, ListingYields [listing "u1" "linked"];
     scrape_full_content := λ urls, ContentYields (page <$> urls);
     validate_date_format := λ _, true |}.

(** A plugin whose listing call raises. *)
Definition broken_plugin : Collector :=
  plugin (ListingFails "connection refused") (λ urls, ContentYields (page <$> urls)).

(** ** Vocabulary of the properties *)

(** What the path of the master file holds. *)
Definition master_file (s : state) : option file :=
  fs s !! master_file_path (self s).

Definition load_warning (why : string) : string :=
  "Warning: Could not load existing data: " +:+ why.

(** The master file is absent or decodes. *)
Definition readable (s : state) : bool :=
  match master_file s with
  | Some (Garbled _) => false
  | _ => true
  end.

(** The entries a load of the master file finds. *)
Definition stored_entries (s : state) : gmap string CorpusEntry :=
  match master_file s with
  | Some (Json d) => results_by_scraper d
  | _ => ∅
  end.

Definition url_of (announcement : gmap string string) : string :=
  get_str announcement "url".

(** A listing record is turned away: its url is not empty and is in the
    index. *)
Definition duplicate (idx : gset string) (announcement : gmap string string) : bool :=
  truthy (url_of announcement) && bool_decide (url_of announcement ∈ idx).

Definition admitted (idx : gset string) (announcements : list (gmap string string))
    : list (gmap string string) :=
  filter (λ a, duplicate idx a = false) announcements.

Definition rejected (idx : gset string) (announcements : list (gmap string string))
    : list (gmap string string) :=
  filter (λ a, duplicate idx a = true) announcements.

(** The listing a collector gives, empty when its call raises. *)
Definition listed (c : Collector) (start_date end_date : string)
    : list (gmap string string) :=
  match scrape_announcements c start_date end_date with
  | ListingYields l => l
  | ListingFails _ => []
  end.

(** The non-empty URLs of a list of raw listing records. *)
Definition urls_of (announcements : list (gmap string string)) : list string :=
  url_of <$> filter (λ a, truthy (url_of a)) announcements.

(** A stored listing record carries the url of the raw record it keeps. *)
Definition url_consistent (a : Announcement) : Prop :=
  ann_url a = url_of (ann_raw_data a).

(** The parts of the state no method of [ScraperResult] changes. *)
Definition same_world (s s' : state) : Prop :=
  self s' = self s ∧ fs s' = fs s ∧ calls s' = calls s.

(** The summary of a store agrees with its entries. *)
Definition consistent_summary (d : Store) : Prop :=
  total_announcements (summary d)
    = sum_list ((λ e, length (e_announcements e)) <$> (map_to_list (results_by_scraper d)).*2) ∧
  total_full_content (summary d)
    = sum_list ((λ e, length (e_full_content e)) <$> (map_to_list (results_by_scraper d)).*2) ∧
  total_errors (summary d)
    = sum_list ((λ e, length (e_errors e)) <$> (map_to_list (results_by_scraper d)).*2).

(** The fields of a [ScraperResult] the listing loop leaves alone. *)
Definition listing_frame (r r' : ScraperResult) : Prop :=
  sr_existing_urls r' = sr_existing_urls r ∧
  sr_full_content r' = sr_full_content r ∧
  sr_errors r' = sr_errors r ∧
  sr_statistics r' = sr_statistics r.

(** The fields of a [ScraperResult] the content loop leaves alone. *)
Definition content_frame (r r' : ScraperResult) : Prop :=
  sr_existing_urls r' = sr_existing_urls r ∧
  sr_announcements r' = sr_announcements r ∧
  sr_skipped_duplicates r' = sr_skipped_duplicates r ∧
  sr_errors r' = sr_errors r ∧
  sr_statistics r' = sr_statistics r.

(** The text appended to [errors] by the handler of [run_scraper]. *)
Definition run_error (scraper_name msg : string) : string :=
  "Error running scraper " +:+ scraper_name +:+ ": " +:+ msg.

(** The value of [success_rate] for given numbers of stored content
    records and of stored announcements. *)
Definition rate (contents announcements : nat) : stat :=
  match announcements with
  | 0 => SNum 0
  | S _ => SRatio (Z.of_nat contents # Pos.of_nat announcements)
  end.

(** The calls a run makes after [get_scraper_info]. *)
Definition scrape_calls (name start_date end_date : string) (full : bool)
    (urls : list string) : list call :=
  CallListing name start_date end_date
  :: (if full && nonempty urls then [CallContent name urls] else []).

(** The content records a run stores, as raw records. *)
Definition fetched (scraper : Collector) (full : bool) (urls : list string)
    : list RawContent :=
  if full && nonempty urls
  then match scrape_full_content scraper urls with
       | ContentYields pages => pages
       | ContentFails _ _ => []
       end
  else [].

(** The errors a run records. *)
Definition run_errors (name : string) (scraper : Collector)
    (start_date end_date : string) (full : bool) (urls : list string) : list string :=
  match scrape_announcements scraper start_date end_date with
  | ListingFails msg => [run_error name msg]
  | ListingYields _ =>
      if full && nonempty urls
      then match scrape_full_content scraper urls with
           | ContentYields _ => []
           | ContentFails _ msg => [run_error name msg]
           end
      else []
  end.

(** The statistics a run leaves in its result. *)
Definition run_statistics (start_date end_date : string) (errors : list string)
    (contents announcements : nat) : gmap string stat :=
  match errors with
  | [] => {[ "date_range" := SStr (start_date +:+ " to " +:+ end_date);
             "success_rate" := rate contents announcements ]}
  | _ :: _ => ∅
  end.

(** The message of the error for a name that is not registered. *)
Definition not_found_message (scraper_name : string) (available : list string) : string :=
  "Scraper '" +:+ scraper_name +:+ "' not found. Available: " +:+ py_repr_list available.

(** A plugin that lists two records and whose content call raises on the
    second URL, after it has built the page of the first. *)
Definition failing_plugin : Collector :=
  plugin (ListingYields [listing "u1" "first"; listing "u2" "second"])
    (λ _, ContentFails [page "u1"] "timed out on u2").

(** A plugin whose listing has the same url twice. *)
Definition repeating_plugin : Collector :=
  plugin (ListingYields [listing "u1" "morning"; listing "u1" "evening"])
    (λ urls, ContentYields (page <$> urls)).

(** A plugin whose listing has a record with a url and one without. *)
Definition mixed_plugin : Collector :=
  plugin (ListingYields [listing "u1" "linked"; untitled_listing])
    (λ urls, ContentYields (page <$> urls)).

(** A sequence of merges, one [update_master_file] after the other. *)
Definition merge_all (batches : list (list (string * ScraperResult))) : M state unit :=
  for_each batches (λ new_results, update_master_file new_results ;; ret tt).

(** A machine whose master file holds a store with no entry. *)
Definition machine_with_store : state :=
  machine [("x", mixed_plugin)]
    {[ "scraped_data/master_scraped_data.json" := Json (empty_store "t0" "t0") ]}.

(** A machine whose master file was cut short. *)
Definition machine_with_garbled_store : state :=
  machine [("x", mixed_plugin)]
    {[ "scraped_data/master_scraped_data.json"
       := Garbled "Unterminated string starting at: line 1 column 2 (char 1)" ]}.

(** The machine left by one run and merge of [mixed_plugin] on an empty
    file system: the master file has the entry of ["x"], with the url
    [u1] in it. *)
Definition seeded_machine : state :=
  (run_and_merge "x" "2024-01-01" "2024-01-31" true (machine [("x", mixed_plugin)] ∅)).2.

(** The number of merges the master file records, 0 without a file or
    without the counter. *)
Definition stored_scrapes (s : state) : nat :=
  match master_file s with
  | Some (Json d) => default 0 (total_scrapes (scraping_history d))
  | _ => 0
  end.

(** The three lists of an entry only grew. *)
Definition entry_extends (e0 e : CorpusEntry) : Prop :=
  e_announcements e0 `prefix_of` e_announcements e ∧
  e_full_content e0 `prefix_of` e_full_content e ∧
  e_errors e0 `prefix_of` e_errors e.

(** The info of a collector has a name. *)
Definition has_name (c : Collector) : bool :=
  bool_decide (is_Some (get_scraper_info c !! "name")).

(** A stored content record carries the url of the raw record it keeps. *)
Definition content_consistent (c : Content) : Prop :=
  cnt_url c = get_str (rc_text (cnt_raw_data c)) "url".

(** An FDA announcement has a date that parses to a day of the range. *)
Definition dated_in_range (site : FdaSite) (start_dt end_dt : Z) (a : FdaAnnouncement) : bool :=
  truthy (fa_date a)
  && match strptime site (fa_date a) with
     | inl d => (start_dt <=? d)%Z && (d <=? end_dt)%Z
     | inr _ => false
     end.

(** An FDA announcement has a date that parses to a day before the start. *)
Definition older_than (site : FdaSite) (start_dt : Z) (a : FdaAnnouncement) : bool :=
  truthy (fa_date a)
  && match strptime site (fa_date a) with
     | inl d => (d <? start_dt)%Z
     | inr _ => false
     end.

(** The content record the FDA collector keeps for a url, if any. *)
Definition fda_content_of (site : FdaSite) (url : string) : option RawContent :=
  if truthy url
  then match visit site url with
       | inr extracted =>
           if truthy (get_str (rc_text (with_url url extracted)) "full_content")
           then Some (with_url url extracted)
           else None
       | inl _ => None
       end
  else None.

(** A site with two pages of announcements and a third, empty one; days
    are counted from the end of 2023. *)
Definition sample_announcement (url date : string) : FdaAnnouncement :=
  {| fa_id := "id-" +:+ url; fa_title := "FDA approves a new drug"; fa_url := url;
     fa_date := date; fa_category := "Drug Safety";
     fa_excerpt := "FDA approves a new drug";
     fa_raw_title := "FDA approves a new drug"; fa_source := "FDA Press Announcements" |}.

Definition sample_site : FdaSite :=
  {| strptime := λ text,
       if bool_decide (text = "2024-01-01") then inl 1%Z
       else if bool_decide (text = "2024-01-15") then inl 15%Z
       else if bool_decide (text = "2024-01-31") then inl 31%Z
       else if bool_decide (text = "2023-12-01") then inl (-30)%Z
       else inr ("time data " +:+ py_repr text +:+ " does not match format '%Y-%m-%d'");
     scrape_page := λ page,
       match page with
       | 0 => [sample_announcement "https://www.fda.gov/a" "2024-01-15";
               sample_announcement "https://www.fda.gov/b" "2023-12-01"]
       | 1 => [sample_announcement "https://www.fda.gov/c" "2023-12-01"]
       | _ => []
       end;
     visit := λ url,
       if bool_decide (url = "https://www.fda.gov/a") then inr (page url)
       else inl "404 Client Error" |}.

(** ** Results of runs, for the worked examples of the merge *)

(** The result a run returned; [blank_result] stands for a run that
    raised. *)
Definition result_of (run : outcome ScraperResult * state) : ScraperResult :=
  match run.1 with
  | Returned r => r
  | Raised _ => blank_result
  end.

(** A plugin that lists the url the seeded store has and two more. *)
Definition later_plugin : Collector :=
  plugin (ListingYields [listing "u1" "linked"; listing "u2" "second";
                         listing "u3" "third"])
    (λ urls, ContentYields (page <$> urls)).

(** The result of a run of [later_plugin] on the seeded store: [u1] is
    skipped, [u2] and [u3] are admitted and fetched. *)
Definition later_result : ScraperResult :=
  result_of (run_scraper "x" "2024-02-01" "2024-02-29" true
               (machine [("x", later_plugin)] (fs seeded_machine))).

(** The result of a run of [failing_plugin], registered as ["y"], on the
    seeded store: two announcements, no content and the error of the
    content call. *)
Definition failed_result : ScraperResult :=
  result_of (run_scraper "y" "2024-02-01" "2024-02-29" true
               (machine [("y", failing_plugin)] (fs seeded_machine))).

(** The numbers of announcements, of content records and of errors the
    master file holds for a collector. *)
Definition stored_counts (name : string) (s : state) : option (nat * nat * nat) :=
  (λ e, (length (e_announcements e), length (e_full_content e), length (e_errors e)))
    <$> stored_entries s !! name.

(** The three totals of the summary of the master file. *)
Definition stored_totals (s : state) : option (nat * nat * nat) :=
  match master_file s with
  | Some (Json d) =>
      Some (total_announcements (summary d), total_full_content (summary d),
            total_errors (summary d))
  | _ => None
  end.

(** * Properties *)

(** ** Loading the master file *)

Lemma load_absent depth s :
  master_file s = None →
  load_existing_data depth s
  = (Returned (empty_store (clock s (clock_reads s)) (clock s (S (clock_reads s)))),
     tick (tick s)).
Proof.
  unfold master_file. intros H.
  destruct depth; cbn; unfold bind, gets; cbn; rewrite H; reflexivity.
Qed.

Lemma load_json depth s d :
  master_file s = Some (Json d) →
  load_existing_data depth s = (Returned d, s).
Proof.
  unfold master_file. intros H.
  destruct depth; cbn; unfold bind, gets; cbn; rewrite H; reflexivity.
Qed.

Lemma load_garbled_retry depth s why :
  master_file s = Some (Garbled why) →
  load_existing_data (S depth) s
  = load_existing_data depth (print_line (load_warning why) s).
Proof.
  unfold master_file. intros H.
  cbn. rewrite H. reflexivity.
Qed.

Lemma load_garbled_last s why :
  master_file s = Some (Garbled why) →
  load_existing_data 0 s = (Raised RecursionError, print_line (load_warning why) s).
Proof.
  unfold master_file. intros H.
  cbn. rewrite H. reflexivity.
Qed.

(** While the file is garbled, no call of [load_existing_data] hands the
    read failure to its caller, returns a store, or touches the file, and
    the console gets the warning first. *)
Lemma load_garbled_never depth : ∀ s why,
  master_file s = Some (Garbled why) →
  let out := load_existing_data depth s in
  (∀ msg, out.1 ≠ Raised (ReadFailure msg)) ∧
  (∀ d, out.1 ≠ Returned d) ∧
  fs out.2 = fs s ∧ self out.2 = self s ∧
  ∃ more, stdout out.2 = (stdout s ++ load_warning why :: more)%list.
Proof.
  induction depth as [|depth IH]; intros s why H.
  - rewrite (load_garbled_last s why H). cbn.
    repeat split; try discriminate. by exists [].
  - rewrite (load_garbled_retry depth s why H).
    destruct (IH (print_line (load_warning why) s) why) as (H1 & H2 & H3 & H4 & more & H5).
    { exact H. }
    cbn. repeat split; try assumption.
    exists (load_warning why :: more). rewrite H5. cbn.
    by rewrite <- app_assoc.
Qed.

Arguments load_existing_data : simpl never.

(** ** Admitting a listing record *)

Lemma standardize_announcement_eq announcement r s :
  ∃ standardized,
    standardize_announcement announcement (r, s) = (Returned standardized, (r, draw s)) ∧
    ann_raw_data standardized = announcement ∧
    url_consistent standardized.
Proof. eexists. split; [reflexivity|]. split; reflexivity. Qed.

Lemma add_announcement_duplicate announcement r s :
  duplicate (sr_existing_urls r) announcement = true →
  add_announcement announcement (r, s) = (Returned false, (skip_duplicate r, s)).
Proof.
  unfold duplicate, url_of, add_announcement. intros H.
  cbn. rewrite H. reflexivity.
Qed.

Lemma add_announcement_fresh announcement r s :
  duplicate (sr_existing_urls r) announcement = false →
  ∃ standardized r',
    standardize_announcement announcement (r, s) = (Returned standardized, (r, draw s)) ∧
    add_announcement announcement (r, s) = (Returned true, (r', draw s)) ∧
    r' = (if truthy (url_of announcement) then add_new_url (url_of announcement) else id)
           (append_announcement standardized r).
Proof.
  unfold duplicate, url_of, add_announcement. intros H.
  eexists _, _. split; [reflexivity|].
  split; [|reflexivity].
  cbn. rewrite H. cbn.
  destruct (truthy (get_str announcement "url")); reflexivity.
Qed.

(** C4.  [add_announcement] turns a record away exactly when its url is
    not empty and is in the index it was built with; a record with an
    empty url is taken; a record turned away adds one to
    [skipped_duplicates] and leaves [announcements] as it was; a record
    taken is standardized and put at the end of [announcements]. *)
Theorem add_announcement_admits announcement r s :
  let url := get_str announcement "url" in
  ∃ added r' s',
    add_announcement announcement (r, s) = (Returned added, (r', s')) ∧
    (added = false ↔ url ≠ "" ∧ url ∈ sr_existing_urls r) ∧
    (url = "" → added = true) ∧
    if added
    then ∃ standardized s1,
           standardize_announcement announcement (r, s) = (Returned standardized, (r, s1)) ∧
           sr_announcements r' = (sr_announcements r ++ [standardized])%list ∧
           sr_skipped_duplicates r' = sr_skipped_duplicates r
    else sr_skipped_duplicates r' = sr_skipped_duplicates r + 1 ∧
         sr_announcements r' = sr_announcements r.
Proof.
  intros url.
  destruct (duplicate (sr_existing_urls r) announcement) eqn:Hdup.
  - exists false, (skip_duplicate r), s.
    split; [by apply add_announcement_duplicate|].
    unfold duplicate, url_of, truthy in Hdup. fold url in Hdup.
    apply andb_true_iff in Hdup as [Hne Hin].
    apply negb_true_iff, bool_decide_eq_false in Hne.
    apply bool_decide_eq_true in Hin.
    repeat split; try done.
  - destruct (add_announcement_fresh announcement r s Hdup) as (std & r' & Hstd & Hadd & ->).
    eexists true, _, _. split; [exact Hadd|].
    unfold duplicate, url_of, truthy in Hdup. fold url in Hdup.
    split; [|split].
    + split; [discriminate|]. intros [Hne Hin].
      apply andb_false_iff in Hdup as [Hd|Hd].
      * apply negb_false_iff, bool_decide_eq_true in Hd. done.
      * apply bool_decide_eq_false in Hd. done.
    + done.
    + exists std, (draw s). split; [exact Hstd|].
      unfold url_of, truthy. destruct (negb _); split; reflexivity.
Qed.

(** ** The two loops of a run *)

Lemma same_world_trans s1 s2 s3 :
  same_world s1 s2 → same_world s2 s3 → same_world s1 s3.
Proof. unfold same_world. intros (-> & -> & ->) (-> & -> & ->). done. Qed.

Lemma same_world_draw s : same_world s (draw s).
Proof. done. Qed.

Lemma admitted_cons_true idx a l :
  duplicate idx a = true → admitted idx (a :: l) = admitted idx l.
Proof.
  intros H. unfold admitted. rewrite filter_cons_False; [done|].
  rewrite H. discriminate.
Qed.

Lemma admitted_cons_false idx a l :
  duplicate idx a = false → admitted idx (a :: l) = a :: admitted idx l.
Proof. intros H. unfold admitted. by rewrite filter_cons_True. Qed.

Lemma rejected_cons_true idx a l :
  duplicate idx a = true → rejected idx (a :: l) = a :: rejected idx l.
Proof. intros H. unfold rejected. by rewrite filter_cons_True. Qed.

Lemma rejected_cons_false idx a l :
  duplicate idx a = false → rejected idx (a :: l) = rejected idx l.
Proof.
  intros H. unfold rejected. rewrite filter_cons_False; [done|].
  rewrite H. discriminate.
Qed.

(** Every record of a listing is admitted or rejected. *)
Lemma admitted_rejected_length idx l :
  length (admitted idx l) + length (rejected idx l) = length l.
Proof.
  induction l as [|a l IH]; [done|].
  destruct (duplicate idx a) eqn:H.
  - rewrite admitted_cons_true, rejected_cons_true by done. cbn. lia.
  - rewrite admitted_cons_false, rejected_cons_false by done. cbn. lia.
Qed.

(** The listing loop: which records it keeps, what it counts, and what
    it leaves alone. *)
Lemma admit_all_spec l : ∀ acc r s,
  ∃ added r' s',
    admit_all l acc (r, s)
    = (Returned (acc ++ admitted (sr_existing_urls r) l)%list, (r', s')) ∧
    sr_announcements r' = (sr_announcements r ++ added)%list ∧
    ann_raw_data <$> added = admitted (sr_existing_urls r) l ∧
    Forall url_consistent added ∧
    sr_skipped_duplicates r'
    = sr_skipped_duplicates r + length (rejected (sr_existing_urls r) l) ∧
    listing_frame r r' ∧
    same_world s s'.
Proof.
  induction l as [|a l IH]; intros acc r s.
  - exists [], r, s. cbn. rewrite !app_nil_r.
    repeat split; done.
  - destruct (duplicate (sr_existing_urls r) a) eqn:Hdup.
    + destruct (IH acc (skip_duplicate r) s)
        as (added & r' & s' & Hrun & Hann & Hraw & Hcons & Hskip & Hframe & Hworld).
      exists added, r', s'.
      rewrite admitted_cons_true, rejected_cons_true by done.
      split.
      { cbn [admit_all]. unfold bind at 1.
        rewrite (add_announcement_duplicate a r s Hdup). exact Hrun. }
      cbn in Hrun, Hann, Hraw, Hskip.
      split; [done|]. split; [done|]. split; [done|].
      split; [cbn; lia|]. split; [exact Hframe|exact Hworld].
    + destruct (add_announcement_fresh a r s Hdup) as (std & r1 & Hstd & Hadd & Hr1).
      destruct (standardize_announcement_eq a r s) as (std' & Hstd' & Hraw' & Hcons').
      rewrite Hstd in Hstd'. injection Hstd' as <-.
      assert (sr_existing_urls r1 = sr_existing_urls r) as Hidx.
      { subst r1. by destruct (truthy _). }
      assert (sr_announcements r1 = (sr_announcements r ++ [std])%list
              ∧ sr_skipped_duplicates r1 = sr_skipped_duplicates r
              ∧ listing_frame r r1) as (Ha1 & Hs1 & Hf1).
      { subst r1. by destruct (truthy _). }
      destruct (IH (acc ++ [a])%list r1 (draw s))
        as (added & r' & s' & Hrun & Hann & Hraw & Hcons & Hskip & Hframe & Hworld).
      rewrite Hidx in Hrun, Hraw, Hskip.
      exists (std :: added), r', s'.
      rewrite admitted_cons_false, rejected_cons_false by done.
      split.
      { cbn [admit_all]. unfold bind at 1. rewrite Hadd.
        rewrite Hrun. by rewrite <- app_assoc. }
      split; [by rewrite Hann, Ha1, <- app_assoc|].
      split; [cbn; by rewrite Hraw, Hraw'|].
      split; [by constructor|].
      split; [lia|].
      split.
      { destruct Hframe as (H1 & H2 & H3 & H4).
        destruct Hf1 as (H1' & H2' & H3' & H4').
        unfold listing_frame. by rewrite H1, H2, H3, H4. }
      exact (same_world_trans _ _ _ (same_world_draw s) Hworld).
Qed.

Lemma add_full_content_eq content r s :
  ∃ standardized,
    add_full_content content (r, s)
    = (Returned tt, (append_content standardized r, draw s)) ∧
    cnt_raw_data standardized = content.
Proof. eexists. split; reflexivity. Qed.

(** The content loop: one stored record per record returned. *)
Lemma add_all_content_spec l : ∀ r s,
  ∃ added r' s',
    for_each l add_full_content (r, s) = (Returned tt, (r', s')) ∧
    sr_full_content r' = (sr_full_content r ++ added)%list ∧
    cnt_raw_data <$> added = l ∧
    content_frame r r' ∧
    same_world s s'.
Proof.
  induction l as [|c l IH]; intros r s.
  - exists [], r, s. cbn. rewrite app_nil_r. done.
  - destruct (add_full_content_eq c r s) as (std & Hadd & Hraw).
    destruct (IH (append_content std r) (draw s))
      as (added & r' & s' & Hrun & Hfc & Hraws & Hframe & Hworld).
    exists (std :: added), r', s'.
    split.
    { cbn [for_each]. unfold bind at 1. rewrite Hadd. exact Hrun. }
    split; [rewrite Hfc; cbn; by rewrite <- app_assoc|].
    split; [cbn; by rewrite Hraw, Hraws|].
    split; [exact Hframe|].
    exact (same_world_trans _ _ _ (same_world_draw s) Hworld).
Qed.

(** ** The steps of a run *)

Lemma bind_returned {S A B} (m : M S A) (k : A → M S B) s a s' :
  m s = (Returned a, s') → bind m k s = k a s'.
Proof. unfold bind. by intros ->. Qed.

Lemma bind_raised {S A B} (m : M S A) (k : A → M S B) s e s' :
  m s = (Raised e, s') → bind m k s = (Raised e, s').
Proof. unfold bind. by intros ->. Qed.

Lemma scrape_new_announcements_yields name scraper start_date end_date r s l :
  scrape_announcements scraper start_date end_date = ListingYields l →
  ∃ added r' s',
    scrape_new_announcements name scraper start_date end_date (r, s)
    = (Returned (admitted (sr_existing_urls r) l), (r', s')) ∧
    sr_announcements r' = (sr_announcements r ++ added)%list ∧
    ann_raw_data <$> added = admitted (sr_existing_urls r) l ∧
    Forall url_consistent added ∧
    sr_skipped_duplicates r'
    = sr_skipped_duplicates r + length (rejected (sr_existing_urls r) l) ∧
    listing_frame r r' ∧
    self s' = self s ∧ fs s' = fs s ∧
    calls s' = (calls s ++ [CallListing name start_date end_date])%list.
Proof.
  intros Hl.
  set (s0 := log_call (CallListing name start_date end_date)
               (print_line "Step 1: Scraping announcements list..." s)).
  destruct (admit_all_spec l [] r s0)
    as (added & r' & s' & Hrun & Ha & Hraw & Hcons & Hskip & Hframe & Hw & Hf & Hc).
  eexists added, r', _.
  split.
  { unfold scrape_new_announcements.
    erewrite bind_returned by reflexivity.
    erewrite bind_returned
      by (unfold lift, call_scrape_announcements; cbn; rewrite Hl; reflexivity).
    erewrite bind_returned by exact Hrun.
    cbn. reflexivity. }
  cbn. rewrite Hw, Hf, Hc. done.
Qed.

Lemma scrape_new_announcements_fails name scraper start_date end_date r s msg :
  scrape_announcements scraper start_date end_date = ListingFails msg →
  ∃ s',
    scrape_new_announcements name scraper start_date end_date (r, s)
    = (Raised (PluginError msg), (r, s')) ∧
    self s' = self s ∧ fs s' = fs s ∧
    calls s' = (calls s ++ [CallListing name start_date end_date])%list.
Proof.
  intros Hl. eexists. split.
  { unfold scrape_new_announcements.
    erewrite bind_returned by reflexivity.
    erewrite bind_raised
      by (unfold lift, call_scrape_announcements; cbn; rewrite Hl; reflexivity).
    reflexivity. }
  done.
Qed.

Lemma nonempty_urls_of new_announcements :
  nonempty (urls_of new_announcements) = true → nonempty new_announcements = true.
Proof. by destruct new_announcements. Qed.

Lemma scrape_new_content_unfold name scraper full new_announcements :
  scrape_new_content name scraper full new_announcements
  = when (full && nonempty new_announcements)
      (lift (print "Step 2: Scraping full content for new items only...") ;;
       when (nonempty (urls_of new_announcements))
         (full_content_data <-
            lift (call_scrape_full_content name scraper (urls_of new_announcements)) ;;
          for_each full_content_data add_full_content ;;
          lift (print ("Scraped full content for "
                       +:+ pretty (length full_content_data) +:+ " new items")))).
Proof. reflexivity. Qed.

Lemma scrape_new_content_skipped name scraper full new_announcements r s :
  full && nonempty (urls_of new_announcements) = false →
  ∃ s',
    scrape_new_content name scraper full new_announcements (r, s)
    = (Returned tt, (r, s')) ∧
    same_world s s'.
Proof.
  intros H. rewrite scrape_new_content_unfold.
  destruct full; [|by eexists].
  cbn in H. destruct (nonempty new_announcements); [|by eexists].
  cbn -[urls_of]. rewrite H. cbn. eexists. split; [reflexivity|]. done.
Qed.

Lemma scrape_new_content_yields name scraper full new_announcements r s pages :
  full && nonempty (urls_of new_announcements) = true →
  scrape_full_content scraper (urls_of new_announcements) = ContentYields pages →
  ∃ added r' s',
    scrape_new_content name scraper full new_announcements (r, s)
    = (Returned tt, (r', s')) ∧
    sr_full_content r' = (sr_full_content r ++ added)%list ∧
    cnt_raw_data <$> added = pages ∧
    content_frame r r' ∧
    self s' = self s ∧ fs s' = fs s ∧
    calls s' = (calls s ++ [CallContent name (urls_of new_announcements)])%list.
Proof.
  intros H Hpages. rewrite scrape_new_content_unfold.
  apply andb_true_iff in H as [-> Hurls].
  rewrite (nonempty_urls_of _ Hurls), Hurls. cbn [andb when].
  set (s0 := log_call (CallContent name (urls_of new_announcements))
               (print_line "Step 2: Scraping full content for new items only..." s)).
  destruct (add_all_content_spec pages r s0)
    as (added & r' & s' & Hrun & Hfc & Hraw & Hframe & Hw & Hf & Hc).
  eexists added, r', _. split.
  { erewrite bind_returned by reflexivity.
    erewrite bind_returned
      by (unfold lift, call_scrape_full_content; cbn -[urls_of]; rewrite Hpages; reflexivity).
    erewrite bind_returned by exact Hrun.
    cbn. reflexivity. }
  cbn. rewrite Hw, Hf, Hc. done.
Qed.

Lemma scrape_new_content_fails name scraper full new_announcements r s processed msg :
  full && nonempty (urls_of new_announcements) = true →
  scrape_full_content scraper (urls_of new_announcements) = ContentFails processed msg →
  ∃ s',
    scrape_new_content name scraper full new_announcements (r, s)
    = (Raised (PluginError msg), (r, s')) ∧
    self s' = self s ∧ fs s' = fs s ∧
    calls s' = (calls s ++ [CallContent name (urls_of new_announcements)])%list.
Proof.
  intros H Hpages. rewrite scrape_new_content_unfold.
  apply andb_true_iff in H as [-> Hurls].
  rewrite (nonempty_urls_of _ Hurls), Hurls. cbn [andb when].
  eexists. split.
  { erewrite bind_returned by reflexivity.
    erewrite bind_raised
      by (unfold lift, call_scrape_full_content; cbn -[urls_of]; rewrite Hpages; reflexivity).
    reflexivity. }
  done.
Qed.

Lemma update_run_statistics_eq start_date end_date r s :
  update_run_statistics start_date end_date (r, s)
  = (Returned tt,
     (update_statistics
        {[ "date_range" := SStr (start_date +:+ " to " +:+ end_date);
           "success_rate" := rate (length (sr_full_content r))
                                  (length (sr_announcements r)) ]} r,
      s)).
Proof.
  unfold update_run_statistics. cbn -[String.append].
  destruct (sr_announcements r); reflexivity.
Qed.

(** ** A whole run *)

(** The [try] block under its handler, started on a result that holds
    nothing yet. *)
Lemma run_guarded_spec name scraper start_date end_date full r s :
  sr_announcements r = [] → sr_full_content r = [] → sr_errors r = [] →
  sr_skipped_duplicates r = 0 → sr_statistics r = ∅ →
  let idx := sr_existing_urls r in
  let kept := admitted idx (listed scraper start_date end_date) in
  let urls := urls_of kept in
  let errors := run_errors name scraper start_date end_date full urls in
  ∃ r' s',
    try_except (run_scraper_try name scraper start_date end_date full)
      (run_scraper_except name) (r, s) = (Returned tt, (r', s')) ∧
    ann_raw_data <$> sr_announcements r' = kept ∧
    Forall url_consistent (sr_announcements r') ∧
    sr_skipped_duplicates r'
    = length (rejected idx (listed scraper start_date end_date)) ∧
    sr_existing_urls r' = idx ∧
    cnt_raw_data <$> sr_full_content r' = fetched scraper full urls ∧
    sr_errors r' = errors ∧
    sr_statistics r'
    = run_statistics start_date end_date errors
        (length (fetched scraper full urls)) (length kept) ∧
    self s' = self s ∧ fs s' = fs s ∧
    calls s' = (calls s ++ scrape_calls name start_date end_date full urls)%list.
Proof.
  intros Hann Hfc Herr Hskip Hstat idx kept urls errors.
  subst errors urls kept. unfold listed, run_errors, fetched, scrape_calls.
  unfold try_except, run_scraper_try.
  destruct (scrape_announcements scraper start_date end_date) as [l|msg] eqn:Hl.
  - destruct (scrape_new_announcements_yields name scraper start_date end_date r s l Hl)
      as (added & r1 & s1 & Hrun1 & Ha1 & Hraw1 & Hcons1 & Hskip1 & Hframe1 & Hw1 & Hf1 & Hc1).
    destruct Hframe1 as (Hidx1 & Hfc1 & Herr1 & Hstat1).
    rewrite Hann in Ha1. cbn in Ha1. rewrite Hskip in Hskip1. cbn in Hskip1.
    erewrite bind_returned by exact Hrun1.
    fold idx in Hrun1, Hraw1, Hskip1 |- *.
    destruct (full && nonempty (urls_of (admitted idx l))) eqn:Hgo.
    + destruct (scrape_full_content scraper (urls_of (admitted idx l)))
        as [pages|processed msg] eqn:Hpages.
      * destruct (scrape_new_content_yields name scraper full (admitted idx l) r1 s1 pages
                    Hgo Hpages)
          as (got & r2 & s2 & Hrun2 & Hfc2 & Hraw2 & Hframe2 & Hw2 & Hf2 & Hc2).
        destruct Hframe2 as (Hidx2 & Ha2 & Hskip2 & Herr2 & Hstat2).
        erewrite bind_returned by exact Hrun2.
        rewrite update_run_statistics_eq.
        eexists _, _. split; [reflexivity|]. cbn -[String.append].
        rewrite Ha2, Ha1, Hskip2, Hskip1, Hidx2, Hidx1, Herr2, Herr1, Herr.
        rewrite Hstat2, Hstat1, Hstat, Hfc2, Hfc1, Hfc, Hw2, Hw1, Hf2, Hf1, Hc2, Hc1.
        cbn -[String.append]. clear Hpages. subst pages.
        rewrite <- Hraw1, !length_fmap, (right_id_L ∅ (∪)), <- app_assoc. repeat split; try first [done | reflexivity].
      * destruct (scrape_new_content_fails name scraper full (admitted idx l) r1 s1
                    processed msg Hgo Hpages)
          as (s2 & Hrun2 & Hw2 & Hf2 & Hc2).
        erewrite bind_raised by exact Hrun2.
        eexists _, _. split; [reflexivity|]. cbn -[String.append].
        rewrite Ha1, Hskip1, Hidx1, Herr1, Herr, Hstat1, Hstat, Hfc1, Hfc.
        rewrite Hw2, Hw1, Hf2, Hf1, Hc2, Hc1.
        rewrite <- app_assoc. repeat split; try first [done | reflexivity].
    + destruct (scrape_new_content_skipped name scraper full (admitted idx l) r1 s1 Hgo)
        as (s2 & Hrun2 & Hw2 & Hf2 & Hc2).
      erewrite bind_returned by exact Hrun2.
      rewrite update_run_statistics_eq.
      eexists _, _. split; [reflexivity|]. cbn -[String.append].
      rewrite Ha1, Hskip1, Hidx1, Herr1, Herr, Hstat1, Hstat, Hfc1, Hfc.
      rewrite Hw2, Hw1, Hf2, Hf1, Hc2, Hc1.
      rewrite <- Hraw1, !length_fmap, (right_id_L ∅ (∪)). repeat split; try first [done | reflexivity].
  - destruct (scrape_new_announcements_fails name scraper start_date end_date r s msg Hl)
      as (s1 & Hrun1 & Hw1 & Hf1 & Hc1).
    erewrite bind_raised by exact Hrun1.
    eexists _, _. split; [reflexivity|]. cbn -[String.append].
    rewrite Hann, Hfc, Herr, Hskip, Hstat, Hw1, Hf1, Hc1. cbn.
    rewrite andb_false_r. repeat split; try first [done | reflexivity].
Qed.

Lemma load_readable depth s :
  readable s = true →
  ∃ d s',
    load_existing_data depth s = (Returned d, s') ∧
    results_by_scraper d = stored_entries s ∧
    same_world s s'.
Proof.
  unfold readable, stored_entries. intros H.
  destruct (master_file s) as [[d|why]|] eqn:Hf; [| discriminate |].
  - exists d, s. by rewrite (load_json depth s d Hf).
  - eexists _, _. by rewrite (load_absent depth s Hf).
Qed.

Lemma get_existing_urls_spec scraper_name s :
  readable s = true →
  ∃ s',
    get_existing_urls scraper_name s
    = (Returned (known_urls (stored_entries s) scraper_name), s') ∧
    same_world s s'.
Proof.
  intros H.
  destruct (load_readable recursion_limit s H) as (d & s' & Hload & Hd & Hw).
  exists s'. unfold get_existing_urls.
  erewrite bind_returned by exact Hload. by rewrite Hd.
Qed.

Lemma ScraperResult_init_spec scraper_name website idx s :
  ∃ r,
    ScraperResult_init scraper_name website idx s = (Returned r, draw (tick s)) ∧
    sr_announcements r = [] ∧ sr_full_content r = [] ∧ sr_errors r = [] ∧
    sr_skipped_duplicates r = 0 ∧ sr_statistics r = ∅ ∧
    sr_existing_urls r = idx.
Proof. eexists. split; [reflexivity|]. done. Qed.

(** What a run returns and leaves behind, for a registered collector
    whose info has a name and a master file that is absent or decodes. *)
Lemma run_scraper_spec name start_date end_date full s scraper info_name :
  dict_get name (loaded_scrapers (self s)) = Some scraper →
  get_scraper_info scraper !! "name" = Some info_name →
  readable s = true →
  let idx := known_urls (stored_entries s) (Some name) in
  let kept := admitted idx (listed scraper start_date end_date) in
  let urls := urls_of kept in
  let errors := run_errors name scraper start_date end_date full urls in
  ∃ r s',
    run_scraper name start_date end_date full s = (Returned r, s') ∧
    ann_raw_data <$> sr_announcements r = kept ∧
    Forall url_consistent (sr_announcements r) ∧
    sr_skipped_duplicates r
    = length (rejected idx (listed scraper start_date end_date)) ∧
    sr_existing_urls r = idx ∧
    cnt_raw_data <$> sr_full_content r = fetched scraper full urls ∧
    sr_errors r = errors ∧
    sr_statistics r
    = run_statistics start_date end_date errors
        (length (fetched scraper full urls)) (length kept) ∧
    self s' = self (store_result name r s) ∧ fs s' = fs s ∧
    calls s'
    = (calls s ++ CallInfo name :: scrape_calls name start_date end_date full urls)%list.
Proof.
  intros Hreg Hname Hread idx kept urls errors.
  set (website := default "Unknown" (get_scraper_info scraper !! "website")).
  set (s1 := print_line ("Running scraper: " +:+ info_name +:+ " for " +:+ website)
               (log_call (CallInfo name) s)).
  assert (readable s1 = true) as Hread1 by exact Hread.
  destruct (get_existing_urls_spec (Some name) s1 Hread1) as (s2 & Hidx & Hw2 & Hf2 & Hc2).
  change (stored_entries s1) with (stored_entries s) in Hidx. fold idx in Hidx.
  set (s3 := print_line ("Found " +:+ pretty (size idx)
                         +:+ " existing URLs, checking for duplicates...") s2).
  destruct (ScraperResult_init_spec info_name website idx s3)
    as (r0 & Hinit & Ha0 & Hfc0 & He0 & Hsk0 & Hst0 & Hidx0).
  destruct (run_guarded_spec name scraper start_date end_date full r0 (draw (tick s3))
              Ha0 Hfc0 He0 Hsk0 Hst0)
    as (r & s5 & Hrun & Ha & Hcons & Hsk & Hi & Hfc & He & Hst & Hw5 & Hf5 & Hc5).
  rewrite Hidx0 in Ha, Hsk, Hi, Hfc, He, Hst, Hc5.
  fold kept in Ha, Hfc, He, Hst, Hc5. fold urls in Hfc, He, Hst, Hc5. fold errors in He, Hst.
  exists r, (store_result name r s5).
  split.
  { unfold run_scraper.
    erewrite bind_returned by reflexivity. cbn beta. rewrite Hreg.
    erewrite bind_returned by reflexivity.
    erewrite bind_returned by (unfold index; rewrite Hname; reflexivity).
    erewrite bind_returned by reflexivity.
    erewrite bind_returned by exact Hidx.
    erewrite bind_returned by reflexivity.
    erewrite bind_returned by exact Hinit.
    erewrite bind_returned by (unfold on_object; rewrite Hrun; reflexivity).
    reflexivity. }
  split; [exact Ha|]. split; [exact Hcons|]. split; [exact Hsk|]. split; [exact Hi|].
  split; [exact Hfc|]. split; [exact He|]. split; [exact Hst|].
  cbn. rewrite Hw5, Hf5, Hc5. cbn. rewrite Hw2, Hf2, Hc2. cbn.
  rewrite <- app_assoc. done.
Qed.

(** ** An unknown collector *)

Lemma string_app_assoc (a b c : string) : (a +:+ b) +:+ c = a +:+ (b +:+ c).
Proof.
  induction a as [|x a IH]; [done|].
  change (String x ((a +:+ b) +:+ c) = String x (a +:+ (b +:+ c))).
  by rewrite IH.
Qed.

Lemma string_app_empty_r (a : string) : a +:+ "" = a.
Proof.
  induction a as [|x a IH]; [done|].
  change (String x (a +:+ "") = String x a).
  by rewrite IH.
Qed.

Lemma dict_get_None {A} name (d : list (string * A)) :
  name ∉ d.*1 → dict_get name d = None.
Proof.
  induction d as [|[k v] d IH]; [done|]. cbn. intros H.
  apply not_elem_of_cons in H as [Hne Hnin].
  rewrite bool_decide_eq_false_2 by done. by apply IH.
Qed.

Lemma str_join_mentions sep k l :
  k ∈ l → ∃ before after, str_join sep l = before +:+ k +:+ after.
Proof.
  induction l as [|x l IH]; [by intros ?%not_elem_of_nil|].
  intros [->|Hin]%elem_of_cons.
  - destruct l as [|y l].
    + exists "", "". change (x = x +:+ ""). by rewrite string_app_empty_r.
    + exists "", (sep +:+ str_join sep (y :: l)). reflexivity.
  - destruct (IH Hin) as (before & after & Hj).
    destruct l as [|y l]; [by apply elem_of_nil in Hin|].
    exists (x +:+ sep +:+ before), after.
    change (str_join sep (x :: y :: l)) with (x +:+ sep +:+ str_join sep (y :: l)).
    by rewrite Hj, !string_app_assoc.
Qed.

(** C9.  Running a name that is not among the loaded collectors raises a
    [ValueError]: its message names the requested collector and lists the
    available names, each as Python prints it, and the orchestrator and
    everything around it are left as they were. *)
Theorem run_scraper_not_found name start_date end_date full s :
  name ∉ (loaded_scrapers (self s)).*1 →
  let available := (loaded_scrapers (self s)).*1 in
  run_scraper name start_date end_date full s
  = (Raised (ValueError (not_found_message name available)), s) ∧
  ∀ k, k ∈ available →
       ∃ before after,
         not_found_message name available = before +:+ py_repr k +:+ after.
Proof.
  intros Hnot available. split.
  - unfold run_scraper.
    erewrite bind_returned by reflexivity. cbn beta.
    by rewrite (dict_get_None name _ Hnot).
  - intros k Hk.
    destruct (str_join_mentions ", " (py_repr k) (py_repr <$> available))
      as (before & after & Hj).
    { by apply list_elem_of_fmap_2. }
    unfold not_found_message, py_repr_list. rewrite Hj.
    exists ("Scraper '" +:+ name +:+ "' not found. Available: " +:+ "[" +:+ before),
           (after +:+ "]").
    by rewrite !string_app_assoc.
Qed.

Lemma run_scraper_not_found_witness :
  run_scraper "y" "2024-01-01" "2024-01-31" true (machine [("x", mixed_plugin)] ∅)
  = (Raised (ValueError "Scraper 'y' not found. Available: ['x']"),
     machine [("x", mixed_plugin)] ∅).
Proof.
  apply (run_scraper_not_found "y" "2024-01-01" "2024-01-31" true
           (machine [("x", mixed_plugin)] ∅)).
  cbn. intros [H|H]%elem_of_cons; [discriminate H|by apply elem_of_nil in H].
Defined.

(** ** The content call of a run *)

Lemma truthy_iff u : truthy u = true ↔ u ≠ "".
Proof.
  unfold truthy. rewrite negb_true_iff, bool_decide_eq_false. done.
Qed.

(** The non-empty urls of stored records are those of the raw records
    they keep. *)
Lemma stored_urls_of announcements :
  Forall url_consistent announcements →
  filter (λ u, u ≠ "") (ann_url <$> announcements)
  = urls_of (ann_raw_data <$> announcements).
Proof.
  unfold urls_of.
  induction 1 as [|a l Ha Hl IH]; [done|].
  rewrite !fmap_cons, !filter_cons. red in Ha.
  destruct (decide (ann_url a ≠ "")) as [H1|H1];
    destruct (decide (truthy (url_of (ann_raw_data a)))) as [H2|H2].
  - rewrite fmap_cons. by rewrite <- Ha, IH.
  - exfalso. apply H2. rewrite <- Ha. by apply Is_true_true, truthy_iff.
  - exfalso. apply H1. rewrite Ha. by apply truthy_iff, Is_true_true.
  - exact IH.
Qed.

(** No url handed to the content call is in the index. *)
Lemma new_urls_unseen idx l u :
  u ∈ urls_of (admitted idx l) → u ∉ idx.
Proof.
  unfold urls_of, admitted.
  intros (a & -> & Ha)%list_elem_of_fmap_1.
  apply list_elem_of_filter in Ha as [Htruthy Ha].
  apply list_elem_of_filter in Ha as [Hdup _].
  unfold duplicate in Hdup. apply Is_true_true in Htruthy.
  rewrite Htruthy in Hdup. cbn in Hdup.
  by apply bool_decide_eq_false in Hdup.
Qed.

(** C7.  With full content asked for, a run of a registered collector
    calls [scrape_full_content] once, with the non-empty urls of the
    announcements the listing loop admitted, in their order, when there is
    such a url, and does not call it when there is none; no url it passes
    is in the index the run started from. *)
Theorem content_called_once_for_new_urls name start_date end_date s scraper info_name :
  dict_get name (loaded_scrapers (self s)) = Some scraper →
  get_scraper_info scraper !! "name" = Some info_name →
  readable s = true →
  ∃ r s',
    run_scraper name start_date end_date true s = (Returned r, s') ∧
    let new_urls := filter (λ u, u ≠ "") (ann_url <$> sr_announcements r) in
    calls s'
    = (calls s ++ [CallInfo name; CallListing name start_date end_date]
       ++ match new_urls with [] => [] | _ :: _ => [CallContent name new_urls] end)%list ∧
    sr_existing_urls r = known_urls (stored_entries s) (Some name) ∧
    ∀ u, u ∈ new_urls → u ∉ known_urls (stored_entries s) (Some name).
Proof.
  intros Hreg Hname Hread.
  destruct (run_scraper_spec name start_date end_date true s scraper info_name
              Hreg Hname Hread)
    as (r & s' & Hrun & Ha & Hcons & _ & Hidx & _ & _ & _ & _ & _ & Hcalls).
  exists r, s'. split; [exact Hrun|].
  cbn zeta. rewrite (stored_urls_of _ Hcons), Ha.
  split; [|split; [exact Hidx|]].
  - rewrite Hcalls. unfold scrape_calls. cbn [andb].
    by destruct (urls_of _).
  - intros u. apply new_urls_unseen.
Qed.

Lemma content_called_once_for_new_urls_witness :
  ∃ r s',
    run_scraper "x" "2024-01-01" "2024-01-31" true (machine [("x", mixed_plugin)] ∅)
    = (Returned r, s') ∧
    calls s' = [CallInfo "x"; CallListing "x" "2024-01-01" "2024-01-31";
                CallContent "x" ["u1"]].
Proof.
  assert (readable (machine [("x", mixed_plugin)] ∅) = true) as Hread
    by (vm_compute; reflexivity).
  destruct (content_called_once_for_new_urls "x" "2024-01-01" "2024-01-31"
              (machine [("x", mixed_plugin)] ∅) mixed_plugin "X"
              eq_refl eq_refl Hread)
    as (r & s' & Hrun & Hcalls & _).
  exists r, s'. split; [exact Hrun|].
  rewrite Hcalls. vm_compute in Hrun. injection Hrun as <- _. reflexivity.
Defined.

(** ** A content call that raises *)

(** The records a failing content call had built are not in the result:
    on [failing_plugin] the call raises after the page of [u1], and the
    run returns with no content record at all. *)
Lemma partial_content_not_kept :
  scrape_full_content failing_plugin ["u1"; "u2"]
  = ContentFails [page "u1"] "timed out on u2" ∧
  ∃ r s',
    run_scraper "x" "2024-01-01" "2024-01-31" true (machine [("x", failing_plugin)] ∅)
    = (Returned r, s') ∧
    calls s' = [CallInfo "x"; CallListing "x" "2024-01-01" "2024-01-31";
                CallContent "x" ["u1"; "u2"]] ∧
    sr_full_content r = [] ∧
    cnt_raw_data <$> sr_full_content r ≠ [page "u1"].
Proof.
  split; [reflexivity|].
  eexists _, _. split; [vm_compute; reflexivity|].
  split; [reflexivity|]. split; [reflexivity|]. discriminate.
Qed.

(** C6, as the code has it.  When the content call of a run raises, the
    run still returns: its result has the announcements the listing loop
    admitted and one error, the text of the exception under the name of
    the collector, and it has no content record. *)
Theorem content_failure_is_recorded name start_date end_date s scraper info_name
    l processed msg :
  dict_get name (loaded_scrapers (self s)) = Some scraper →
  get_scraper_info scraper !! "name" = Some info_name →
  readable s = true →
  scrape_announcements scraper start_date end_date = ListingYields l →
  let kept := admitted (known_urls (stored_entries s) (Some name)) l in
  urls_of kept ≠ [] →
  scrape_full_content scraper (urls_of kept) = ContentFails processed msg →
  ∃ r s',
    run_scraper name start_date end_date true s = (Returned r, s') ∧
    ann_raw_data <$> sr_announcements r = kept ∧
    sr_errors r = [run_error name msg] ∧
    sr_full_content r = [].
Proof.
  intros Hreg Hname Hread Hl kept Hurls Hfail.
  destruct (run_scraper_spec name start_date end_date true s scraper info_name
              Hreg Hname Hread)
    as (r & s' & Hrun & Ha & _ & _ & _ & Hfc & Herr & _).
  unfold listed in Ha, Hfc, Herr. rewrite Hl in Ha, Hfc, Herr.
  fold kept in Ha, Hfc, Herr.
  unfold fetched in Hfc. unfold run_errors in Herr. rewrite Hl in Herr.
  assert (nonempty (urls_of kept) = true) as Hne by (by destruct (urls_of kept)).
  rewrite Hne, Hfail in Hfc, Herr. cbn in Hfc, Herr.
  exists r, s'. split; [exact Hrun|]. split; [exact Ha|]. split; [exact Herr|].
  by apply fmap_nil_inv in Hfc.
Qed.

Lemma content_failure_is_recorded_witness :
  ∃ r s',
    run_scraper "x" "2024-01-01" "2024-01-31" true (machine [("x", failing_plugin)] ∅)
    = (Returned r, s') ∧
    ann_raw_data <$> sr_announcements r
    = [listing "u1" "first"; listing "u2" "second"] ∧
    sr_errors r = ["Error running scraper x: timed out on u2"] ∧
    sr_full_content r = [].
Proof.
  assert (readable (machine [("x", failing_plugin)] ∅) = true) as Hread
    by (vm_compute; reflexivity).
  assert (urls_of (admitted (known_urls (stored_entries (machine [("x", failing_plugin)] ∅))
                               (Some "x"))
                     [listing "u1" "first"; listing "u2" "second"]) ≠ []) as Hurls
    by (vm_compute; discriminate).
  destruct (content_failure_is_recorded "x" "2024-01-01" "2024-01-31"
              (machine [("x", failing_plugin)] ∅) failing_plugin "X"
              [listing "u1" "first"; listing "u2" "second"]
              [page "u1"] "timed out on u2"
              eq_refl eq_refl Hread eq_refl Hurls eq_refl)
    as (r & s' & Hrun & Ha & Herr & Hfc).
  exists r, s'. split; [exact Hrun|]. split; [|split; [exact Herr|exact Hfc]].
  rewrite Ha. vm_compute. reflexivity.
Defined.

(** ** The success rate *)

(** C10.  The statistics at the end of the [try] block are always
    computed: [success_rate] is 0 when the result has no announcement and
    the quotient of the number of content records by the number of
    announcements otherwise; and whatever the collector does, the [try]
    block never raises [ZeroDivisionError]. *)
Theorem success_rate_total start_date end_date r s :
  (∃ r',
     update_run_statistics start_date end_date (r, s) = (Returned tt, (r', s)) ∧
     sr_announcements r' = sr_announcements r ∧
     sr_full_content r' = sr_full_content r ∧
     sr_statistics r' !! "success_rate"
     = Some match sr_announcements r with
            | [] => SNum 0
            | _ :: _ =>
                SRatio (Z.of_nat (length (sr_full_content r))
                        # Pos.of_nat (length (sr_announcements r)))
            end) ∧
  ∀ name scraper full,
    (run_scraper_try name scraper start_date end_date full (r, s)).1
    ≠ Raised ZeroDivisionError.
Proof.
  split.
  - eexists. split; [apply update_run_statistics_eq|].
    split; [reflexivity|]. split; [reflexivity|].
    cbn -[String.append]. rewrite lookup_union_l'.
    + rewrite lookup_insert_ne by done. rewrite lookup_singleton_eq.
      by destruct (sr_announcements r).
    + rewrite lookup_insert_ne by done. by rewrite lookup_singleton_eq.
  - intros name scraper full. unfold run_scraper_try.
    destruct (scrape_announcements scraper start_date end_date) as [l|msg] eqn:Hl.
    + destruct (scrape_new_announcements_yields name scraper start_date end_date r s l Hl)
        as (added & r1 & s1 & Hrun1 & _).
      erewrite bind_returned by exact Hrun1.
      destruct (full && nonempty (urls_of (admitted (sr_existing_urls r) l))) eqn:Hgo.
      * destruct (scrape_full_content scraper (urls_of (admitted (sr_existing_urls r) l)))
          as [pages|processed msg] eqn:Hpages.
        -- destruct (scrape_new_content_yields name scraper full _ r1 s1 pages Hgo Hpages)
             as (got & r2 & s2 & Hrun2 & _).
           erewrite bind_returned by exact Hrun2.
           by rewrite update_run_statistics_eq.
        -- destruct (scrape_new_content_fails name scraper full _ r1 s1 processed msg
                       Hgo Hpages) as (s2 & Hrun2 & _).
           erewrite bind_raised by exact Hrun2. done.
      * destruct (scrape_new_content_skipped name scraper full _ r1 s1 Hgo)
          as (s2 & Hrun2 & _).
        erewrite bind_returned by exact Hrun2.
        by rewrite update_run_statistics_eq.
    + destruct (scrape_new_announcements_fails name scraper start_date end_date r s msg Hl)
        as (s1 & Hrun1 & _).
      erewrite bind_raised by exact Hrun1. done.
Qed.

(** ** A garbled master file *)

(** On a master file that was cut short, [load_existing_data] does not
    raise the read failure: it ends, at the recursion limit, in
    [RecursionError]. *)
Lemma garbled_store_no_read_failure :
  master_file machine_with_garbled_store
  = Some (Garbled "Unterminated string starting at: line 1 column 2 (char 1)") ∧
  (load_existing_data recursion_limit machine_with_garbled_store).1
  = Raised RecursionError ∧
  ¬ ∃ msg, (load_existing_data recursion_limit machine_with_garbled_store).1
           = Raised (ReadFailure msg).
Proof.
  assert ((load_existing_data recursion_limit machine_with_garbled_store).1
          = Raised RecursionError) as H by (vm_compute; reflexivity).
  split; [vm_compute; reflexivity|]. split; [exact H|].
  rewrite H. intros [msg Hmsg]. discriminate Hmsg.
Qed.

(** C1, as the code has it.  When the master file exists and does not
    decode, [load_existing_data] catches the read failure, prints a
    warning with its text and calls itself on the same file: whatever the
    depth, the read failure does not reach the caller and the file is not
    written. *)
Theorem garbled_store_is_retried depth s why :
  master_file s = Some (Garbled why) →
  load_existing_data (S depth) s
  = load_existing_data depth (print_line (load_warning why) s) ∧
  (∀ msg, (load_existing_data depth s).1 ≠ Raised (ReadFailure msg)) ∧
  fs (load_existing_data depth s).2 = fs s ∧
  ∃ more,
    stdout (load_existing_data depth s).2 = (stdout s ++ load_warning why :: more)%list.
Proof.
  intros H. split; [by apply load_garbled_retry|].
  destruct (load_garbled_never depth s why H) as (H1 & _ & H3 & _ & H5).
  done.
Qed.

Lemma garbled_store_is_retried_witness :
  master_file machine_with_garbled_store
  = Some (Garbled "Unterminated string starting at: line 1 column 2 (char 1)") ∧
  load_existing_data 3 machine_with_garbled_store
  = load_existing_data 2
      (print_line
         (load_warning "Unterminated string starting at: line 1 column 2 (char 1)")
         machine_with_garbled_store) ∧
  fs (load_existing_data 2 machine_with_garbled_store).2 = fs machine_with_garbled_store.
Proof.
  assert (master_file machine_with_garbled_store
          = Some (Garbled "Unterminated string starting at: line 1 column 2 (char 1)"))
    as H by (vm_compute; reflexivity).
  split; [exact H|].
  destruct (garbled_store_is_retried 2 machine_with_garbled_store _ H)
    as (Hretry & _ & Hfs & _).
  split; [exact Hretry|exact Hfs].
Defined.

(** ** Merging *)

Lemma merged_store_spec new_results s :
  readable s = true →
  ∃ d s',
    merged_store new_results s = (Returned d, s') ∧
    results_by_scraper d = foldl merge_result (stored_entries s) new_results ∧
    consistent_summary d ∧
    same_world s s'.
Proof.
  intros H.
  destruct (load_readable recursion_limit s H) as (d0 & s0 & Hload & Hd & Hw).
  eexists _, _. split.
  { unfold merged_store. erewrite bind_returned by exact Hload.
    cbn. reflexivity. }
  cbn. rewrite Hd. split; [done|]. split; [done|].
  destruct Hw as (? & ? & ?). done.
Qed.

Lemma readable_stored s d : master_file s = Some (Json d) → readable s = true.
Proof. unfold readable. by intros ->. Qed.

(** What a merge returns and leaves in the master file. *)
Lemma update_master_file_spec new_results s :
  readable s = true →
  ∃ d s',
    update_master_file new_results s = (Returned (master_file_path (self s)), s') ∧
    results_by_scraper d = foldl merge_result (stored_entries s) new_results ∧
    consistent_summary d ∧
    self s' = self s ∧ calls s' = calls s ∧
    fs s' = <[master_file_path (self s) := Json d]> (fs s) ∧
    master_file s' = Some (Json d).
Proof.
  intros H.
  destruct (merged_store_spec new_results s H) as (d & s1 & Hm & Hd & Hsum & Hw & Hf & Hc).
  eexists d, _. split.
  { unfold update_master_file. erewrite bind_returned by exact Hm.
    cbn. rewrite Hw. reflexivity. }
  cbn. rewrite Hw, Hf, Hc.
  split; [done|]. split; [done|]. split; [done|]. split; [done|].
  unfold master_file. cbn. rewrite ?Hw, ?Hf.
  rewrite insert_insert_eq. split; [done|]. by rewrite lookup_insert_eq.
Qed.

Lemma sum_over_insert_fresh f (m : gmap string CorpusEntry) k e :
  m !! k = None → sum_over f (<[k:=e]> m) = f e + sum_over f m.
Proof.
  intros H. unfold sum_over.
  rewrite (map_to_list_insert m k e H). reflexivity.
Qed.

Lemma sum_over_insert_known f (m : gmap string CorpusEntry) k e0 e :
  m !! k = Some e0 → sum_over f (<[k:=e]> m) + f e0 = f e + sum_over f m.
Proof.
  intros H.
  rewrite <- (insert_delete_eq m k e).
  rewrite <- (insert_delete_id m k e0 H) at 2.
  rewrite !sum_over_insert_fresh by apply lookup_delete_eq. lia.
Qed.

(** One round of the merge loop adds the lengths of the three lists of
    the run to the three sums, for a collector that is new to the store
    as for one it already has. *)
Lemma merge_result_adds (m : gmap string CorpusEntry) name r :
  sum_over (λ data, length (e_announcements data)) (merge_result m (name, r))
  = sum_over (λ data, length (e_announcements data)) m + length (sr_announcements r) ∧
  sum_over (λ data, length (e_full_content data)) (merge_result m (name, r))
  = sum_over (λ data, length (e_full_content data)) m + length (sr_full_content r) ∧
  sum_over (λ data, length (e_errors data)) (merge_result m (name, r))
  = sum_over (λ data, length (e_errors data)) m + length (sr_errors r).
Proof.
  unfold merge_result. destruct (m !! name) as [e0|] eqn:He.
  - pose proof (sum_over_insert_known (λ data, length (e_announcements data))
                  m name e0 (extend_entry e0 (to_dict r)) He) as H1.
    pose proof (sum_over_insert_known (λ data, length (e_full_content data))
                  m name e0 (extend_entry e0 (to_dict r)) He) as H2.
    pose proof (sum_over_insert_known (λ data, length (e_errors data))
                  m name e0 (extend_entry e0 (to_dict r)) He) as H3.
    cbn in H1, H2, H3. rewrite length_app in H1, H2, H3. lia.
  - rewrite !sum_over_insert_fresh by done. cbn. lia.
Qed.

(** C3.  After any sequence of merges that has at least one merge, the
    master file holds a store whose summary agrees with its entries:
    [total_announcements], [total_full_content] and [total_errors] are the
    sums of the lengths of the three lists over all entries. *)
Theorem summary_consistent_after_merges batches new_results s :
  readable s = true →
  ∃ d s',
    merge_all (batches ++ [new_results]) s = (Returned tt, s') ∧
    master_file s' = Some (Json d) ∧
    total_announcements (summary d)
    = sum_list ((λ e, length (e_announcements e))
                  <$> (map_to_list (results_by_scraper d)).*2) ∧
    total_full_content (summary d)
    = sum_list ((λ e, length (e_full_content e))
                  <$> (map_to_list (results_by_scraper d)).*2) ∧
    total_errors (summary d)
    = sum_list ((λ e, length (e_errors e))
                  <$> (map_to_list (results_by_scraper d)).*2).
Proof.
  revert s. induction batches as [|batch batches IH]; intros s H.
  - destruct (update_master_file_spec new_results s H)
      as (d & s' & Hrun & _ & Hsum & _ & _ & _ & Hfile).
    exists d, s'. split; [|split; [exact Hfile|exact Hsum]].
    unfold merge_all. cbn [app for_each].
    erewrite bind_returned
      by (erewrite bind_returned by exact Hrun; reflexivity).
    reflexivity.
  - destruct (update_master_file_spec batch s H)
      as (d1 & s1 & Hrun & _ & _ & _ & _ & _ & Hfile).
    destruct (IH s1 (readable_stored s1 d1 Hfile)) as (d & s' & Hall & Hrest).
    exists d, s'. split; [|exact Hrest].
    unfold merge_all. cbn [app for_each].
    erewrite bind_returned
      by (erewrite bind_returned by exact Hrun; reflexivity).
    exact Hall.
Qed.

Lemma summary_consistent_after_merges_witness :
  ∃ d s',
    merge_all ([[("x", later_result)]] ++ [[("y", failed_result)]]) seeded_machine
    = (Returned tt, s') ∧
    master_file s' = Some (Json d) ∧
    stored_totals seeded_machine = Some (2, 1, 0) ∧
    stored_counts "x" s' = Some (4, 3, 0) ∧
    stored_counts "y" s' = Some (2, 0, 1) ∧
    stored_totals s' = Some (6, 3, 1) ∧
    total_announcements (summary d)
    = sum_list ((λ e, length (e_announcements e))
                  <$> (map_to_list (results_by_scraper d)).*2) ∧
    total_full_content (summary d)
    = sum_list ((λ e, length (e_full_content e))
                  <$> (map_to_list (results_by_scraper d)).*2) ∧
    total_errors (summary d)
    = sum_list ((λ e, length (e_errors e))
                  <$> (map_to_list (results_by_scraper d)).*2).
Proof.
  assert (readable seeded_machine = true) as H by (vm_compute; reflexivity).
  destruct (summary_consistent_after_merges [[("x", later_result)]] [("y", failed_result)]
              seeded_machine H)
    as (d & s' & Hrun & Hfile & Hsum).
  exists d, s'. split; [exact Hrun|]. split; [exact Hfile|].
  assert (s' = (merge_all ([[("x", later_result)]] ++ [[("y", failed_result)]])
                  seeded_machine).2) as Hs' by (rewrite Hrun; reflexivity).
  split; [vm_compute; reflexivity|].
  split; [rewrite Hs'; vm_compute; reflexivity|].
  split; [rewrite Hs'; vm_compute; reflexivity|].
  split; [rewrite Hs'; vm_compute; reflexivity|].
  exact Hsum.
Defined.

(** ** Saving *)

(** A merge that dies after the file was opened for writing leaves a
    master file of length zero where a store was. *)
Lemma save_cut_short_garbles_store :
  master_file machine_with_store = Some (Json (empty_store "t0" "t0")) ∧
  master_file (update_master_file_killed 1 [] machine_with_store).2
  = Some (Garbled empty_file_error) ∧
  (load_existing_data recursion_limit
     (update_master_file_killed 1 [] machine_with_store).2).1
  = Raised RecursionError.
Proof. repeat split; vm_compute; reflexivity. Qed.

Lemma killed_merge_fs k new_results s d s1 :
  merged_store new_results s = (Returned d, s1) →
  self s1 = self s → fs s1 = fs s →
  fs (update_master_file_killed k new_results s).2
  = foldl (λ files op, apply_op op files) (fs s)
      (take k (save_ops (master_file_path (self s)) d)).
Proof.
  intros Hm Hw Hf. unfold update_master_file_killed.
  erewrite bind_returned by exact Hm.
  erewrite bind_returned by reflexivity. rewrite Hw.
  destruct k as [|[|k]]; cbn; rewrite ?Hf, ?take_nil; done.
Qed.

(** C8, as the code has it.  The save of a merge works on the master
    file itself: it opens the file for writing, which cuts it to length
    zero, and then writes the store into it.  No other path is written at
    any point; a merge that dies between the two operations leaves a
    master file that does not decode; a merge that is not cut short
    leaves the merged store in it. *)
Theorem save_is_in_place new_results s :
  readable s = true →
  let path := master_file_path (self s) in
  ∃ d s1,
    merged_store new_results s = (Returned d, s1) ∧
    (∀ k, fs (update_master_file_killed k new_results s).2
          = foldl (λ files op, apply_op op files) (fs s)
              (take k [OpenForWriting path; DumpJson path d])) ∧
    (∀ k p, p ≠ path →
            fs (update_master_file_killed k new_results s).2 !! p = fs s !! p) ∧
    fs (update_master_file_killed 1 new_results s).2 !! path
    = Some (Garbled empty_file_error) ∧
    fs (update_master_file new_results s).2 !! path = Some (Json d).
Proof.
  intros H path.
  destruct (merged_store_spec new_results s H) as (d & s1 & Hm & _ & _ & Hw & Hf & _).
  exists d, s1. split; [exact Hm|].
  pose proof (λ k, killed_merge_fs k new_results s d s1 Hm Hw Hf) as Hk.
  fold path in Hk. unfold save_ops in Hk.
  split; [exact Hk|]. split; [|split].
  - intros k p Hp. rewrite Hk.
    assert (path ≠ p) as Hp' by done.
    destruct k as [|[|k]]; cbn; rewrite ?take_nil; cbn;
      rewrite ?lookup_insert_ne by exact Hp'; done.
  - rewrite Hk. cbn. by rewrite lookup_insert_eq.
  - unfold update_master_file.
    erewrite bind_returned by exact Hm.
    cbn. rewrite Hw. by rewrite lookup_insert_eq.
Qed.

Lemma save_is_in_place_witness :
  ∃ d s1,
    merged_store [] machine_with_store = (Returned d, s1) ∧
    fs (update_master_file_killed 1 [] machine_with_store).2
      !! master_file_path (self machine_with_store)
    = Some (Garbled empty_file_error) ∧
    fs (update_master_file [] machine_with_store).2
      !! master_file_path (self machine_with_store)
    = Some (Json d).
Proof.
  assert (readable machine_with_store = true) as H by (vm_compute; reflexivity).
  destruct (save_is_in_place [] machine_with_store H) as (d & s1 & Hm & _ & _ & H1 & H2).
  by exists d, s1.
Defined.

(** ** Urls repeated within one listing *)

(** C5 fails on the code.  A listing that has the url [u1] twice, run on
    an empty store and merged, leaves two stored records with the url
    [u1] in the entry of the collector: [add_announcement] looks the url
    up in the index the run started from and not in [new_urls]. *)
Theorem repeated_url_is_stored_twice :
  stored_urls "x"
    (run_and_merge "x" "2024-01-01" "2024-01-31" true
       (machine [("x", repeating_plugin)] ∅)).2
  = Some ["u1"; "u1"].
Proof. vm_compute. reflexivity. Qed.

(** ** Running twice *)

(** On a store that already has [u1], a run of [mixed_plugin] admits the
    record without url and skips [u1]; after the merge the same run
    admits the record without url again and skips [u1] again, although
    the first run admitted no record with a url. *)
Lemma rerun_admits_and_skips :
  ∃ r1 s1 r2 s2,
    run_and_merge "x" "2024-01-01" "2024-01-31" true seeded_machine = (Returned r1, s1) ∧
    run_scraper "x" "2024-01-01" "2024-01-31" true s1 = (Returned r2, s2) ∧
    length (sr_announcements r2) = 1 ∧
    sr_skipped_duplicates r2 = 1 ∧
    length (filter (λ a, ann_url a ≠ "") (sr_announcements r1)) = 0.
Proof.
  eexists _, _, _, _.
  split; [vm_compute; reflexivity|].
  split; [vm_compute; reflexivity|].
  repeat split; vm_compute; reflexivity.
Qed.

(** The index of a name: the urls of the entry of that name, or of every
    entry when the name is empty. *)
Lemma elem_of_known_urls (m : gmap string CorpusEntry) name u :
  u ∈ known_urls m (Some name)
  ↔ ∃ k e, m !! k = Some e ∧ u ∈ entry_urls e ∧ (name ≠ "" → k = name).
Proof.
  unfold known_urls. destruct (truthy name) eqn:Hname.
  - apply truthy_iff in Hname. cbn. rewrite (right_id_L ∅ (∪)). split.
    + destruct (m !! name) as [e|] eqn:He; [|by intros ?%not_elem_of_empty].
      intros Hu. by exists name, e.
    + intros (k & e & Hk & Hu & Heq). rewrite (Heq Hname) in Hk. by rewrite Hk.
  - assert (name = "") as ->.
    { unfold truthy in Hname. apply negb_false_iff in Hname.
      by apply bool_decide_eq_true in Hname. }
    rewrite elem_of_union_list. split.
    + intros (X & HX & Hu).
      apply list_elem_of_fmap_1 in HX as (k & -> & Hk).
      destruct (m !! k) as [e|] eqn:He; [|by apply not_elem_of_empty in Hu].
      by exists k, e.
    + intros (k & e & Hk & Hu & _).
      exists (entry_urls e). split; [|exact Hu].
      apply list_elem_of_fmap. exists k. rewrite Hk. split; [done|].
      apply list_elem_of_fmap. exists (k, e). split; [done|].
      by apply elem_of_map_to_list.
Qed.

Lemma merge_result_other (m : gmap string CorpusEntry) name r k :
  k ≠ name → merge_result m (name, r) !! k = m !! k.
Proof.
  intros Hk. unfold merge_result.
  destruct (m !! name); by rewrite lookup_insert_ne.
Qed.

Lemma merge_result_same (m : gmap string CorpusEntry) name r :
  ∃ e',
    merge_result m (name, r) !! name = Some e' ∧
    (∀ e u, m !! name = Some e → u ∈ entry_urls e → u ∈ entry_urls e') ∧
    (∀ a, a ∈ sr_announcements r → ann_url a ≠ "" → ann_url a ∈ entry_urls e').
Proof.
  unfold merge_result. destruct (m !! name) as [e0|] eqn:He.
  - eexists. split; [by rewrite lookup_insert_eq|].
    unfold entry_urls, extend_entry. cbn.
    rewrite !fmap_app, !filter_app, !list_to_set_app_L. split.
    + intros e u Heq. injection Heq as <-. rewrite !elem_of_union. tauto.
    + intros a Ha Hne.
      assert (ann_url a ∈ filter (λ u, truthy u) (ann_url <$> sr_announcements r)).
      { apply list_elem_of_filter. split.
        - by apply Is_true_true, truthy_iff.
        - by apply list_elem_of_fmap_2. }
      set_solver.
  - eexists. split; [by rewrite lookup_insert_eq|].
    unfold entry_urls. cbn. split; [done|].
    intros a Ha Hne.
    assert (ann_url a ∈ filter (λ u, truthy u) (ann_url <$> sr_announcements r)).
    { apply list_elem_of_filter. split.
      - by apply Is_true_true, truthy_iff.
      - by apply list_elem_of_fmap_2. }
    set_solver.
Qed.

(** Merging a run keeps every url of the index and adds the urls of the
    announcements of the run. *)
Lemma index_grows (m : gmap string CorpusEntry) name r u :
  u ∈ known_urls m (Some name)
  ∨ (∃ a, a ∈ sr_announcements r ∧ ann_url a = u ∧ u ≠ "") →
  u ∈ known_urls (merge_result m (name, r)) (Some name).
Proof.
  destruct (merge_result_same m name r) as (e' & He' & Hold & Hnew).
  rewrite !elem_of_known_urls.
  intros [(k & e & Hk & Hu & Hname)|(a & Ha & <- & Hne)].
  - destruct (decide (k = name)) as [->|Hkn].
    + exists name, e'. split; [exact He'|]. split; [by eapply Hold|done].
    + exists k, e. split; [by rewrite merge_result_other|]. done.
  - exists name, e'. split; [exact He'|]. split; [by apply Hnew|done].
Qed.

Lemma duplicate_true idx a :
  duplicate idx a = true ↔ url_of a ≠ "" ∧ url_of a ∈ idx.
Proof.
  unfold duplicate. rewrite andb_true_iff, truthy_iff, bool_decide_eq_true. done.
Qed.

Lemma duplicate_no_url idx a : url_of a = "" → duplicate idx a = false.
Proof. unfold duplicate, truthy. intros ->. done. Qed.

Lemma urls_of_cons_no_url a l : url_of a = "" → urls_of (a :: l) = urls_of l.
Proof.
  intros H. unfold urls_of. rewrite filter_cons_False; [done|].
  rewrite H. intros Ht. by apply Is_true_true, truthy_iff in Ht.
Qed.

Lemma urls_of_cons_url a l : url_of a ≠ "" → urls_of (a :: l) = url_of a :: urls_of l.
Proof.
  intros H. unfold urls_of. rewrite filter_cons_True; [reflexivity|].
  by apply Is_true_true, truthy_iff.
Qed.

(** A listing seen again once everything it had was merged: the records
    without url are admitted, every record with a url is rejected. *)
Lemma second_pass idx1 idx2 l :
  (∀ u, u ∈ idx1 → u ∈ idx2) →
  (∀ a, a ∈ admitted idx1 l → url_of a ≠ "" → url_of a ∈ idx2) →
  admitted idx2 l = filter (λ a, url_of a = "") l ∧
  length (rejected idx2 l)
  = length (urls_of (admitted idx1 l)) + length (rejected idx1 l).
Proof.
  intros Hsub. induction l as [|a l IH]; intros Hnew; [done|].
  assert (∀ b, b ∈ admitted idx1 l → url_of b ≠ "" → url_of b ∈ idx2) as Htail.
  { intros b Hb. apply Hnew. unfold admitted in *.
    apply list_elem_of_filter in Hb as [Hb1 Hb2].
    apply list_elem_of_filter. split; [done|]. by apply elem_of_cons; right. }
  destruct (IH Htail) as [IHa IHr].
  destruct (decide (url_of a = "")) as [Hu|Hu].
  - rewrite !admitted_cons_false, !rejected_cons_false by by apply duplicate_no_url.
    rewrite filter_cons_True by done.
    rewrite urls_of_cons_no_url by done. by rewrite IHa, IHr.
  - rewrite filter_cons_False by done.
    assert (duplicate idx2 a = true) as Hdup2.
    { apply duplicate_true. split; [done|].
      destruct (duplicate idx1 a) eqn:Hdup1.
      - apply duplicate_true in Hdup1 as [_ Hin]. by apply Hsub.
      - apply Hnew; [|done]. rewrite admitted_cons_false by done.
        by apply elem_of_cons; left. }
    rewrite admitted_cons_true, rejected_cons_true by done. split; [done|].
    destruct (duplicate idx1 a) eqn:Hdup1.
    + rewrite admitted_cons_true, rejected_cons_true by done. cbn. lia.
    + rewrite admitted_cons_false, rejected_cons_false by done.
      rewrite urls_of_cons_url by done. cbn. lia.
Qed.

(** C2, as the code has it.  Run a registered collector, merge its
    result, and run it again with the same dates: the second run admits
    the records of the listing that have no url and no other, so none at
    all when every record has a url; and its [skipped_duplicates] is the
    number of announcements with a url that the first run admitted plus
    the [skipped_duplicates] of the first run. *)
Theorem rerun_admits_only_records_without_url name start_date end_date full s
    scraper info_name :
  dict_get name (loaded_scrapers (self s)) = Some scraper →
  get_scraper_info scraper !! "name" = Some info_name →
  readable s = true →
  ∃ r1 s1 r2 s2,
    run_and_merge name start_date end_date full s = (Returned r1, s1) ∧
    run_scraper name start_date end_date full s1 = (Returned r2, s2) ∧
    ann_raw_data <$> sr_announcements r2
    = filter (λ a, url_of a = "") (listed scraper start_date end_date) ∧
    sr_skipped_duplicates r2
    = length (filter (λ a, ann_url a ≠ "") (sr_announcements r1))
      + sr_skipped_duplicates r1.
Proof.
  intros Hreg Hname Hread.
  destruct (run_scraper_spec name start_date end_date full s scraper info_name
              Hreg Hname Hread)
    as (r1 & sa & Hrun1 & Ha1 & Hcons1 & Hsk1 & _ & _ & _ & _ & Hself1 & Hfs1 & _).
  assert (master_file sa = master_file s) as Hfile1.
  { unfold master_file. by rewrite Hself1, Hfs1. }
  assert (readable sa = true) as Hreada.
  { unfold readable. by rewrite Hfile1. }
  assert (stored_entries sa = stored_entries s) as Hent1.
  { unfold stored_entries. by rewrite Hfile1. }
  destruct (update_master_file_spec [(name, r1)] sa Hreada)
    as (d & s1 & Hmerge & Hd & _ & Hself2 & _ & _ & Hfile2).
  rewrite Hent1 in Hd. cbn [foldl] in Hd.
  assert (dict_get name (loaded_scrapers (self s1)) = Some scraper) as Hreg2.
  { by rewrite Hself2, Hself1. }
  assert (stored_entries s1 = merge_result (stored_entries s) (name, r1)) as Hent2.
  { unfold stored_entries at 1. by rewrite Hfile2. }
  destruct (run_scraper_spec name start_date end_date full s1 scraper info_name
              Hreg2 Hname (readable_stored s1 d Hfile2))
    as (r2 & s2 & Hrun2 & Ha2 & _ & Hsk2 & _).
  rewrite Hent2 in Ha2, Hsk2.
  set (idx1 := known_urls (stored_entries s) (Some name)) in *.
  set (idx2 := known_urls (merge_result (stored_entries s) (name, r1)) (Some name)) in *.
  set (l := listed scraper start_date end_date) in *.
  destruct (second_pass idx1 idx2 l) as [Hadm Hrej].
  { intros u Hu. apply index_grows. by left. }
  { intros a Ha Hu. apply index_grows. right.
    rewrite <- Ha1 in Ha. apply list_elem_of_fmap_1 in Ha as (b & -> & Hb).
    exists b. split; [exact Hb|].
    rewrite Forall_forall in Hcons1. by rewrite (Hcons1 b Hb). }
  exists r1, s1, r2, s2.
  split.
  { unfold run_and_merge. erewrite bind_returned by exact Hrun1.
    erewrite bind_returned by exact Hmerge. reflexivity. }
  split; [exact Hrun2|]. split; [by rewrite Ha2|].
  rewrite Hsk2, Hrej, Hsk1. f_equal.
  rewrite <- Ha1, <- (stored_urls_of _ Hcons1). clear.
  induction (sr_announcements r1) as [|a anns IH]; [done|].
  cbn [fmap list_fmap]. fold (ann_url <$> anns). rewrite !filter_cons.
  destruct (decide (ann_url a ≠ "")); cbn; by rewrite IH.
Qed.

Lemma rerun_admits_only_records_without_url_witness :
  ∃ r1 s1 r2 s2,
    run_and_merge "x" "2024-01-01" "2024-01-31" true (machine [("x", mixed_plugin)] ∅)
    = (Returned r1, s1) ∧
    run_scraper "x" "2024-01-01" "2024-01-31" true s1 = (Returned r2, s2) ∧
    ann_raw_data <$> sr_announcements r2
    = filter (λ a, url_of a = "") (listed mixed_plugin "2024-01-01" "2024-01-31") ∧
    sr_skipped_duplicates r2
    = length (filter (λ a, ann_url a ≠ "") (sr_announcements r1))
      + sr_skipped_duplicates r1.
Proof.
  apply (rerun_admits_only_records_without_url "x" "2024-01-01" "2024-01-31" true
           (machine [("x", mixed_plugin)] ∅) mixed_plugin "X").
  - reflexivity.
  - reflexivity.
  - vm_compute. reflexivity.
Defined.

(** * Further properties of the orchestrator *)

(** ** The index *)

Lemma elem_of_entry_urls e u :
  u ∈ entry_urls e
  ↔ u ≠ "" ∧ (u ∈ ann_url <$> e_announcements e ∨ u ∈ cnt_url <$> e_full_content e).
Proof.
  unfold entry_urls.
  rewrite elem_of_union, !elem_of_list_to_set, !list_elem_of_filter.
  rewrite (Is_true_true (truthy u)), truthy_iff. tauto.
Qed.

(** X1.  For a collector name that is not empty, [get_existing_urls]
    returns the non-empty urls of the announcements and of the content
    records stored for that collector and nothing else; with no master
    file or no entry of that name the set is empty. *)
Theorem index_of_collector name s :
  readable s = true →
  name ≠ "" →
  ∃ idx s',
    get_existing_urls (Some name) s = (Returned idx, s') ∧
    fs s' = fs s ∧
    (∀ u, u ∈ idx
          ↔ u ≠ "" ∧
            ∃ e, stored_entries s !! name = Some e ∧
                 (u ∈ ann_url <$> e_announcements e ∨ u ∈ cnt_url <$> e_full_content e)) ∧
    (stored_entries s !! name = None → idx = ∅).
Proof.
  intros Hread Hname.
  destruct (get_existing_urls_spec (Some name) s Hread) as (s' & Hrun & _ & Hfs & _).
  eexists _, s'. split; [exact Hrun|]. split; [exact Hfs|]. split.
  - intros u. rewrite elem_of_known_urls. split.
    + intros (k & e & Hk & Hu & Heq). rewrite (Heq Hname) in Hk.
      apply elem_of_entry_urls in Hu as [Hne Hu]. eauto.
    + intros (Hne & e & He & Hu). exists name, e.
      split; [exact He|]. split; [|done]. apply elem_of_entry_urls. done.
  - intros Hnone. apply set_eq. intros u. rewrite elem_of_known_urls. split.
    + intros (k & e & Hk & _ & Heq). rewrite (Heq Hname) in Hk. congruence.
    + by intros ?%not_elem_of_empty.
Qed.

Lemma index_of_collector_witness :
  ∃ idx s',
    get_existing_urls (Some "x") seeded_machine = (Returned idx, s') ∧
    fs s' = fs seeded_machine.
Proof.
  assert (readable seeded_machine = true) as H by (vm_compute; reflexivity).
  assert ("x" ≠ "") as Hx by discriminate.
  destruct (index_of_collector "x" seeded_machine H Hx) as (idx & s' & Hrun & Hfs & _).
  exists idx, s'. split; [exact Hrun|exact Hfs].
Defined.

(** X2.  Without a name, and also with the empty name, [get_existing_urls]
    returns the non-empty urls stored for any collector. *)
Theorem index_of_all_collectors scraper_name s :
  readable s = true →
  scraper_name = None ∨ scraper_name = Some "" →
  ∃ idx s',
    get_existing_urls scraper_name s = (Returned idx, s') ∧
    ∀ u, u ∈ idx
         ↔ u ≠ "" ∧
           ∃ k e, stored_entries s !! k = Some e ∧
                  (u ∈ ann_url <$> e_announcements e ∨ u ∈ cnt_url <$> e_full_content e).
Proof.
  intros Hread Hall.
  destruct (get_existing_urls_spec scraper_name s Hread) as (s' & Hrun & _).
  eexists _, s'. split; [exact Hrun|].
  assert (known_urls (stored_entries s) scraper_name
          = known_urls (stored_entries s) (Some "")) as ->.
  { by destruct Hall as [-> | ->]. }
  intros u. rewrite elem_of_known_urls. split.
  - intros (k & e & Hk & Hu & _).
    apply elem_of_entry_urls in Hu as [Hne Hu]. eauto.
  - intros (Hne & k & e & He & Hu). exists k, e.
    split; [exact He|]. split; [|done]. apply elem_of_entry_urls. done.
Qed.

Lemma index_of_all_collectors_witness :
  ∃ idx s', get_existing_urls None seeded_machine = (Returned idx, s').
Proof.
  assert (readable seeded_machine = true) as H by (vm_compute; reflexivity).
  destruct (index_of_all_collectors None seeded_machine H (or_introl eq_refl))
    as (idx & s' & Hrun & _).
  exists idx, s'. exact Hrun.
Defined.

(** ** More on merging *)

Lemma load_garbled_raises depth : ∀ s why,
  master_file s = Some (Garbled why) →
  ∃ s',
    load_existing_data depth s = (Raised RecursionError, s') ∧
    self s' = self s ∧ fs s' = fs s ∧ calls s' = calls s.
Proof.
  induction depth as [|depth IH]; intros s why H.
  - rewrite (load_garbled_last s why H). by eexists.
  - rewrite (load_garbled_retry depth s why H).
    destruct (IH (print_line (load_warning why) s) why H) as (s' & -> & ? & ? & ?).
    by exists s'.
Qed.

(** Everything a merge does, on a master file that is absent or decodes. *)
Lemma update_master_file_effect new_results s :
  readable s = true →
  ∃ d0 s0 d s',
    load_existing_data recursion_limit s = (Returned d0, s0) ∧
    results_by_scraper d0 = stored_entries s ∧
    update_master_file new_results s = (Returned (master_file_path (self s)), s') ∧
    master_file s' = Some (Json d) ∧
    fs s' = <[master_file_path (self s) := Json d]> (fs s) ∧
    self s' = self s ∧
    results_by_scraper d = foldl merge_result (stored_entries s) new_results ∧
    first_scrape (scraping_history d) = first_scrape (scraping_history d0) ∧
    total_scrapes (scraping_history d)
    = Some (default 0 (total_scrapes (scraping_history d0)) + 1) ∧
    consistent_summary d ∧
    scrapers_count (summary d) = Some (size (results_by_scraper d)).
Proof.
  intros H.
  destruct (load_readable recursion_limit s H) as (d0 & s0 & Hload & Hd & Hw & Hf & Hc).
  eexists d0, s0, _, _. split; [exact Hload|]. split; [exact Hd|].
  split.
  { unfold update_master_file, merged_store.
    erewrite bind_returned
      by (erewrite bind_returned by exact Hload; cbn; reflexivity).
    cbn. rewrite Hw. reflexivity. }
  unfold master_file. cbn. rewrite Hw, Hf, Hd, insert_insert_eq, lookup_insert_eq.
  repeat split.
Qed.

Lemma stored_scrapes_loaded depth s d0 s0 :
  load_existing_data depth s = (Returned d0, s0) →
  readable s = true →
  default 0 (total_scrapes (scraping_history d0)) = stored_scrapes s.
Proof.
  unfold readable, stored_scrapes. intros Hload H.
  destruct (master_file s) as [[d|why]|] eqn:Hf; [| discriminate |].
  - rewrite (load_json depth s d Hf) in Hload. by injection Hload as <- _.
  - rewrite (load_absent depth s Hf) in Hload. by injection Hload as <- _.
Qed.

(** ** The index after a merge *)

(** The urls of the entry a merge leaves under the name of a result: those
    the entry had, and the non-empty urls of the announcements and of the
    content records of the result. *)
Lemma merge_result_urls (m : gmap string CorpusEntry) name r :
  ∃ e',
    merge_result m (name, r) !! name = Some e' ∧
    (∀ e u, m !! name = Some e → u ∈ entry_urls e → u ∈ entry_urls e') ∧
    (∀ u, u ≠ "" →
          u ∈ ann_url <$> sr_announcements r ∨ u ∈ cnt_url <$> sr_full_content r →
          u ∈ entry_urls e').
Proof.
  assert (∀ (u : string) (l : list string),
            u ≠ "" → u ∈ l → u ∈ filter (λ u, truthy u) l) as Hkeep.
  { intros u l Hne Hu. apply list_elem_of_filter.
    split; [by apply Is_true_true, truthy_iff|exact Hu]. }
  unfold merge_result. destruct (m !! name) as [e0|] eqn:He.
  - eexists. split; [by rewrite lookup_insert_eq|].
    unfold entry_urls, extend_entry. cbn.
    rewrite !fmap_app, !filter_app, !list_to_set_app_L. split.
    + intros e u Heq. injection Heq as <-. rewrite !elem_of_union. tauto.
    + intros u Hne [Hu|Hu]; apply (Hkeep _ _ Hne) in Hu;
        rewrite !elem_of_union, !elem_of_list_to_set; tauto.
  - eexists. split; [by rewrite lookup_insert_eq|].
    unfold entry_urls. cbn. split; [done|].
    intros u Hne [Hu|Hu]; apply (Hkeep _ _ Hne) in Hu;
      rewrite !elem_of_union, !elem_of_list_to_set; tauto.
Qed.

Lemma merge_result_index (m : gmap string CorpusEntry) k r name u :
  u ∈ known_urls m (Some name)
  ∨ (k = name ∧ u ≠ ""
     ∧ (u ∈ ann_url <$> sr_announcements r ∨ u ∈ cnt_url <$> sr_full_content r)) →
  u ∈ known_urls (merge_result m (k, r)) (Some name).
Proof.
  destruct (merge_result_urls m k r) as (e' & He' & Hold & Hnew).
  rewrite !elem_of_known_urls.
  intros [(k0 & e & Hk0 & Hu & Hname)|(-> & Hne & Hu)].
  - destruct (decide (k0 = k)) as [->|Hkn].
    + exists k, e'. split; [exact He'|]. split; [by eapply Hold|done].
    + exists k0, e. split; [by rewrite merge_result_other|]. done.
  - exists name, e'. split; [exact He'|]. split; [by apply Hnew|done].
Qed.

Lemma foldl_merge_index new_results : ∀ (m : gmap string CorpusEntry) name u,
  u ∈ known_urls m (Some name)
  ∨ (∃ r, (name, r) ∈ new_results ∧ u ≠ ""
          ∧ (u ∈ ann_url <$> sr_announcements r ∨ u ∈ cnt_url <$> sr_full_content r)) →
  u ∈ known_urls (foldl merge_result m new_results) (Some name).
Proof.
  induction new_results as [|[k r] rest IH]; intros m name u.
  - intros [H|(r & Hin & _)]; [exact H|by apply elem_of_nil in Hin].
  - intros H. cbn [foldl]. apply IH.
    destruct H as [H|(r0 & Hin & Hne & Hu)].
    + left. apply merge_result_index. by left.
    + apply elem_of_cons in Hin as [Heq|Hin].
      * injection Heq as <- <-. left. apply merge_result_index. right. done.
      * right. by exists r0.
Qed.

(** X3.  What a merge saves is found by the next index: after
    [update_master_file], [get_existing_urls] for the name of a merged
    result returns every url it returned before the merge, and every
    non-empty url of the announcements and of the content records of the
    result, whatever else is merged with it. *)
Theorem merged_urls_are_indexed new_results name r s :
  readable s = true →
  (name, r) ∈ new_results →
  ∃ idx0 s0 s' idx s'',
    get_existing_urls (Some name) s = (Returned idx0, s0) ∧
    update_master_file new_results s = (Returned (master_file_path (self s)), s') ∧
    get_existing_urls (Some name) s' = (Returned idx, s'') ∧
    idx0 ⊆ idx ∧
    (∀ a, a ∈ sr_announcements r → ann_url a ≠ "" → ann_url a ∈ idx) ∧
    (∀ c, c ∈ sr_full_content r → cnt_url c ≠ "" → cnt_url c ∈ idx).
Proof.
  intros H Hin.
  destruct (get_existing_urls_spec (Some name) s H) as (s0 & Hidx0 & _).
  destruct (update_master_file_spec new_results s H)
    as (d & s' & Hrun & Hd & _ & _ & _ & _ & Hfile).
  destruct (get_existing_urls_spec (Some name) s' (readable_stored s' d Hfile))
    as (s'' & Hidx & _).
  eexists _, s0, s', _, s''. split; [exact Hidx0|]. split; [exact Hrun|].
  split; [exact Hidx|].
  assert (stored_entries s' = foldl merge_result (stored_entries s) new_results) as ->.
  { unfold stored_entries at 1. by rewrite Hfile. }
  split; [|split].
  - intros u Hu. apply foldl_merge_index. by left.
  - intros a Ha Hne. apply foldl_merge_index. right. exists r.
    split; [exact Hin|]. split; [exact Hne|]. left. by apply list_elem_of_fmap_2.
  - intros c Hc Hne. apply foldl_merge_index. right. exists r.
    split; [exact Hin|]. split; [exact Hne|]. right. by apply list_elem_of_fmap_2.
Qed.

Lemma merged_urls_are_indexed_witness :
  ∃ idx0 s0 s' idx s'',
    get_existing_urls (Some "x") seeded_machine = (Returned idx0, s0) ∧
    update_master_file [("y", failed_result); ("x", later_result)] seeded_machine
    = (Returned (master_file_path (self seeded_machine)), s') ∧
    get_existing_urls (Some "x") s' = (Returned idx, s'') ∧
    stored_urls "x" seeded_machine = Some ["u1"; ""] ∧
    ann_url <$> sr_announcements later_result = ["u2"; "u3"] ∧
    "u1" ∈ idx0 ∧ "u1" ∈ idx ∧ "u2" ∈ idx ∧ "u3" ∈ idx.
Proof.
  assert (readable seeded_machine = true) as H by (vm_compute; reflexivity).
  assert (("x", later_result) ∈ [("y", failed_result); ("x", later_result)]) as Hin
    by (apply list_elem_of_further, list_elem_of_here).
  destruct (merged_urls_are_indexed [("y", failed_result); ("x", later_result)] "x"
              later_result seeded_machine H Hin)
    as (idx0 & s0 & s' & idx & s'' & H0 & Hrun & H1 & Hsub & Hanns & _).
  assert (ann_url <$> sr_announcements later_result = ["u2"; "u3"]) as Hurls
    by (vm_compute; reflexivity).
  assert (∀ u, u ≠ "" → u ∈ ["u2"; "u3"] → u ∈ idx) as Hnew.
  { intros u Hne Hu. rewrite <- Hurls in Hu.
    apply list_elem_of_fmap in Hu as (a & -> & Ha). apply Hanns; assumption. }
  assert ((λ e, ann_url <$> e_announcements e) <$> stored_entries seeded_machine !! "x"
          = Some ["u1"; ""]) as Hstored by (vm_compute; reflexivity).
  assert ("u1" ∈ idx0) as Hu1.
  { destruct (get_existing_urls_spec (Some "x") seeded_machine H) as (s1 & Heq & _).
    rewrite Heq in H0.
    apply (f_equal (λ out, match out.1 with Returned i => i | Raised _ => ∅ end)) in H0.
    cbv beta iota delta [fst] in H0. rewrite <- H0.
    apply elem_of_known_urls.
    destruct (stored_entries seeded_machine !! "x") as [e0|] eqn:He0;
      [|discriminate Hstored].
    injection Hstored as Hstored.
    exists "x", e0. split; [exact He0|]. split; [|intros _; reflexivity].
    unfold entry_urls. rewrite Hstored. apply elem_of_union_l.
    apply elem_of_list_to_set, list_elem_of_filter.
    split; [exact I|apply list_elem_of_here]. }
  exists idx0, s0, s', idx, s''. split; [exact H0|]. split; [exact Hrun|].
  split; [exact H1|]. split; [vm_compute; reflexivity|]. split; [exact Hurls|].
  split; [exact Hu1|].
  split; [exact (Hsub _ Hu1)|].
  split; (apply Hnew; [discriminate|]).
  - apply list_elem_of_here.
  - apply list_elem_of_further, list_elem_of_here.
Defined.

(** X4.  Each merge adds one to [total_scrapes], counting from 0 when
    the master file is absent or has no counter, and keeps
    [first_scrape] of a master file that exists: after a sequence of
    merges the counter has grown by the number of merges. *)
Theorem merges_are_counted batches new_results s :
  readable s = true →
  ∃ d s',
    merge_all (batches ++ [new_results]) s = (Returned tt, s') ∧
    master_file s' = Some (Json d) ∧
    total_scrapes (scraping_history d) = Some (stored_scrapes s + S (length batches)) ∧
    ∀ d0, master_file s = Some (Json d0) →
          first_scrape (scraping_history d) = first_scrape (scraping_history d0).
Proof.
  revert s. induction batches as [|batch batches IH]; intros s H.
  - destruct (update_master_file_effect new_results s H)
      as (d0 & s0 & d & s' & Hload & _ & Hrun & Hfile & _ & _ & _ & Hfirst & Htotal & _).
    exists d, s'. split; [|split; [exact Hfile|split]].
    + unfold merge_all. cbn [app for_each].
      erewrite bind_returned
        by (erewrite bind_returned by exact Hrun; reflexivity).
      reflexivity.
    + rewrite Htotal, (stored_scrapes_loaded _ _ _ _ Hload H). apply f_equal. cbn [length]. unfold id. lia.
    + intros d1 Hd1. rewrite (load_json _ s d1 Hd1) in Hload.
      injection Hload as <- _. exact Hfirst.
  - destruct (update_master_file_effect batch s H)
      as (d0 & s0 & d1 & s1 & Hload & _ & Hrun & Hfile & _ & _ & _ & Hfirst & Htotal & _).
    destruct (IH s1 (readable_stored s1 d1 Hfile)) as (d & s' & Hall & Hfile' & Htot' & Hfirst').
    exists d, s'. split; [|split; [exact Hfile'|split]].
    + unfold merge_all. cbn [app for_each].
      erewrite bind_returned
        by (erewrite bind_returned by exact Hrun; reflexivity).
      exact Hall.
    + rewrite Htot'. unfold stored_scrapes at 1. rewrite Hfile, Htotal.
      cbn [default]. rewrite (stored_scrapes_loaded _ _ _ _ Hload H). apply f_equal. cbn [length]. unfold id. lia.
    + intros d2 Hd2. rewrite (Hfirst' d1 Hfile), Hfirst.
      rewrite (load_json _ s d2 Hd2) in Hload. by injection Hload as <- _.
Qed.

Lemma merges_are_counted_witness :
  ∃ d s',
    merge_all ([[]] ++ [[]]) machine_with_store = (Returned tt, s') ∧
    master_file s' = Some (Json d) ∧
    total_scrapes (scraping_history d) = Some (stored_scrapes machine_with_store + 2).
Proof.
  assert (readable machine_with_store = true) as H by (vm_compute; reflexivity).
  destruct (merges_are_counted [[]] [] machine_with_store H) as (d & s' & H1 & H2 & H3 & _).
  exists d, s'. split; [exact H1|]. split; [exact H2|exact H3].
Defined.

(** X5.  A merge on a master file that does not decode raises before
    anything is saved: the file is left as it was. *)
Theorem garbled_store_is_not_overwritten new_results s why :
  master_file s = Some (Garbled why) →
  ∃ s',
    update_master_file new_results s = (Raised RecursionError, s') ∧
    fs s' = fs s.
Proof.
  intros H.
  destruct (load_garbled_raises recursion_limit s why H) as (s' & Hload & _ & Hfs & _).
  exists s'. split; [|exact Hfs].
  unfold update_master_file, merged_store.
  erewrite bind_raised; [reflexivity|].
  erewrite bind_raised; [reflexivity|exact Hload].
Qed.

Lemma garbled_store_is_not_overwritten_witness :
  ∃ s',
    update_master_file [] machine_with_garbled_store = (Raised RecursionError, s') ∧
    fs s' = fs machine_with_garbled_store.
Proof.
  assert (master_file machine_with_garbled_store
          = Some (Garbled "Unterminated string starting at: line 1 column 2 (char 1)"))
    as H by (vm_compute; reflexivity).
  exact (garbled_store_is_not_overwritten [] machine_with_garbled_store _ H).
Defined.

Lemma foldl_merge_other new_results : ∀ (m : gmap string CorpusEntry) name,
  name ∉ new_results.*1 →
  foldl merge_result m new_results !! name = m !! name.
Proof.
  induction new_results as [|[k r] rest IH]; intros m name Hnot; [done|].
  cbn in Hnot. apply not_elem_of_cons in Hnot as [Hne Hrest].
  cbn [foldl]. rewrite (IH _ _ Hrest). by apply merge_result_other.
Qed.

(** X6.  A merge leaves the entry of every collector that is not among
    the new results as it was, and adds no entry for it. *)
Theorem merge_keeps_other_entries new_results name s :
  readable s = true →
  name ∉ new_results.*1 →
  ∃ d s',
    update_master_file new_results s = (Returned (master_file_path (self s)), s') ∧
    master_file s' = Some (Json d) ∧
    results_by_scraper d !! name = stored_entries s !! name.
Proof.
  intros H Hnot.
  destruct (update_master_file_effect new_results s H)
    as (d0 & s0 & d & s' & _ & _ & Hrun & Hfile & _ & _ & Hd & _).
  exists d, s'. split; [exact Hrun|]. split; [exact Hfile|].
  rewrite Hd. by apply foldl_merge_other.
Qed.

Lemma merge_keeps_other_entries_witness :
  ∃ d s',
    update_master_file [("y", failed_result)] seeded_machine
    = (Returned (master_file_path (self seeded_machine)), s') ∧
    master_file s' = Some (Json d) ∧
    stored_counts "x" seeded_machine = Some (2, 1, 0) ∧
    stored_counts "y" seeded_machine = None ∧
    stored_counts "y" s' = Some (2, 0, 1) ∧
    results_by_scraper d !! "x" = stored_entries seeded_machine !! "x".
Proof.
  assert (readable seeded_machine = true) as H by (vm_compute; reflexivity).
  assert ("x" ∉ [("y", failed_result)].*1) as Hx.
  { cbn. rewrite elem_of_cons, elem_of_nil. intros [Hxy|[]]. discriminate Hxy. }
  destruct (merge_keeps_other_entries [("y", failed_result)] "x" seeded_machine H Hx)
    as (d & s' & Hrun & Hfile & Hkept).
  exists d, s'. split; [exact Hrun|]. split; [exact Hfile|].
  assert (s' = (update_master_file [("y", failed_result)] seeded_machine).2) as Hs'
    by (rewrite Hrun; reflexivity).
  split; [vm_compute; reflexivity|].
  split; [vm_compute; reflexivity|].
  split; [rewrite Hs'; vm_compute; reflexivity|].
  exact Hkept.
Defined.

Lemma entry_extends_refl e : entry_extends e e.
Proof. by repeat split. Qed.

Lemma entry_extends_trans e1 e2 e3 :
  entry_extends e1 e2 → entry_extends e2 e3 → entry_extends e1 e3.
Proof.
  intros (? & ? & ?) (? & ? & ?). repeat split; by etrans.
Qed.

Lemma merge_result_extends (m : gmap string CorpusEntry) item k e0 :
  m !! k = Some e0 →
  ∃ e, merge_result m item !! k = Some e ∧ entry_extends e0 e.
Proof.
  destruct item as [name r]. intros Hk.
  destruct (decide (k = name)) as [->|Hne].
  - unfold merge_result. rewrite Hk. eexists. split; [by rewrite lookup_insert_eq|].
    unfold entry_extends, extend_entry. cbn. repeat split; by apply prefix_app_r.
  - exists e0. split; [|apply entry_extends_refl].
    by rewrite merge_result_other.
Qed.

Lemma foldl_merge_extends new_results : ∀ (m : gmap string CorpusEntry) k e0,
  m !! k = Some e0 →
  ∃ e, foldl merge_result m new_results !! k = Some e ∧ entry_extends e0 e.
Proof.
  induction new_results as [|item rest IH]; intros m k e0 Hk.
  - exists e0. split; [exact Hk|apply entry_extends_refl].
  - destruct (merge_result_extends m item k e0 Hk) as (e1 & H1 & Hext1).
    destruct (IH _ k e1 H1) as (e & He & Hext).
    exists e. split; [exact He|]. by eapply entry_extends_trans.
Qed.

(** X7.  A merge only appends: every collector the master file had is
    still there, and the announcements, content records and errors it had
    are the beginning, in the same order, of the lists it has after the
    merge. *)
Theorem merge_only_appends new_results s :
  readable s = true →
  ∃ d s',
    update_master_file new_results s = (Returned (master_file_path (self s)), s') ∧
    master_file s' = Some (Json d) ∧
    ∀ k e0, stored_entries s !! k = Some e0 →
            ∃ e, results_by_scraper d !! k = Some e ∧
                 e_announcements e0 `prefix_of` e_announcements e ∧
                 e_full_content e0 `prefix_of` e_full_content e ∧
                 e_errors e0 `prefix_of` e_errors e.
Proof.
  intros H.
  destruct (update_master_file_effect new_results s H)
    as (d0 & s0 & d & s' & _ & _ & Hrun & Hfile & _ & _ & Hd & _).
  exists d, s'. split; [exact Hrun|]. split; [exact Hfile|].
  intros k e0 Hk. rewrite Hd. by apply foldl_merge_extends.
Qed.

Lemma merge_only_appends_witness :
  ∃ d s' e0 e,
    update_master_file [("x", later_result); ("y", failed_result)] seeded_machine
    = (Returned (master_file_path (self seeded_machine)), s') ∧
    master_file s' = Some (Json d) ∧
    stored_entries seeded_machine !! "x" = Some e0 ∧
    results_by_scraper d !! "x" = Some e ∧
    stored_counts "x" seeded_machine = Some (2, 1, 0) ∧
    stored_counts "x" s' = Some (4, 3, 0) ∧
    e_announcements e0 `prefix_of` e_announcements e ∧
    e_full_content e0 `prefix_of` e_full_content e ∧
    e_errors e0 `prefix_of` e_errors e.
Proof.
  assert (readable seeded_machine = true) as H by (vm_compute; reflexivity).
  destruct (merge_only_appends [("x", later_result); ("y", failed_result)] seeded_machine H)
    as (d & s' & Hrun & Hfile & Hext).
  assert (s' = (update_master_file [("x", later_result); ("y", failed_result)]
                  seeded_machine).2) as Hs' by (rewrite Hrun; reflexivity).
  destruct (stored_entries seeded_machine !! "x") as [e0|] eqn:He0;
    [|vm_compute in He0; discriminate He0].
  destruct (Hext "x" e0 He0) as (e & He & Hprefix).
  exists d, s', e0, e. split; [exact Hrun|]. split; [exact Hfile|].
  split; [reflexivity|]. split; [exact He|].
  split; [vm_compute; reflexivity|].
  split; [rewrite Hs'; vm_compute; reflexivity|].
  exact Hprefix.
Defined.

Lemma foldl_merge_adds new_results : ∀ (m : gmap string CorpusEntry),
  sum_over (λ data, length (e_announcements data)) (foldl merge_result m new_results)
  = sum_over (λ data, length (e_announcements data)) m
    + sum_list ((λ r, length (sr_announcements r)) <$> new_results.*2) ∧
  sum_over (λ data, length (e_full_content data)) (foldl merge_result m new_results)
  = sum_over (λ data, length (e_full_content data)) m
    + sum_list ((λ r, length (sr_full_content r)) <$> new_results.*2) ∧
  sum_over (λ data, length (e_errors data)) (foldl merge_result m new_results)
  = sum_over (λ data, length (e_errors data)) m
    + sum_list ((λ r, length (sr_errors r)) <$> new_results.*2).
Proof.
  induction new_results as [|[name r] rest IH]; intros m.
  - cbn. repeat split; lia.
  - cbn [foldl]. destruct (IH (merge_result m (name, r))) as (H1 & H2 & H3).
    destruct (merge_result_adds m name r) as (A1 & A2 & A3).
    rewrite H1, H2, H3, A1, A2, A3. cbn. repeat split; lia.
Qed.

(** X8.  After a merge the three totals of the summary are the sums over
    the entries the master file had before, plus the numbers of
    announcements, of content records and of errors of the merged
    results: a result with [n] content records adds exactly [n] to
    [total_full_content]. *)
Theorem merge_adds_run_counts new_results s :
  readable s = true →
  ∃ d s',
    update_master_file new_results s = (Returned (master_file_path (self s)), s') ∧
    master_file s' = Some (Json d) ∧
    total_announcements (summary d)
    = sum_list ((λ e, length (e_announcements e)) <$> (map_to_list (stored_entries s)).*2)
      + sum_list ((λ r, length (sr_announcements r)) <$> new_results.*2) ∧
    total_full_content (summary d)
    = sum_list ((λ e, length (e_full_content e)) <$> (map_to_list (stored_entries s)).*2)
      + sum_list ((λ r, length (sr_full_content r)) <$> new_results.*2) ∧
    total_errors (summary d)
    = sum_list ((λ e, length (e_errors e)) <$> (map_to_list (stored_entries s)).*2)
      + sum_list ((λ r, length (sr_errors r)) <$> new_results.*2).
Proof.
  intros H.
  destruct (update_master_file_effect new_results s H)
    as (d0 & s0 & d & s' & _ & _ & Hrun & Hfile & _ & _ & Hd & _ & _ & Hsum & _).
  exists d, s'. split; [exact Hrun|]. split; [exact Hfile|].
  destruct Hsum as (S1 & S2 & S3). rewrite S1, S2, S3, Hd.
  exact (foldl_merge_adds new_results (stored_entries s)).
Qed.

Lemma merge_adds_run_counts_witness :
  ∃ d s',
    update_master_file [("x", later_result); ("y", failed_result)] seeded_machine
    = (Returned (master_file_path (self seeded_machine)), s') ∧
    master_file s' = Some (Json d) ∧
    stored_totals seeded_machine = Some (2, 1, 0) ∧
    total_announcements (summary d) = 2 + (2 + 2) ∧
    total_full_content (summary d) = 1 + (2 + 0) ∧
    total_errors (summary d) = 0 + (0 + 1).
Proof.
  assert (readable seeded_machine = true) as H by (vm_compute; reflexivity).
  destruct (merge_adds_run_counts [("x", later_result); ("y", failed_result)]
              seeded_machine H)
    as (d & s' & Hrun & Hfile & Ha & Hc & He).
  exists d, s'. split; [exact Hrun|]. split; [exact Hfile|].
  split; [vm_compute; reflexivity|].
  split; [rewrite Ha|split; [rewrite Hc|rewrite He]]; vm_compute; reflexivity.
Defined.

(** The entry a merge leaves for a collector the store already has. *)
Lemma extend_entry_statistics (m : gmap string CorpusEntry) name r e0 :
  m !! name = Some e0 →
  sr_statistics r !! "total_announcements" = None →
  sr_statistics r !! "skipped_duplicates" = None →
  ∃ e,
    merge_result m (name, r) !! name = Some e ∧
    e_announcements e = (e_announcements e0 ++ sr_announcements r)%list ∧
    e_full_content e = (e_full_content e0 ++ sr_full_content r)%list ∧
    e_errors e = (e_errors e0 ++ sr_errors r)%list ∧
    e_statistics e !! "total_announcements" = Some (SNum (length (e_announcements e))) ∧
    e_statistics e !! "total_full_content" = Some (SNum (length (e_full_content e))) ∧
    e_statistics e !! "total_errors" = Some (SNum (length (e_errors e))) ∧
    e_statistics e !! "last_scrape_new_items" = Some (SNum (length (sr_announcements r))) ∧
    e_statistics e !! "last_scrape_skipped" = Some (SNum (sr_skipped_duplicates r)) ∧
    e_statistics e !! "last_scrape_date" = Some (SStr (sr_scraped_at r)) ∧
    e_statistics e !! "success_rate" = None ∧
    e_statistics e !! "date_range" = None.
Proof.
  intros Hk Ht Hs. unfold merge_result. rewrite Hk.
  eexists. split; [by rewrite lookup_insert_eq|].
  unfold extend_entry, to_dict. cbn -[String.append].
  rewrite !(lookup_union_r (sr_statistics r)) by assumption.
  repeat split.
Qed.

(** X9.  When [update_master_file] merges a result into an entry the
    master file already has (the names of the new results being distinct,
    as the keys of a dict are), the saved entry has the lists of the old
    entry followed by those of the run, and its statistics are rebuilt
    with six keys: the three totals are the lengths of the lists after
    the merge, [last_scrape_new_items] and [last_scrape_skipped] are the
    numbers of announcements and of skipped duplicates of the run,
    [last_scrape_date] is its [scraped_at], and the [date_range] and
    [success_rate] of the run are not kept.  The statistics of the run
    must not already have the keys [total_announcements] and
    [skipped_duplicates], which [to_dict] would let win. *)
Theorem merged_entry_statistics before name r after s e0 :
  readable s = true →
  stored_entries s !! name = Some e0 →
  name ∉ before.*1 → name ∉ after.*1 →
  sr_statistics r !! "total_announcements" = None →
  sr_statistics r !! "skipped_duplicates" = None →
  ∃ d s' e,
    update_master_file (before ++ (name, r) :: after) s
    = (Returned (master_file_path (self s)), s') ∧
    master_file s' = Some (Json d) ∧
    results_by_scraper d !! name = Some e ∧
    e_announcements e = (e_announcements e0 ++ sr_announcements r)%list ∧
    e_full_content e = (e_full_content e0 ++ sr_full_content r)%list ∧
    e_errors e = (e_errors e0 ++ sr_errors r)%list ∧
    e_statistics e !! "total_announcements" = Some (SNum (length (e_announcements e))) ∧
    e_statistics e !! "total_full_content" = Some (SNum (length (e_full_content e))) ∧
    e_statistics e !! "total_errors" = Some (SNum (length (e_errors e))) ∧
    e_statistics e !! "last_scrape_new_items" = Some (SNum (length (sr_announcements r))) ∧
    e_statistics e !! "last_scrape_skipped" = Some (SNum (sr_skipped_duplicates r)) ∧
    e_statistics e !! "last_scrape_date" = Some (SStr (sr_scraped_at r)) ∧
    e_statistics e !! "success_rate" = None ∧
    e_statistics e !! "date_range" = None.
Proof.
  intros H He0 Hbefore Hafter Ht Hs.
  destruct (update_master_file_spec (before ++ (name, r) :: after) s H)
    as (d & s' & Hrun & Hd & _ & _ & _ & _ & Hfile).
  assert (foldl merge_result (stored_entries s) before !! name = Some e0) as Hm
    by (by rewrite foldl_merge_other).
  destruct (extend_entry_statistics _ name r e0 Hm Ht Hs) as (e & He & Hrest).
  exists d, s', e. split; [exact Hrun|]. split; [exact Hfile|].
  split; [|exact Hrest].
  rewrite Hd, foldl_app. cbn [foldl]. by rewrite foldl_merge_other.
Qed.

Lemma merged_entry_statistics_witness :
  ∃ d s' e0 e,
    update_master_file ([("y", failed_result)] ++ ("x", later_result) :: []) seeded_machine
    = (Returned (master_file_path (self seeded_machine)), s') ∧
    master_file s' = Some (Json d) ∧
    stored_entries seeded_machine !! "x" = Some e0 ∧
    results_by_scraper d !! "x" = Some e ∧
    stored_counts "x" seeded_machine = Some (2, 1, 0) ∧
    sr_statistics later_result !! "success_rate" = Some (SRatio (2 # 2)) ∧
    sr_statistics later_result !! "date_range" = Some (SStr "2024-02-01 to 2024-02-29") ∧
    e_statistics e !! "total_announcements" = Some (SNum 4) ∧
    e_statistics e !! "total_full_content" = Some (SNum 3) ∧
    e_statistics e !! "total_errors" = Some (SNum 0) ∧
    e_statistics e !! "last_scrape_new_items" = Some (SNum 2) ∧
    e_statistics e !! "last_scrape_skipped" = Some (SNum 1) ∧
    e_statistics e !! "success_rate" = None ∧
    e_statistics e !! "date_range" = None.
Proof.
  assert (readable seeded_machine = true) as H by (vm_compute; reflexivity).
  assert (stored_counts "x" seeded_machine = Some (2, 1, 0)) as Hcounts
    by (vm_compute; reflexivity).
  destruct (stored_entries seeded_machine !! "x") as [e0|] eqn:He0;
    [|vm_compute in He0; discriminate He0].
  assert ("x" ∉ [("y", failed_result)].*1) as Hbefore.
  { cbn. intros Hx. apply elem_of_cons in Hx as [Hxy|Hx]; [discriminate Hxy|].
    by apply elem_of_nil in Hx. }
  assert ("x" ∉ ([] : list (string * ScraperResult)).*1) as Hafter
    by apply not_elem_of_nil.
  assert (sr_statistics later_result !! "total_announcements" = None) as Ht
    by (vm_compute; reflexivity).
  assert (sr_statistics later_result !! "skipped_duplicates" = None) as Hs
    by (vm_compute; reflexivity).
  destruct (merged_entry_statistics [("y", failed_result)] "x" later_result []
              seeded_machine e0 H He0 Hbefore Hafter Ht Hs)
    as (d & s' & e & Hrun & Hfile & He & Ha & Hc & Her & H1 & H2 & H3 & H4 & H5 & _ & H7 & H8).
  assert (length (e_announcements e0) = 2 ∧ length (e_full_content e0) = 1
          ∧ length (e_errors e0) = 0) as (L1 & L2 & L3).
  { unfold stored_counts in Hcounts. rewrite He0 in Hcounts.
    injection Hcounts as -> -> ->. split; [reflexivity|split; reflexivity]. }
  exists d, s', e0, e. split; [exact Hrun|]. split; [exact Hfile|].
  split; [reflexivity|]. split; [exact He|].
  split; [exact Hcounts|].
  split; [vm_compute; reflexivity|].
  split; [vm_compute; reflexivity|].
  split; [rewrite H1, Ha, length_app, L1; vm_compute; reflexivity|].
  split; [rewrite H2, Hc, length_app, L2; vm_compute; reflexivity|].
  split; [rewrite H3, Her, length_app, L3; vm_compute; reflexivity|].
  split; [rewrite H4; vm_compute; reflexivity|].
  split; [rewrite H5; vm_compute; reflexivity|].
  split; [exact H7|exact H8].
Defined.

(** ** More on a run *)

(** X10.  A registered collector whose info has no [name] makes
    [run_scraper] raise [KeyError] right after [get_scraper_info]: the
    master file is not read, nothing is scraped, nothing is printed and
    no result is recorded. *)
Theorem run_scraper_info_without_name name start_date end_date full s scraper :
  dict_get name (loaded_scrapers (self s)) = Some scraper →
  get_scraper_info scraper !! "name" = None →
  run_scraper name start_date end_date full s
  = (Raised (KeyError "name"), log_call (CallInfo name) s).
Proof.
  intros Hreg Hname. unfold run_scraper.
  erewrite bind_returned by reflexivity. cbn beta. rewrite Hreg.
  erewrite bind_returned by reflexivity.
  erewrite bind_raised; [reflexivity|].
  unfold index. rewrite Hname. reflexivity.
Qed.

Lemma run_scraper_info_without_name_witness :
  run_scraper "n" "2024-01-01" "2024-01-31" true (machine [("n", nameless_plugin)] ∅)
  = (Raised (KeyError "name"),
     log_call (CallInfo "n") (machine [("n", nameless_plugin)] ∅)).
Proof.
  exact (run_scraper_info_without_name "n" "2024-01-01" "2024-01-31" true
           (machine [("n", nameless_plugin)] ∅) nameless_plugin eq_refl eq_refl).
Defined.

(** X11.  A run without full content never calls [scrape_full_content]:
    its result has no content record, and when the listing call returns,
    no error, and a [success_rate] of 0 over the number of announcements
    (the integer 0 when there is none). *)
Theorem run_without_full_content name start_date end_date s scraper info_name :
  dict_get name (loaded_scrapers (self s)) = Some scraper →
  get_scraper_info scraper !! "name" = Some info_name →
  readable s = true →
  ∃ r s',
    run_scraper name start_date end_date false s = (Returned r, s') ∧
    sr_full_content r = [] ∧
    calls s' = (calls s ++ [CallInfo name; CallListing name start_date end_date])%list ∧
    ∀ l, scrape_announcements scraper start_date end_date = ListingYields l →
         sr_errors r = [] ∧
         sr_statistics r !! "success_rate"
         = Some match sr_announcements r with
                | [] => SNum 0
                | _ :: _ => SRatio (0 # Pos.of_nat (length (sr_announcements r)))
                end.
Proof.
  intros Hreg Hname Hread.
  destruct (run_scraper_spec name start_date end_date false s scraper info_name
              Hreg Hname Hread)
    as (r & s' & Hrun & Ha & _ & _ & _ & Hfc & Herr & Hst & _ & _ & Hcalls).
  exists r, s'. split; [exact Hrun|].
  unfold fetched in Hfc, Hst. unfold scrape_calls in Hcalls.
  unfold run_errors in Herr, Hst. cbn [andb] in Hfc, Herr, Hst, Hcalls.
  apply fmap_nil_inv in Hfc.
  split; [exact Hfc|]. split; [exact Hcalls|].
  intros l Hl. rewrite Hl in Herr, Hst. split; [exact Herr|].
  rewrite Hst. unfold run_statistics. cbn [length].
  rewrite lookup_insert_ne by done. rewrite lookup_singleton_eq.
  rewrite <- Ha, length_fmap. by destruct (sr_announcements r).
Qed.

Lemma run_without_full_content_witness :
  ∃ r s',
    run_scraper "x" "2024-01-01" "2024-01-31" false (machine [("x", mixed_plugin)] ∅)
    = (Returned r, s') ∧
    sr_full_content r = [].
Proof.
  assert (readable (machine [("x", mixed_plugin)] ∅) = true) as H
    by (vm_compute; reflexivity).
  destruct (run_without_full_content "x" "2024-01-01" "2024-01-31"
              (machine [("x", mixed_plugin)] ∅) mixed_plugin "X" eq_refl eq_refl H)
    as (r & s' & H1 & H2 & _).
  exists r, s'. split; [exact H1|exact H2].
Defined.

(** X12.  When the listing call raises, the run returns a result with no
    announcement, no content record, nothing skipped, the one error of
    the exception and no statistics at all: neither [date_range] nor
    [success_rate] is set, and [scrape_full_content] is not called. *)
Theorem run_with_failed_listing name start_date end_date full s scraper info_name msg :
  dict_get name (loaded_scrapers (self s)) = Some scraper →
  get_scraper_info scraper !! "name" = Some info_name →
  readable s = true →
  scrape_announcements scraper start_date end_date = ListingFails msg →
  ∃ r s',
    run_scraper name start_date end_date full s = (Returned r, s') ∧
    sr_announcements r = [] ∧ sr_full_content r = [] ∧
    sr_skipped_duplicates r = 0 ∧
    sr_errors r = [run_error name msg] ∧
    sr_statistics r = ∅ ∧
    calls s' = (calls s ++ [CallInfo name; CallListing name start_date end_date])%list.
Proof.
  intros Hreg Hname Hread Hl.
  destruct (run_scraper_spec name start_date end_date full s scraper info_name
              Hreg Hname Hread)
    as (r & s' & Hrun & Ha & _ & Hsk & _ & Hfc & Herr & Hst & _ & _ & Hcalls).
  exists r, s'. split; [exact Hrun|].
  unfold listed in Ha, Hsk, Hfc, Herr, Hst, Hcalls. rewrite Hl in Ha, Hsk, Hfc, Hst, Hcalls.
  unfold run_errors in Herr, Hst. rewrite Hl in Herr, Hst.
  unfold fetched in Hfc. unfold scrape_calls in Hcalls.
  cbn in Ha, Hsk, Hfc, Hst, Hcalls. rewrite andb_false_r in Hfc, Hcalls.
  apply fmap_nil_inv in Ha. apply fmap_nil_inv in Hfc.
  repeat split; assumption.
Qed.

Lemma run_with_failed_listing_witness :
  ∃ r s',
    run_scraper "x" "2024-01-01" "2024-01-31" true (machine [("x", broken_plugin)] ∅)
    = (Returned r, s') ∧
    sr_errors r = [run_error "x" "connection refused"] ∧
    sr_statistics r = ∅.
Proof.
  assert (readable (machine [("x", broken_plugin)] ∅) = true) as H
    by (vm_compute; reflexivity).
  destruct (run_with_failed_listing "x" "2024-01-01" "2024-01-31" true
              (machine [("x", broken_plugin)] ∅) broken_plugin "X" "connection refused"
              eq_refl eq_refl H eq_refl)
    as (r & s' & H1 & _ & _ & _ & H2 & H3 & _).
  exists r, s'. split; [exact H1|]. split; [exact H2|exact H3].
Defined.

(** X13.  Every record of the listing is accounted for: the number of
    announcements of the result plus its [skipped_duplicates] is the
    number of records the listing call returned (0 when it raised). *)
Theorem listing_is_accounted_for name start_date end_date full s scraper info_name :
  dict_get name (loaded_scrapers (self s)) = Some scraper →
  get_scraper_info scraper !! "name" = Some info_name →
  readable s = true →
  ∃ r s',
    run_scraper name start_date end_date full s = (Returned r, s') ∧
    length (sr_announcements r) + sr_skipped_duplicates r
    = match scrape_announcements scraper start_date end_date with
      | ListingYields l => length l
      | ListingFails _ => 0
      end.
Proof.
  intros Hreg Hname Hread.
  destruct (run_scraper_spec name start_date end_date full s scraper info_name
              Hreg Hname Hread)
    as (r & s' & Hrun & Ha & _ & Hsk & _).
  exists r, s'. split; [exact Hrun|].
  rewrite Hsk, <- (length_fmap ann_raw_data), Ha, admitted_rejected_length.
  unfold listed. by destruct (scrape_announcements _ _ _).
Qed.

Lemma listing_is_accounted_for_witness :
  ∃ r s',
    run_scraper "x" "2024-01-01" "2024-01-31" true seeded_machine = (Returned r, s') ∧
    length (sr_announcements r) + sr_skipped_duplicates r = 2.
Proof.
  assert (readable seeded_machine = true) as H by (vm_compute; reflexivity).
  assert (dict_get "x" (loaded_scrapers (self seeded_machine)) = Some mixed_plugin) as Hreg
    by (vm_compute; reflexivity).
  destruct (listing_is_accounted_for "x" "2024-01-01" "2024-01-31" true
              seeded_machine mixed_plugin "X" Hreg eq_refl H)
    as (r & s' & H1 & H2).
  exists r, s'. split; [exact H1|exact H2].
Defined.

(** ** The urls a run calls new *)

Lemma admit_all_new_urls l : ∀ acc r s,
  ∃ out r' s',
    admit_all l acc (r, s) = (Returned out, (r', s')) ∧
    sr_new_urls r'
    = sr_new_urls r ∪ list_to_set (urls_of (admitted (sr_existing_urls r) l)).
Proof.
  induction l as [|a l IH]; intros acc r s.
  - eexists _, r, s. split; [reflexivity|]. cbn. by rewrite (right_id_L ∅ (∪)).
  - destruct (duplicate (sr_existing_urls r) a) eqn:Hdup.
    + destruct (IH acc (skip_duplicate r) s) as (out & r' & s' & Hrun & Hnew).
      exists out, r', s'. rewrite admitted_cons_true by done. split; [|exact Hnew].
      cbn [admit_all]. unfold bind at 1.
      rewrite (add_announcement_duplicate a r s Hdup). exact Hrun.
    + destruct (add_announcement_fresh a r s Hdup) as (std & r1 & _ & Hadd & Hr1).
      destruct (IH (acc ++ [a])%list r1 (draw s)) as (out & r' & s' & Hrun & Hnew).
      exists out, r', s'. rewrite admitted_cons_false by done. split.
      { cbn [admit_all]. unfold bind at 1. rewrite Hadd. exact Hrun. }
      rewrite Hnew. subst r1.
      destruct (truthy (url_of a)) eqn:Hu.
      * rewrite urls_of_cons_url by by apply truthy_iff.
        cbn. apply set_eq. intros x. rewrite !elem_of_union. tauto.
      * rewrite urls_of_cons_no_url; [done|].
        unfold truthy in Hu. apply negb_false_iff in Hu.
        by apply bool_decide_eq_true in Hu.
Qed.

Lemma add_all_content_more l : ∀ r s,
  Forall content_consistent (sr_full_content r) →
  ∃ r' s',
    for_each l add_full_content (r, s) = (Returned tt, (r', s')) ∧
    sr_new_urls r' = sr_new_urls r ∧
    Forall content_consistent (sr_full_content r').
Proof.
  induction l as [|c l IH]; intros r s Hcons.
  - by exists r, s.
  - assert (∃ std, add_full_content c (r, s)
                   = (Returned tt, (append_content std r, draw s)) ∧
                   content_consistent std) as (std & Hadd & Hstd).
    { eexists. split; reflexivity. }
    destruct (IH (append_content std r) (draw s)) as (r' & s' & Hrun & Hnew & Hcons').
    { cbn. apply Forall_app. split; [exact Hcons|by constructor]. }
    exists r', s'. split; [|by split].
    cbn [for_each]. unfold bind at 1. rewrite Hadd. exact Hrun.
Qed.

(** The [try] block under its handler adds to [new_urls] the urls of the
    records it admits, and stores content records under the url of the
    raw record. *)
Lemma run_guarded_more name scraper start_date end_date full r s :
  Forall content_consistent (sr_full_content r) →
  ∃ r' s',
    try_except (run_scraper_try name scraper start_date end_date full)
      (run_scraper_except name) (r, s) = (Returned tt, (r', s')) ∧
    sr_new_urls r'
    = sr_new_urls r
      ∪ list_to_set (urls_of (admitted (sr_existing_urls r)
                                (listed scraper start_date end_date))) ∧
    Forall content_consistent (sr_full_content r').
Proof.
  intros Hcons.
  unfold try_except, run_scraper_try, listed.
  destruct (scrape_announcements scraper start_date end_date) as [l|msg] eqn:Hl.
  - set (s0 := log_call (CallListing name start_date end_date)
                 (print_line "Step 1: Scraping announcements list..." s)).
    destruct (admit_all_new_urls l [] r s0) as (out & r1 & s1 & Hadm & Hnew1).
    destruct (admit_all_spec l [] r s0)
      as (added & r1' & s1' & Hadm' & _ & _ & _ & _ & (_ & Hfc1 & _) & _).
    rewrite Hadm' in Hadm. injection Hadm as <- -> ->.
    assert (Forall content_consistent (sr_full_content r1)) as Hcons1
      by (by rewrite Hfc1).
    assert (∃ s2, scrape_new_announcements name scraper start_date end_date (r, s)
                  = (Returned (admitted (sr_existing_urls r) l), (r1, s2)))
      as (s2 & Hrun1).
    { eexists. unfold scrape_new_announcements.
      erewrite bind_returned by reflexivity.
      erewrite bind_returned
        by (unfold lift, call_scrape_announcements; cbn; rewrite Hl; reflexivity).
      erewrite bind_returned by exact Hadm'.
      cbn. reflexivity. }
    erewrite bind_returned by exact Hrun1.
    set (kept := admitted (sr_existing_urls r) l) in *.
    destruct (full && nonempty (urls_of kept)) eqn:Hgo.
    + destruct (scrape_full_content scraper (urls_of kept))
        as [pages|processed msg] eqn:Hpages.
      * set (s3 := log_call (CallContent name (urls_of kept))
                     (print_line "Step 2: Scraping full content for new items only..." s2)).
        destruct (add_all_content_more pages r1 s3 Hcons1)
          as (r2 & s4 & Hfor & Hnew2 & Hcons2).
        assert (∃ s5, scrape_new_content name scraper full kept (r1, s2)
                      = (Returned tt, (r2, s5))) as (s5 & Hrun2).
        { eexists. rewrite scrape_new_content_unfold.
          apply andb_true_iff in Hgo as [-> Hurls].
          rewrite (nonempty_urls_of _ Hurls), Hurls. cbn [andb when].
          erewrite bind_returned by reflexivity.
          erewrite bind_returned
            by (unfold lift, call_scrape_full_content; cbn -[urls_of];
                rewrite Hpages; reflexivity).
          erewrite bind_returned by exact Hfor.
          cbn. reflexivity. }
        erewrite bind_returned by exact Hrun2.
        rewrite update_run_statistics_eq.
        eexists _, _. split; [reflexivity|]. cbn. by rewrite Hnew2, Hnew1.
      * destruct (scrape_new_content_fails name scraper full kept r1 s2 processed msg
                    Hgo Hpages) as (s3 & Hrun2 & _).
        erewrite bind_raised by exact Hrun2.
        eexists _, _. split; [reflexivity|]. cbn. by split.
    + destruct (scrape_new_content_skipped name scraper full kept r1 s2 Hgo)
        as (s3 & Hrun2 & _).
      erewrite bind_returned by exact Hrun2.
      rewrite update_run_statistics_eq.
      eexists _, _. split; [reflexivity|]. cbn. by split.
  - destruct (scrape_new_announcements_fails name scraper start_date end_date r s msg Hl)
      as (s1 & Hrun1 & _).
    erewrite bind_raised by exact Hrun1.
    eexists _, _. split; [reflexivity|]. cbn. by rewrite (right_id_L ∅ (∪)).
Qed.

(** More of what a run returns: its [new_urls], and the urls of its
    content records. *)
Lemma run_scraper_more name start_date end_date full s scraper info_name :
  dict_get name (loaded_scrapers (self s)) = Some scraper →
  get_scraper_info scraper !! "name" = Some info_name →
  readable s = true →
  ∃ r s',
    run_scraper name start_date end_date full s = (Returned r, s') ∧
    sr_new_urls r
    = list_to_set (urls_of (admitted (known_urls (stored_entries s) (Some name))
                              (listed scraper start_date end_date))) ∧
    Forall content_consistent (sr_full_content r).
Proof.
  intros Hreg Hname Hread.
  set (website := default "Unknown" (get_scraper_info scraper !! "website")).
  set (s1 := print_line ("Running scraper: " +:+ info_name +:+ " for " +:+ website)
               (log_call (CallInfo name) s)).
  destruct (get_existing_urls_spec (Some name) s1 Hread) as (s2 & Hgidx & _).
  change (stored_entries s1) with (stored_entries s) in Hgidx.
  set (idx := known_urls (stored_entries s) (Some name)) in *.
  set (s3 := print_line ("Found " +:+ pretty (size idx)
                         +:+ " existing URLs, checking for duplicates...") s2).
  destruct (ScraperResult_init_spec info_name website idx s3)
    as (r0 & Hinit & _ & Hfc0 & _ & _ & _ & Hidx0).
  assert (sr_new_urls r0 = ∅) as Hnew0.
  { cbn in Hinit. by injection Hinit as <-. }
  destruct (run_guarded_more name scraper start_date end_date full r0 (draw (tick s3)))
    as (r' & s5 & Hguard & Hnew & Hcons).
  { rewrite Hfc0. constructor. }
  rewrite Hidx0, Hnew0, (left_id_L ∅ (∪)) in Hnew.
  exists r', (store_result name r' s5). split; [|by split].
  unfold run_scraper.
  erewrite bind_returned by reflexivity. cbn beta. rewrite Hreg.
  erewrite bind_returned by reflexivity.
  erewrite bind_returned by (unfold index; rewrite Hname; reflexivity).
  erewrite bind_returned by reflexivity.
  erewrite bind_returned by exact Hgidx.
  erewrite bind_returned by reflexivity.
  erewrite bind_returned by exact Hinit.
  erewrite bind_returned by (unfold on_object; rewrite Hguard; reflexivity).
  reflexivity.
Qed.

(** X14.  The [new_urls] of the result of a run are the non-empty urls of
    its announcements, and none of them is in the index the run started
    from: [new_urls_found] counts urls the store did not have. *)
Theorem new_urls_are_the_admitted_urls name start_date end_date full s scraper info_name :
  dict_get name (loaded_scrapers (self s)) = Some scraper →
  get_scraper_info scraper !! "name" = Some info_name →
  readable s = true →
  ∃ r s',
    run_scraper name start_date end_date full s = (Returned r, s') ∧
    (∀ u, u ∈ sr_new_urls r ↔ u ≠ "" ∧ u ∈ ann_url <$> sr_announcements r) ∧
    (∀ u, u ∈ sr_new_urls r → u ∉ sr_existing_urls r).
Proof.
  intros Hreg Hname Hread.
  destruct (run_scraper_spec name start_date end_date full s scraper info_name
              Hreg Hname Hread)
    as (r & s' & Hrun & Ha & Hcons & _ & Hidx & _).
  destruct (run_scraper_more name start_date end_date full s scraper info_name
              Hreg Hname Hread) as (r' & s'' & Hrun' & Hnew & _).
  rewrite Hrun in Hrun'. injection Hrun' as <- _.
  exists r, s'. split; [exact Hrun|].
  rewrite Hnew, Hidx. split.
  - intros u. rewrite elem_of_list_to_set, <- Ha, <- (stored_urls_of _ Hcons).
    rewrite list_elem_of_filter. done.
  - intros u Hu. apply elem_of_list_to_set in Hu. by eapply new_urls_unseen.
Qed.

Lemma new_urls_are_the_admitted_urls_witness :
  ∃ r s',
    run_scraper "x" "2024-01-01" "2024-01-31" true (machine [("x", mixed_plugin)] ∅)
    = (Returned r, s') ∧
    ∀ u, u ∈ sr_new_urls r → u ∉ sr_existing_urls r.
Proof.
  assert (readable (machine [("x", mixed_plugin)] ∅) = true) as H
    by (vm_compute; reflexivity).
  destruct (new_urls_are_the_admitted_urls "x" "2024-01-01" "2024-01-31" true
              (machine [("x", mixed_plugin)] ∅) mixed_plugin "X" eq_refl eq_refl H)
    as (r & s' & H1 & _ & H2).
  exists r, s'. split; [exact H1|exact H2].
Defined.

(** ** What a run leaves alone *)

Lemma run_scraper_on_garbled name start_date end_date full s scraper info_name why :
  dict_get name (loaded_scrapers (self s)) = Some scraper →
  get_scraper_info scraper !! "name" = Some info_name →
  master_file s = Some (Garbled why) →
  ∃ s',
    run_scraper name start_date end_date full s = (Raised RecursionError, s') ∧
    self s' = self s ∧ fs s' = fs s ∧
    calls s' = (calls s ++ [CallInfo name])%list.
Proof.
  intros Hreg Hname Hfile.
  set (website := default "Unknown" (get_scraper_info scraper !! "website")).
  set (s1 := print_line ("Running scraper: " +:+ info_name +:+ " for " +:+ website)
               (log_call (CallInfo name) s)).
  destruct (load_garbled_raises recursion_limit s1 why Hfile)
    as (s2 & Hload & Hself & Hfs & Hcalls).
  exists s2. split; [|by rewrite Hself, Hfs, Hcalls].
  unfold run_scraper.
  erewrite bind_returned by reflexivity. cbn beta. rewrite Hreg.
  erewrite bind_returned by reflexivity.
  erewrite bind_returned by (unfold index; rewrite Hname; reflexivity).
  erewrite bind_returned by reflexivity.
  erewrite bind_raised; [reflexivity|].
  unfold get_existing_urls. erewrite bind_raised; [reflexivity|exact Hload].
Qed.

Lemma run_scraper_frame name start_date end_date full s :
  fs (run_scraper name start_date end_date full s).2 = fs s ∧
  loaded_scrapers (self (run_scraper name start_date end_date full s).2)
  = loaded_scrapers (self s) ∧
  master_file_path (self (run_scraper name start_date end_date full s).2)
  = master_file_path (self s).
Proof.
  destruct (dict_get name (loaded_scrapers (self s))) as [scraper|] eqn:Hreg.
  - destruct (get_scraper_info scraper !! "name") as [info_name|] eqn:Hname.
    + destruct (master_file s) as [[d|why]|] eqn:Hfile.
      * destruct (run_scraper_spec name start_date end_date full s scraper info_name
                    Hreg Hname (readable_stored s d Hfile))
          as (r & s' & -> & _ & _ & _ & _ & _ & _ & _ & Hself & Hfs & _).
        cbn. by rewrite Hself, Hfs.
      * destruct (run_scraper_on_garbled name start_date end_date full s scraper
                    info_name why Hreg Hname Hfile) as (s' & -> & Hself & Hfs & _).
        cbn. by rewrite Hself, Hfs.
      * assert (readable s = true) as Hread by (unfold readable; by rewrite Hfile).
        destruct (run_scraper_spec name start_date end_date full s scraper info_name
                    Hreg Hname Hread)
          as (r & s' & -> & _ & _ & _ & _ & _ & _ & _ & Hself & Hfs & _).
        cbn. by rewrite Hself, Hfs.
    + assert (run_scraper name start_date end_date full s
              = (Raised (KeyError "name"), log_call (CallInfo name) s)) as ->.
      { unfold run_scraper.
        erewrite bind_returned by reflexivity. cbn beta. rewrite Hreg.
        erewrite bind_returned by reflexivity.
        erewrite bind_raised; [reflexivity|].
        unfold index. rewrite Hname. reflexivity. }
      done.
  - assert (∃ e, run_scraper name start_date end_date full s = (Raised e, s)) as (e & ->).
    { eexists. unfold run_scraper.
      erewrite bind_returned by reflexivity. cbn beta. rewrite Hreg. reflexivity. }
    done.
Qed.

(** X15.  Whatever its arguments and however it ends, [run_scraper] does
    not write to the file system and changes neither the registry of
    loaded collectors nor the path of the master file. *)
Theorem run_scraper_never_writes name start_date end_date full s :
  fs (run_scraper name start_date end_date full s).2 = fs s ∧
  loaded_scrapers (self (run_scraper name start_date end_date full s).2)
  = loaded_scrapers (self s) ∧
  master_file_path (self (run_scraper name start_date end_date full s).2)
  = master_file_path (self s).
Proof. apply run_scraper_frame. Qed.

(** X16.  With a master file that does not decode, [run_scraper] raises
    [RecursionError] out of the method, before its [try] block: the
    collector is asked for its info and for nothing else, no result is
    recorded and the file is left as it was. *)
Theorem run_scraper_garbled_store name start_date end_date full s scraper info_name why :
  dict_get name (loaded_scrapers (self s)) = Some scraper →
  get_scraper_info scraper !! "name" = Some info_name →
  master_file s = Some (Garbled why) →
  ∃ s',
    run_scraper name start_date end_date full s = (Raised RecursionError, s') ∧
    results (self s') = results (self s) ∧
    fs s' = fs s ∧
    calls s' = (calls s ++ [CallInfo name])%list.
Proof.
  intros Hreg Hname Hfile.
  destruct (run_scraper_on_garbled name start_date end_date full s scraper info_name why
              Hreg Hname Hfile) as (s' & Hrun & Hself & Hfs & Hcalls).
  exists s'. by rewrite Hself.
Qed.

Lemma run_scraper_garbled_store_witness :
  ∃ s',
    run_scraper "x" "2024-01-01" "2024-01-31" true machine_with_garbled_store
    = (Raised RecursionError, s') ∧
    fs s' = fs machine_with_garbled_store.
Proof.
  assert (master_file machine_with_garbled_store
          = Some (Garbled "Unterminated string starting at: line 1 column 2 (char 1)"))
    as H by (vm_compute; reflexivity).
  destruct (run_scraper_garbled_store "x" "2024-01-01" "2024-01-31" true
              machine_with_garbled_store mixed_plugin "X" _ eq_refl eq_refl H)
    as (s' & H1 & _ & H2 & _).
  exists s'. split; [exact H1|exact H2].
Defined.

(** ** Content is fetched once *)

(** X17.  Once a run is merged, no later run of the same collector hands
    to [scrape_full_content] a url that the merged run handed to it,
    whatever the dates and the flag of the later run. *)
Theorem merged_urls_are_not_fetched_again name s scraper info_name
    start1 end1 full1 start2 end2 full2 :
  dict_get name (loaded_scrapers (self s)) = Some scraper →
  get_scraper_info scraper !! "name" = Some info_name →
  readable s = true →
  ∃ r1 s1 r2 s2 urls1 urls2,
    run_and_merge name start1 end1 full1 s = (Returned r1, s1) ∧
    run_scraper name start2 end2 full2 s1 = (Returned r2, s2) ∧
    calls s1 = (calls s ++ CallInfo name :: scrape_calls name start1 end1 full1 urls1)%list ∧
    calls s2 = (calls s1 ++ CallInfo name :: scrape_calls name start2 end2 full2 urls2)%list ∧
    ∀ u, u ∈ urls1 → u ∉ urls2.
Proof.
  intros Hreg Hname Hread.
  destruct (run_scraper_spec name start1 end1 full1 s scraper info_name Hreg Hname Hread)
    as (r1 & sa & Hrun1 & Ha1 & Hcons1 & _ & _ & _ & _ & _ & Hself1 & Hfs1 & Hcalls1).
  assert (master_file sa = master_file s) as Hfile1.
  { unfold master_file. by rewrite Hself1, Hfs1. }
  assert (readable sa = true) as Hreada.
  { unfold readable. by rewrite Hfile1. }
  assert (stored_entries sa = stored_entries s) as Hent1.
  { unfold stored_entries. by rewrite Hfile1. }
  destruct (update_master_file_spec [(name, r1)] sa Hreada)
    as (d & s1 & Hmerge & Hd & _ & Hself2 & Hcalls2 & _ & Hfile2).
  rewrite Hent1 in Hd. cbn [foldl] in Hd.
  assert (dict_get name (loaded_scrapers (self s1)) = Some scraper) as Hreg2.
  { by rewrite Hself2, Hself1. }
  assert (stored_entries s1 = merge_result (stored_entries s) (name, r1)) as Hent2.
  { unfold stored_entries at 1. by rewrite Hfile2. }
  destruct (run_scraper_spec name start2 end2 full2 s1 scraper info_name
              Hreg2 Hname (readable_stored s1 d Hfile2))
    as (r2 & s2 & Hrun2 & _ & _ & _ & _ & _ & _ & _ & _ & _ & Hcalls3).
  rewrite Hent2 in Hcalls3.
  eexists r1, s1, r2, s2, _, _.
  split.
  { unfold run_and_merge. erewrite bind_returned by exact Hrun1.
    erewrite bind_returned by exact Hmerge. reflexivity. }
  split; [exact Hrun2|]. split; [by rewrite Hcalls2|]. split; [exact Hcalls3|].
  intros u Hu1 Hu2. apply new_urls_unseen in Hu2. apply Hu2.
  apply index_grows. right.
  unfold urls_of in Hu1. apply list_elem_of_fmap_1 in Hu1 as (a & -> & Ha).
  apply list_elem_of_filter in Ha as [Htruthy Ha].
  rewrite <- Ha1 in Ha. apply list_elem_of_fmap_1 in Ha as (b & -> & Hb).
  exists b. split; [exact Hb|].
  rewrite Forall_forall in Hcons1. rewrite (Hcons1 b Hb).
  split; [done|]. by apply truthy_iff, Is_true_true.
Qed.

Lemma merged_urls_are_not_fetched_again_witness :
  ∃ r1 s1 r2 s2,
    run_and_merge "x" "2024-01-01" "2024-01-31" true (machine [("x", mixed_plugin)] ∅)
    = (Returned r1, s1) ∧
    run_scraper "x" "2024-02-01" "2024-02-29" true s1 = (Returned r2, s2).
Proof.
  assert (readable (machine [("x", mixed_plugin)] ∅) = true) as H
    by (vm_compute; reflexivity).
  destruct (merged_urls_are_not_fetched_again "x" (machine [("x", mixed_plugin)] ∅)
              mixed_plugin "X" "2024-01-01" "2024-01-31" true
              "2024-02-01" "2024-02-29" true eq_refl eq_refl H)
    as (r1 & s1 & r2 & s2 & urls1 & urls2 & H1 & H2 & _).
  exists r1, s1, r2, s2. split; [exact H1|exact H2].
Defined.

(** ** Running every collector *)

Lemma elem_of_dict_set_keys {A} name (v : A) d k :
  k ∈ (dict_set name v d).*1 ↔ k = name ∨ k ∈ d.*1.
Proof.
  induction d as [|[k' v'] d IH]; cbn.
  - rewrite elem_of_cons, elem_of_nil. tauto.
  - destruct (bool_decide (k' = name)) eqn:Hk; cbn.
    + apply bool_decide_eq_true in Hk as ->. rewrite !elem_of_cons. tauto.
    + rewrite !elem_of_cons, IH. tauto.
Qed.

Lemma dict_set_fresh {A} name (v : A) d :
  name ∉ d.*1 → dict_set name v d = (d ++ [(name, v)])%list.
Proof.
  induction d as [|[k' v'] d IH]; cbn; [done|].
  intros [Hne Hnot]%not_elem_of_cons.
  rewrite bool_decide_eq_false_2 by done. by rewrite IH.
Qed.

Lemma dict_get_NoDup {A} (d : list (string * A)) k v :
  NoDup d.*1 → (k, v) ∈ d → dict_get k d = Some v.
Proof.
  induction d as [|[k' v'] d IH]; cbn; [by intros _ ?%elem_of_nil|].
  intros [Hnot Hnd]%NoDup_cons [Heq|Hin]%elem_of_cons.
  - injection Heq as -> ->. by rewrite bool_decide_eq_true_2.
  - rewrite bool_decide_eq_false_2; [by apply IH|].
    intros ->. apply Hnot. apply list_elem_of_fmap. by exists (k, v).
Qed.

(** The loop of [run_all_scrapers] ends without an exception, whatever
    the runs do. *)
Lemma run_each_returns names start_date end_date full : ∀ results s,
  ∃ results' s',
    run_each names start_date end_date full results s = (Returned results', s') ∧
    fs s' = fs s ∧
    loaded_scrapers (self s') = loaded_scrapers (self s) ∧
    ∀ k, k ∈ results'.*1 → k ∈ results.*1 ∨ k ∈ names.
Proof.
  induction names as [|name names IH]; intros results s.
  - exists results, s. split; [reflexivity|]. auto.
  - destruct (run_scraper_frame name start_date end_date full s) as (Hfs & Hreg & _).
    destruct (run_scraper name start_date end_date full s) as [[r|e] s1] eqn:Hrun.
    + destruct (IH (dict_set name r results) s1) as (results' & s' & Hall & Hfs' & Hreg' & Hk).
      exists results', s'. split.
      { cbn [run_each]. erewrite bind_returned; [exact Hall|].
        unfold try_except. erewrite bind_returned by exact Hrun. reflexivity. }
      cbn in Hfs, Hreg. split; [by rewrite Hfs'|]. split; [by rewrite Hreg'|].
      intros k Hin. destruct (Hk k Hin) as [H|H].
      * apply elem_of_dict_set_keys in H as [->|H]; [right; by left|by left].
      * right. by right.
    + destruct (IH results (print_line ("Failed to run scraper " +:+ name +:+ ": "
                                        +:+ exn_str e) s1))
        as (results' & s' & Hall & Hfs' & Hreg' & Hk).
      exists results', s'. split.
      { cbn [run_each]. erewrite bind_returned; [exact Hall|].
        unfold try_except. erewrite bind_raised by exact Hrun. reflexivity. }
      cbn in Hfs, Hreg. split; [by rewrite Hfs'|]. split; [by rewrite Hreg'|].
      intros k Hin. destruct (Hk k Hin) as [H|H]; [by left|right; by right].
Qed.

(** X18.  [run_all_scrapers] never raises, whatever the collectors and
    the master file are: an exception of a run is printed and the loop
    goes on.  It returns results under names of loaded collectors only
    and does not write to the file system. *)
Theorem run_all_scrapers_returns start_date end_date full s :
  ∃ results s',
    run_all_scrapers start_date end_date full s = (Returned results, s') ∧
    fs s' = fs s ∧
    ∀ k, k ∈ results.*1 → k ∈ (loaded_scrapers (self s)).*1.
Proof.
  destruct (run_each_returns (loaded_scrapers (self s)).*1 start_date end_date full [] s)
    as (results & s' & Hrun & Hfs & _ & Hk).
  exists results, s'. split; [|split; [exact Hfs|]].
  - unfold run_all_scrapers. erewrite bind_returned by reflexivity. exact Hrun.
  - intros k Hin. destruct (Hk k Hin) as [H|H]; [by apply elem_of_nil in H|exact H].
Qed.

Lemma run_each_spec start_date end_date full : ∀ todo acc s,
  readable s = true →
  (∀ k c, (k, c) ∈ todo → dict_get k (loaded_scrapers (self s)) = Some c) →
  NoDup todo.*1 →
  (∀ k, k ∈ todo.*1 → k ∉ acc.*1) →
  ∃ acc' s',
    run_each todo.*1 start_date end_date full acc s = (Returned acc', s') ∧
    acc'.*1 = (acc.*1 ++ (filter (λ kc, has_name kc.2 = true) todo).*1)%list.
Proof.
  induction todo as [|[name c] todo IH]; intros acc s Hread Hreg Hnd Hfresh.
  - exists acc, s. split; [reflexivity|]. cbn. by rewrite app_nil_r.
  - cbn in Hnd. apply NoDup_cons in Hnd as [Hnot Hnd].
    assert (dict_get name (loaded_scrapers (self s)) = Some c) as Hc
      by (apply Hreg; by left).
    destruct (get_scraper_info c !! "name") as [info_name|] eqn:Hname.
    + destruct (run_scraper_spec name start_date end_date full s c info_name Hc Hname Hread)
        as (r & s1 & Hrun & _ & _ & _ & _ & _ & _ & _ & Hself & Hfs & _).
      assert (readable s1 = true) as Hread1.
      { unfold readable, master_file in *. by rewrite Hself, Hfs. }
      assert (name ∉ acc.*1) as Hn by (apply Hfresh; by left).
      destruct (IH (dict_set name r acc) s1 Hread1) as (acc' & s' & Hall & Hkeys).
      { intros k c' Hin. rewrite Hself. cbn. apply Hreg. by right. }
      { exact Hnd. }
      { intros k Hin [->|Hk]%elem_of_dict_set_keys; [done|].
        apply (Hfresh k); [by right|done]. }
      exists acc', s'. split.
      { cbn [fmap list_fmap fst run_each]. erewrite bind_returned; [exact Hall|].
        unfold try_except. erewrite bind_returned by exact Hrun. reflexivity. }
      rewrite Hkeys, (dict_set_fresh _ _ _ Hn), fmap_app.
      rewrite filter_cons_True by (unfold has_name; cbn; rewrite Hname;
                                   by apply bool_decide_eq_true_2).
      cbn. by rewrite <- app_assoc.
    + set (s1 := print_line ("Failed to run scraper " +:+ name +:+ ": "
                             +:+ exn_str (KeyError "name"))
                   (log_call (CallInfo name) s)).
      destruct (IH acc s1 Hread) as (acc' & s' & Hall & Hkeys).
      { intros k c' Hin. apply Hreg. by right. }
      { exact Hnd. }
      { intros k Hin. apply Hfresh. by right. }
      exists acc', s'. split.
      { cbn [fmap list_fmap fst run_each]. erewrite bind_returned; [exact Hall|].
        unfold try_except. erewrite bind_raised; [reflexivity|].
        unfold run_scraper.
        erewrite bind_returned by reflexivity. cbn beta. rewrite Hc.
        erewrite bind_returned by reflexivity.
        erewrite bind_raised; [reflexivity|].
        unfold index. rewrite Hname. reflexivity. }
      rewrite Hkeys. rewrite filter_cons_False; [done|].
      unfold has_name. cbn. rewrite Hname. rewrite bool_decide_eq_false_2; [done|].
      by intros [? ?].
Qed.

(** X19.  With a master file that is absent or decodes and a registry
    whose names are distinct, [run_all_scrapers] returns one result for
    each loaded collector whose info has a [name], in the order of the
    registry, and none for the others: a collector that cannot be run
    does not stop the ones after it. *)
Theorem run_all_scrapers_results start_date end_date full s :
  readable s = true →
  NoDup (loaded_scrapers (self s)).*1 →
  ∃ found s',
    run_all_scrapers start_date end_date full s = (Returned found, s') ∧
    found.*1 = (filter (λ kc, has_name kc.2 = true) (loaded_scrapers (self s))).*1.
Proof.
  intros Hread Hnd.
  destruct (run_each_spec start_date end_date full (loaded_scrapers (self s)) [] s Hread)
    as (found & s' & Hrun & Hkeys).
  { intros k c Hin. by apply dict_get_NoDup. }
  { exact Hnd. }
  { intros k _. apply not_elem_of_nil. }
  exists found, s'. split; [|exact Hkeys].
  unfold run_all_scrapers. erewrite bind_returned by reflexivity. exact Hrun.
Qed.

Lemma run_all_scrapers_results_witness :
  ∃ found s',
    run_all_scrapers "2024-01-01" "2024-01-31" true
      (machine [("n", nameless_plugin); ("x", mixed_plugin)] ∅)
    = (Returned found, s') ∧
    found.*1 = ["x"].
Proof.
  assert (readable (machine [("n", nameless_plugin); ("x", mixed_plugin)] ∅) = true) as H
    by (vm_compute; reflexivity).
  assert (NoDup ["n"; "x"]) as Hnd.
  { apply NoDup_cons. split.
    - intros [Heq|Hin]%elem_of_cons; [discriminate Heq|by apply elem_of_nil in Hin].
    - apply NoDup_singleton. }
  destruct (run_all_scrapers_results "2024-01-01" "2024-01-31" true
              (machine [("n", nameless_plugin); ("x", mixed_plugin)] ∅) H Hnd)
    as (found & s' & H1 & H2).
  exists found, s'. split; [exact H1|]. rewrite H2. vm_compute. reflexivity.
Defined.

(** * Properties of the FDA collector *)

(** ** The listing *)

(** The inner loop keeps, in order, the announcements whose date is in
    the range, and raises the flag when one is older than the start. *)
Lemma filter_by_date_spec site start_dt end_dt page : ∀ filtered older out flag,
  filter_by_date site start_dt end_dt page filtered older = inl (out, flag) →
  out = (filtered ++ filter (λ a, dated_in_range site start_dt end_dt a = true) page)%list ∧
  flag = older || existsb (older_than site start_dt) page.
Proof.
  induction page as [|a page IH]; intros filtered older out flag H; cbn in H.
  - injection H as <- <-. split; [by rewrite app_nil_r|by rewrite orb_false_r].
  - unfold dated_in_range, older_than in *. cbn [existsb].
    rewrite filter_cons.
    destruct (truthy (fa_date a)); cbn [andb].
    + destruct (strptime site (fa_date a)) as [d|msg]; [|discriminate].
      destruct ((start_dt <=? d)%Z && (d <=? end_dt)%Z) eqn:Hin.
      * destruct (IH _ _ _ _ H) as [-> ->].
        rewrite decide_True by done. rewrite <- app_assoc. split; [done|].
        assert ((d <? start_dt)%Z = false) as -> by lia. done.
      * rewrite decide_False by done.
        destruct (d <? start_dt)%Z; destruct (IH _ _ _ _ H) as [-> ->];
          split; try done. by rewrite orb_true_r.
    + rewrite decide_False by done. exact (IH _ _ _ _ H).
Qed.

(** When a page has an announcement older than the start, the inner loop
    raises or ends with the flag up. *)
Lemma filter_by_date_older site start_dt end_dt page : ∀ filtered older,
  older || existsb (older_than site start_dt) page = true →
  match filter_by_date site start_dt end_dt page filtered older with
  | inl (_, flag) => flag = true
  | inr _ => True
  end.
Proof.
  induction page as [|a page IH]; intros filtered older H; cbn.
  - by rewrite orb_false_r in H.
  - cbn [existsb] in H. unfold older_than in H at 1.
    destruct (truthy (fa_date a)); cbn [andb] in H.
    + destruct (strptime site (fa_date a)) as [d|msg]; [|done].
      destruct ((start_dt <=? d)%Z && (d <=? end_dt)%Z) eqn:Hin.
      * apply IH. assert ((d <? start_dt)%Z = false) as Hd by lia.
        by rewrite Hd in H.
      * destruct (d <? start_dt)%Z; apply IH; [done|exact H].
    + apply IH. exact H.
Qed.

(** The outer loop, for any list of pages. *)
Lemma scan_pages_spec site start_dt end_dt pages : ∀ all fetched out fetched',
  scan_pages site start_dt end_dt pages all fetched = (out, fetched') →
  ∃ k,
    k ≤ length pages ∧
    fetched' = (fetched ++ take k pages)%list ∧
    (∀ i p, S i < k → pages !! i = Some p → scrape_page site p ≠ []) ∧
    (∀ i p, i < k → pages !! i = Some p → 0 < p →
            existsb (older_than site start_dt) (scrape_page site p) = true →
            k = S i) ∧
    (∀ i p, pages !! i = Some p → scrape_page site p = [] → k ≤ S i) ∧
    ∀ l, out = inl l →
         l = (all ++ flat_map (λ p, filter (λ a, dated_in_range site start_dt end_dt a = true)
                                      (scrape_page site p))
                      (take k pages))%list.
Proof.
  induction pages as [|page pages IH]; intros all fetched out fetched' H;
    cbn [scan_pages] in H.
  - injection H as <- <-. exists 0. cbn. rewrite !app_nil_r.
    repeat split; try done; try lia.
    intros l [= <-]. done.
  - destruct (scrape_page site page) as [|a0 rest0] eqn:Hpage; cbn [nonempty] in H.
    { injection H as <- <-. exists 1. cbn [length take].
      split; [lia|]. split; [by rewrite take_0|].
      split; [intros; lia|]. split.
      - intros [|i] p Hi Hp Hpos Hold; [|lia]. done.
      - split; [intros; lia|].
        intros l [= <-]. cbn. by rewrite take_0, Hpage, !app_nil_r. }
    destruct (filter_by_date site start_dt end_dt (a0 :: rest0) [] false)
      as [[filtered flag]|msg] eqn:Hfilter.
    2:{ injection H as <- <-. exists 1. cbn [length take].
        split; [lia|]. split; [by rewrite take_0|].
        split; [intros; lia|]. split.
        - intros [|i] p Hi Hp Hpos Hold; [|lia]. done.
        - split; [|intros l Hl; discriminate Hl].
          intros [|i] p Hp He; [|lia]. cbn in Hp. injection Hp as <-. congruence. }
    destruct (filter_by_date_spec _ _ _ _ _ _ _ _ Hfilter) as [Hfiltered Hflag].
    cbn [app] in Hfiltered. cbn [orb] in Hflag.
    destruct (flag && (0 <? page)) eqn:Hstop.
    { injection H as <- <-. exists 1. cbn [length take].
      split; [lia|]. split; [by rewrite take_0|].
      split; [intros; lia|]. split.
      - intros [|i] p Hi Hp Hpos Hold; [|lia]. done.
      - split.
        + intros [|i] p Hp He; [|lia]. cbn in Hp. injection Hp as <-. congruence.
        + intros l [= <-]. cbn. by rewrite take_0, Hpage, <- Hfiltered, !app_nil_r. }
    destruct (IH _ _ _ _ H) as (k & Hk & Hfetched & Hnonempty & Hold & Hempty & Hout).
    exists (S k). cbn [length take].
    split; [lia|]. split; [by rewrite Hfetched, <- app_assoc|].
    split; [|split; [|split]].
    + intros [|i] p Hi Hp.
      * cbn in Hp. injection Hp as <-. congruence.
      * cbn in Hp. apply (Hnonempty i p); [lia|exact Hp].
    + intros [|i] p Hi Hp Hpos Holder.
      * cbn in Hp. injection Hp as <-. exfalso.
        rewrite Hpage in Holder. rewrite Hflag, Holder in Hstop.
        apply Nat.ltb_lt in Hpos. rewrite Hpos in Hstop. discriminate Hstop.
      * cbn in Hp. f_equal. apply (Hold i p); [lia|done..].
    + intros [|i] p Hp He.
      * cbn in Hp. injection Hp as <-. congruence.
      * cbn in Hp. specialize (Hempty i p Hp He). lia.
    + intros l Hl. rewrite (Hout l Hl). cbn [flat_map].
      by rewrite Hpage, <- Hfiltered, <- app_assoc.
Qed.

Lemma valid_dates_scan site max_pages start_date end_date start_dt end_dt :
  strptime site start_date = inl start_dt →
  strptime site end_date = inl end_dt →
  fda_scrape_announcements site max_pages start_date end_date
  = scan_pages site start_dt end_dt (seq 0 max_pages) [] [].
Proof.
  intros Hs He. unfold fda_scrape_announcements, fda_validate_date_format.
  by rewrite Hs, He.
Qed.

Lemma seq_lookup_zero n i p : seq 0 n !! i = Some p → p = i ∧ i < n.
Proof.
  intros H. apply lookup_seq in H. lia.
Qed.

(** X20.  Every announcement [scrape_announcements] returns has a date,
    and the date parses to a day between the start and the end, both
    included; an announcement without a date is never returned. *)
Theorem fda_listing_in_range site max_pages start_date end_date l fetched :
  fda_scrape_announcements site max_pages start_date end_date = (inl l, fetched) →
  ∃ start_dt end_dt,
    strptime site start_date = inl start_dt ∧
    strptime site end_date = inl end_dt ∧
    ∀ a, a ∈ l →
         fa_date a ≠ "" ∧
         ∃ d, strptime site (fa_date a) = inl d ∧ (start_dt ≤ d ≤ end_dt)%Z.
Proof.
  intros H.
  destruct (strptime site start_date) as [start_dt|m1] eqn:Hs.
  2:{ unfold fda_scrape_announcements, fda_validate_date_format in H.
      rewrite Hs in H. discriminate H. }
  destruct (strptime site end_date) as [end_dt|m2] eqn:He.
  2:{ unfold fda_scrape_announcements, fda_validate_date_format in H.
      rewrite Hs, He in H. discriminate H. }
  exists start_dt, end_dt. split; [done|]. split; [done|].
  rewrite (valid_dates_scan _ _ _ _ _ _ Hs He) in H.
  destruct (scan_pages_spec _ _ _ _ _ _ _ _ H) as (k & _ & _ & _ & _ & _ & Hout).
  rewrite (Hout l eq_refl). cbn [app].
  intros a Ha. apply list_elem_of_In, in_flat_map in Ha as (p & _ & Ha).
  apply list_elem_of_In, list_elem_of_filter in Ha as [Hin _].
  unfold dated_in_range in Hin. apply andb_true_iff in Hin as [Ht Hd].
  split; [by apply truthy_iff|].
  destruct (strptime site (fa_date a)) as [d|]; [|discriminate].
  exists d. split; [done|]. lia.
Qed.

Lemma fda_listing_in_range_witness :
  ∃ start_dt end_dt,
    strptime sample_site "2024-01-01" = inl start_dt ∧
    strptime sample_site "2024-01-31" = inl end_dt ∧
    ∀ a, a ∈ [sample_announcement "https://www.fda.gov/a" "2024-01-15"] →
         fa_date a ≠ "" ∧
         ∃ d, strptime sample_site (fa_date a) = inl d ∧ (start_dt ≤ d ≤ end_dt)%Z.
Proof.
  apply (fda_listing_in_range sample_site 10 "2024-01-01" "2024-01-31" _ [0; 1]).
  vm_compute. reflexivity.
Defined.

(** X21.  With dates that parse, [scrape_announcements] fetches the pages
    0, 1, 2, ... in order and at most [max_pages] of them; every page
    before the last one it fetched had announcements, so the first empty
    page ends the search; and when it returns, the result is made of the
    announcements in the range of the pages it fetched, page by page. *)
Theorem fda_pages_fetched site max_pages start_date end_date start_dt end_dt out fetched :
  strptime site start_date = inl start_dt →
  strptime site end_date = inl end_dt →
  fda_scrape_announcements site max_pages start_date end_date = (out, fetched) →
  ∃ k,
    k ≤ max_pages ∧
    fetched = seq 0 k ∧
    (∀ p, S p < k → scrape_page site p ≠ []) ∧
    (∀ p, p < max_pages → scrape_page site p = [] → k ≤ S p) ∧
    ∀ l, out = inl l →
         l = flat_map (λ p, filter (λ a, dated_in_range site start_dt end_dt a = true)
                              (scrape_page site p))
               fetched.
Proof.
  intros Hs He H. rewrite (valid_dates_scan _ _ _ _ _ _ Hs He) in H.
  destruct (scan_pages_spec _ _ _ _ _ _ _ _ H)
    as (k & Hk & Hfetched & Hnonempty & _ & Hempty & Hout).
  rewrite length_seq in Hk. cbn [app] in Hfetched.
  assert (take k (seq 0 max_pages) = seq 0 k) as Htake.
  { rewrite take_seq. f_equal. lia. }
  rewrite Htake in Hfetched, Hout.
  exists k. split; [exact Hk|]. split; [exact Hfetched|]. split; [|split].
  - intros p Hp. apply (Hnonempty p p Hp). apply lookup_seq. lia.
  - intros p Hp Hpage. apply (Hempty p p); [|exact Hpage]. apply lookup_seq. lia.
  - intros l Hl. rewrite Hfetched. exact (Hout l Hl).
Qed.

Lemma fda_pages_fetched_witness :
  ∃ k,
    k ≤ 10 ∧
    (fda_scrape_announcements sample_site 10 "2024-01-01" "2024-01-31").2 = seq 0 k.
Proof.
  destruct (fda_pages_fetched sample_site 10 "2024-01-01" "2024-01-31" 1%Z 31%Z
              (fda_scrape_announcements sample_site 10 "2024-01-01" "2024-01-31").1
              (fda_scrape_announcements sample_site 10 "2024-01-01" "2024-01-31").2
              eq_refl eq_refl)
    as (k & Hk & Hf & _).
  - apply surjective_pairing.
  - exists k. split; [exact Hk|exact Hf].
Defined.

(** X22.  A page after the first that has an announcement older than the
    start date is the last page fetched. *)
Theorem fda_stops_after_older_page site max_pages start_date end_date start_dt end_dt
    out fetched p a :
  strptime site start_date = inl start_dt →
  strptime site end_date = inl end_dt →
  fda_scrape_announcements site max_pages start_date end_date = (out, fetched) →
  p ∈ fetched → 0 < p →
  a ∈ scrape_page site p → older_than site start_dt a = true →
  S p ∉ fetched.
Proof.
  intros Hs He H Hp Hpos Ha Hold.
  rewrite (valid_dates_scan _ _ _ _ _ _ Hs He) in H.
  destruct (scan_pages_spec _ _ _ _ _ _ _ _ H)
    as (k & Hk & Hfetched & _ & Hstop & _).
  rewrite length_seq in Hk. cbn [app] in Hfetched.
  assert (take k (seq 0 max_pages) = seq 0 k) as Htake.
  { rewrite take_seq. f_equal. lia. }
  rewrite Htake in Hfetched. subst fetched.
  apply elem_of_seq in Hp.
  assert (k = S p) as ->.
  { apply (Hstop p p); [lia| |exact Hpos|].
    - apply lookup_seq. lia.
    - apply existsb_exists. exists a. split; [by apply list_elem_of_In|exact Hold]. }
  rewrite elem_of_seq. lia.
Qed.

Lemma fda_stops_after_older_page_witness :
  2 ∉ (fda_scrape_announcements sample_site 10 "2024-01-01" "2024-01-31").2.
Proof.
  apply (fda_stops_after_older_page sample_site 10 "2024-01-01" "2024-01-31" 1%Z 31%Z
           (fda_scrape_announcements sample_site 10 "2024-01-01" "2024-01-31").1
           (fda_scrape_announcements sample_site 10 "2024-01-01" "2024-01-31").2
           1 (sample_announcement "https://www.fda.gov/c" "2023-12-01")).
  - reflexivity.
  - reflexivity.
  - apply surjective_pairing.
  - vm_compute. apply elem_of_cons. right. apply elem_of_cons. by left.
  - lia.
  - apply elem_of_cons. by left.
  - reflexivity.
Defined.

Lemma filter_by_date_parses site start_dt end_dt page : ∀ filtered older,
  Forall (λ a, fa_date a = "" ∨ ∃ d, strptime site (fa_date a) = inl d) page →
  ∃ out flag, filter_by_date site start_dt end_dt page filtered older = inl (out, flag).
Proof.
  induction page as [|a page IH]; intros filtered older Hall; cbn.
  - by eexists _, _.
  - apply Forall_cons in Hall as [Ha Hall].
    destruct (truthy (fa_date a)) eqn:Ht; [|by apply IH].
    destruct Ha as [Ha|[d Hd]].
    + apply truthy_iff in Ht. done.
    + rewrite Hd. destruct (_ && _); [by apply IH|].
      destruct (_ <? _)%Z; by apply IH.
Qed.

(** The first of the pages still to fetch is always fetched. *)
Lemma scan_pages_fetches_first site start_dt end_dt page pages all fetched :
  page ∈ (scan_pages site start_dt end_dt (page :: pages) all fetched).2.
Proof.
  cbn [scan_pages].
  destruct (nonempty (scrape_page site page)); cbn [snd].
  2:{ apply elem_of_app. right. by left. }
  destruct (filter_by_date _ _ _ _ _ _) as [[filtered flag]|msg]; cbn [snd].
  2:{ apply elem_of_app. right. by left. }
  destruct (flag && (0 <? page)); cbn [snd].
  { apply elem_of_app. right. by left. }
  destruct (scan_pages site start_dt end_dt pages (all ++ filtered) (fetched ++ [page]))
    as [o fetched'] eqn:Hscan.
  destruct (scan_pages_spec _ _ _ _ _ _ _ _ Hscan) as (k & _ & -> & _).
  cbn [snd]. apply elem_of_app. left. apply elem_of_app. right. by left.
Qed.

(** X23.  An announcement older than the start date on the first page
    does not end the search: when the first page has announcements and
    their dates parse, the second page is fetched too, whatever the dates
    of the first page are. *)
Theorem fda_first_page_never_stops site max_pages start_date end_date start_dt end_dt :
  strptime site start_date = inl start_dt →
  strptime site end_date = inl end_dt →
  2 ≤ max_pages →
  scrape_page site 0 ≠ [] →
  Forall (λ a, fa_date a = "" ∨ ∃ d, strptime site (fa_date a) = inl d)
    (scrape_page site 0) →
  1 ∈ (fda_scrape_announcements site max_pages start_date end_date).2.
Proof.
  intros Hs He Hmax Hpage Hparse.
  rewrite (valid_dates_scan _ _ _ _ _ _ Hs He).
  destruct max_pages as [|[|n]]; [lia..|].
  change (seq 0 (S (S n))) with (0 :: 1 :: seq 2 n).
  cbn [scan_pages].
  destruct (scrape_page site 0) as [|a0 rest0] eqn:H0; [done|]. cbn [nonempty].
  destruct (filter_by_date_parses site start_dt end_dt (a0 :: rest0) [] false Hparse)
    as (out & flag & ->).
  rewrite andb_false_r.
  apply scan_pages_fetches_first.
Qed.

Lemma fda_first_page_never_stops_witness :
  1 ∈ (fda_scrape_announcements sample_site 10 "2024-01-01" "2024-01-31").2.
Proof.
  apply (fda_first_page_never_stops sample_site 10 "2024-01-01" "2024-01-31" 1%Z 31%Z).
  - reflexivity.
  - reflexivity.
  - lia.
  - discriminate.
  - apply Forall_cons. split; [right; eexists; reflexivity|].
    apply Forall_cons. split; [right; eexists; reflexivity|].
    apply Forall_nil_2.
Defined.

(** ** The content call *)

Lemma omap_cons_eq {A B} (f : A → option B) x l :
  omap f (x :: l) = match f x with Some y => y :: omap f l | None => omap f l end.
Proof. reflexivity. Qed.

Lemma fda_visit_all_omap site urls : ∀ acc,
  fda_visit_all site urls acc = (acc ++ omap (fda_content_of site) urls)%list.
Proof.
  induction urls as [|url urls IH]; intros acc.
  - cbn. by rewrite app_nil_r.
  - rewrite omap_cons_eq. cbn [fda_visit_all]. unfold fda_content_of at 1.
    destruct (truthy url); [|apply IH].
    destruct (visit site url) as [msg|extracted]; [apply IH|].
    destruct (truthy _); rewrite IH; [by rewrite <- app_assoc|done].
Qed.

Lemma fda_content_of_Some site url c :
  fda_content_of site url = Some c →
  url ≠ "" ∧ get_str (rc_text c) "url" = url ∧ get_str (rc_text c) "full_content" ≠ "".
Proof.
  unfold fda_content_of. destruct (truthy url) eqn:Hu; [|discriminate].
  destruct (visit site url) as [|extracted]; [discriminate|].
  destruct (truthy (get_str (rc_text (with_url url extracted)) "full_content")) eqn:Hc;
    [|discriminate].
  intros H. injection H as <-.
  split; [by apply truthy_iff|]. split; [|by apply truthy_iff].
  unfold get_str. cbn. by rewrite lookup_insert_eq.
Qed.

Lemma omap_urls_sublist site urls :
  ((λ c, get_str (rc_text c) "url") <$> omap (fda_content_of site) urls) `sublist_of` urls.
Proof.
  induction urls as [|url urls IH]; [done|]. rewrite omap_cons_eq.
  destruct (fda_content_of site url) as [c|] eqn:Hc.
  - destruct (fda_content_of_Some _ _ _ Hc) as (_ & Hurl & _).
    cbn. rewrite Hurl. by apply sublist_skip.
  - by apply sublist_cons.
Qed.

(** X24.  The FDA [scrape_full_content] returns content records for
    requested urls only, in the order of the request and at most one for
    each: every record it returns carries the url it was fetched from,
    which is not empty, and has a non-empty [full_content]; and every
    requested url that is not empty and whose page gives a text has its
    record in the result, wherever it is in the request: a url whose
    visit raises or gives no text is left out and the urls after it are
    still visited. *)
Theorem fda_content_for_requested_urls site urls :
  ((λ c, get_str (rc_text c) "url") <$> fda_scrape_full_content site urls)
    `sublist_of` urls ∧
  length (fda_scrape_full_content site urls) ≤ length urls ∧
  (∀ c, c ∈ fda_scrape_full_content site urls →
        get_str (rc_text c) "url" ≠ "" ∧ get_str (rc_text c) "full_content" ≠ "") ∧
  ∀ url extracted,
    url ∈ urls → url ≠ "" →
    visit site url = inr extracted →
    get_str (rc_text extracted) "full_content" ≠ "" →
    with_url url extracted ∈ fda_scrape_full_content site urls.
Proof.
  unfold fda_scrape_full_content. rewrite fda_visit_all_omap. cbn [app].
  split; [apply omap_urls_sublist|]. split; [|split].
  - pose proof (sublist_length _ _ (omap_urls_sublist site urls)) as H.
    by rewrite length_fmap in H.
  - intros c Hc. apply list_elem_of_omap in Hc as (url & _ & Hc).
    destruct (fda_content_of_Some _ _ _ Hc) as (Hne & Hurl & Hfc).
    split; [by rewrite Hurl|exact Hfc].
  - intros url extracted Hin Hne Hv Hfc.
    apply list_elem_of_omap. exists url. split; [exact Hin|].
    unfold fda_content_of. rewrite Hv.
    apply truthy_iff in Hne. rewrite Hne.
    assert (truthy (get_str (rc_text (with_url url extracted)) "full_content") = true)
      as ->; [|done].
    apply truthy_iff. cbn. unfold get_str in *. by rewrite lookup_insert_ne.
Qed.

Lemma fda_content_for_requested_urls_witness :
  with_url "https://www.fda.gov/a" (page "https://www.fda.gov/a")
  ∈ fda_scrape_full_content sample_site
      [""; "https://www.fda.gov/missing"; "https://www.fda.gov/a"].
Proof.
  apply (fda_content_for_requested_urls sample_site
           [""; "https://www.fda.gov/missing"; "https://www.fda.gov/a"]).
  - rewrite !elem_of_cons. right. right. left. reflexivity.
  - discriminate.
  - reflexivity.
  - vm_compute. discriminate.
Defined.

(** ** The FDA collector under the orchestrator *)

(** X25.  A date that does not parse makes the FDA collector raise before
    it fetches any page; a run of the orchestrator records it as its only
    error, with the text of the collector, and returns no announcement
    and no content. *)
Theorem fda_invalid_date_is_reported name start_date end_date full s site max_pages :
  dict_get name (loaded_scrapers (self s)) = Some (FDAScraper site max_pages) →
  readable s = true →
  fda_validate_date_format site start_date = false
  ∨ fda_validate_date_format site end_date = false →
  (fda_scrape_announcements site max_pages start_date end_date).2 = [] ∧
  ∃ r s',
    run_scraper name start_date end_date full s = (Returned r, s') ∧
    sr_announcements r = [] ∧ sr_full_content r = [] ∧
    sr_errors r
    = ["Error running scraper " +:+ name +:+ ": Invalid date format. Use YYYY-MM-DD"].
Proof.
  intros Hreg Hread Hbad.
  assert (fda_scrape_announcements site max_pages start_date end_date
          = (inr "Invalid date format. Use YYYY-MM-DD", [])) as Hraise.
  { unfold fda_scrape_announcements. by destruct Hbad as [-> | ->]; rewrite ?orb_true_r. }
  split; [by rewrite Hraise|].
  assert (scrape_announcements (FDAScraper site max_pages) start_date end_date
          = ListingFails "Invalid date format. Use YYYY-MM-DD") as Hl.
  { cbn. by rewrite Hraise. }
  destruct (run_scraper_spec name start_date end_date full s (FDAScraper site max_pages)
              "FDA Press Announcements Scraper" Hreg eq_refl Hread)
    as (r & s' & Hrun & Ha & _ & _ & _ & Hfc & Herr & _).
  exists r, s'. split; [exact Hrun|].
  unfold listed in Ha, Hfc. rewrite Hl in Ha, Hfc.
  unfold run_errors in Herr. rewrite Hl in Herr.
  unfold fetched in Hfc. cbn in Ha, Hfc. rewrite andb_false_r in Hfc.
  apply fmap_nil_inv in Ha. apply fmap_nil_inv in Hfc.
  split; [exact Ha|]. split; [exact Hfc|exact Herr].
Qed.

Lemma fda_invalid_date_is_reported_witness :
  ∃ r s',
    run_scraper "fda_scraper" "01/01/2024" "2024-01-31" true
      (machine [("fda_scraper", FDAScraper sample_site 10)] ∅)
    = (Returned r, s') ∧
    sr_errors r
    = ["Error running scraper fda_scraper: Invalid date format. Use YYYY-MM-DD"].
Proof.
  assert (readable (machine [("fda_scraper", FDAScraper sample_site 10)] ∅) = true) as H
    by (vm_compute; reflexivity).
  destruct (fda_invalid_date_is_reported "fda_scraper" "01/01/2024" "2024-01-31" true
              (machine [("fda_scraper", FDAScraper sample_site 10)] ∅) sample_site 10
              eq_refl H (or_introl eq_refl))
    as (_ & r & s' & H1 & _ & _ & H2).
  exists r, s'. split; [exact H1|exact H2].
Defined.

(** X26.  A run of the FDA collector never records an error of the
    content phase: when the listing returns, [errors] is empty.  Every
    content record of the result is stored under the url of an
    announcement the same run admitted: the urls of the content records
    are, in order, among the non-empty urls of the announcements. *)
Theorem fda_run_content name start_date end_date full s site max_pages :
  dict_get name (loaded_scrapers (self s)) = Some (FDAScraper site max_pages) →
  readable s = true →
  ∃ r s',
    run_scraper name start_date end_date full s = (Returned r, s') ∧
    (∀ l fetched_pages,
       fda_scrape_announcements site max_pages start_date end_date
       = (inl l, fetched_pages) →
       sr_errors r = []) ∧
    (cnt_url <$> sr_full_content r)
      `sublist_of` filter (λ u, u ≠ "") (ann_url <$> sr_announcements r).
Proof.
  intros Hreg Hread.
  destruct (run_scraper_spec name start_date end_date full s (FDAScraper site max_pages)
              "FDA Press Announcements Scraper" Hreg eq_refl Hread)
    as (r & s' & Hrun & Ha & Hcons & _ & _ & Hfc & Herr & _).
  destruct (run_scraper_more name start_date end_date full s (FDAScraper site max_pages)
              "FDA Press Announcements Scraper" Hreg eq_refl Hread)
    as (r' & s'' & Hrun' & _ & Hcc).
  rewrite Hrun in Hrun'. injection Hrun' as <- _.
  exists r, s'. split; [exact Hrun|]. split.
  - intros l pages Hl. rewrite Herr. unfold run_errors. cbn.
    rewrite Hl. cbn. by destruct (full && _).
  - rewrite (stored_urls_of _ Hcons), Ha.
    set (urls := urls_of _) in *.
    assert (cnt_url <$> sr_full_content r
            = (λ c, get_str (rc_text c) "url") <$> (cnt_raw_data <$> sr_full_content r))
      as ->.
    { rewrite <- list_fmap_compose. apply Forall_fmap_ext_1.
      eapply Forall_impl; [exact Hcc|]. by intros c Hc. }
    rewrite Hfc. unfold fetched. cbn.
    destruct (full && nonempty urls); [|apply sublist_nil_l].
    unfold fda_scrape_full_content. rewrite fda_visit_all_omap.
    apply omap_urls_sublist.
Qed.

Lemma fda_run_content_witness :
  ∃ r s',
    run_scraper "fda_scraper" "2024-01-01" "2024-01-31" true
      (machine [("fda_scraper", FDAScraper sample_site 10)] ∅)
    = (Returned r, s') ∧
    (cnt_url <$> sr_full_content r)
      `sublist_of` filter (λ u, u ≠ "") (ann_url <$> sr_announcements r).
Proof.
  assert (readable (machine [("fda_scraper", FDAScraper sample_site 10)] ∅) = true) as H
    by (vm_compute; reflexivity).
  destruct (fda_run_content "fda_scraper" "2024-01-01" "2024-01-31" true
              (machine [("fda_scraper", FDAScraper sample_site 10)] ∅) sample_site 10
              eq_refl H)
    as (r & s' & H1 & _ & H2).
  exists r, s'. split; [exact H1|exact H2].
Defined.

(** ** Categories *)

Lemma contains_cons needle c haystack :
  contains needle haystack = true → contains needle (String c haystack) = true.
Proof. intros H. cbn [contains]. rewrite H. apply orb_true_r. Qed.

Lemma contains_after_prefix front needle haystack :
  String.prefix (front +:+ needle) haystack = true → contains needle haystack = true.
Proof.
  revert haystack. induction front as [|c front IH]; intros haystack H.
  - change (String.prefix needle haystack = true) in H.
    destruct haystack; cbn [contains]; by rewrite H.
  - change (String.prefix (String c (front +:+ needle)) haystack = true) in H.
    destruct haystack as [|c' haystack]; [done|].
    cbn [String.prefix] in H. destruct (Ascii.ascii_dec c c'); [|done].
    apply contains_cons, IH, H.
Qed.

Lemma contains_longer front needle haystack :
  contains (front +:+ needle) haystack = true → contains needle haystack = true.
Proof.
  induction haystack as [|c haystack IH]; cbn [contains]; intros H.
  - rewrite orb_false_r in H. by apply contains_after_prefix in H.
  - apply orb_true_iff in H as [H|H].
    + by apply contains_after_prefix in H.
    + by apply contains_cons, IH.
Qed.

(** X27.  [_categorize_announcement] answers "Medical Device" exactly
    for the titles that have, in lower case, none of the words of the two
    categories tested before it and the word "device": the word
    "medical device" of its list decides nothing, and a title with
    "device" and, say, "recall" is never a "Medical Device" one. *)
Theorem categorize_medical_device title :
  categorize_announcement title = "Medical Device" ↔
  any_in ["drug"; "medication"; "pharmaceutical"] (lower title) = false ∧
  any_in ["food"; "recall"; "contamination"] (lower title) = false ∧
  contains "device" (lower title) = true.
Proof.
  unfold categorize_announcement.
  destruct (any_in ["drug"; "medication"; "pharmaceutical"] (lower title)) eqn:Hd;
    [split; [done|by intros [? _]]|].
  destruct (any_in ["food"; "recall"; "contamination"] (lower title)) eqn:Hf;
    [split; [done|by intros (_ & ? & _)]|].
  assert (any_in ["medical device"; "device"] (lower title)
          = contains "device" (lower title)) as ->.
  { unfold any_in. cbn [existsb]. rewrite orb_false_r.
    destruct (contains "medical device" (lower title)) eqn:Hm; [|done].
    symmetry. by apply (contains_longer "medical "). }
  destruct (contains "device" (lower title)); [done|].
  split; [|by intros (_ & _ & ?)].
  destruct (any_in ["tobacco"; "cigarette"; "vaping"] (lower title)); [done|].
  by destruct (contains "roundup" (lower title)).
Qed.
